(** * DayZ PDA server: a shallow embedding of the REST handlers

    The repository holds two variants of one Express/Mongoose server:
    [src/server.js] and [src/unnamed/part_000].  Their handlers are the same
    text for most routes; they differ in the schema (field names, the case of
    the friend-request status strings, one more required path) and in the
    friend-request answer routes ([/friend-requests/:id/accept] and
    [/friend-requests/:id/decline] in the first, [/friend-requests/respond]
    in the second).  The embedding takes the variant as a parameter wherever
    the two files differ.

    The external collaborators are modelled by what the handlers rely on:
    - MongoDB/Mongoose: a store of three collections, documents addressed by
      [_id], [save] validating the schema before it writes, strings cast to
      ObjectIds where a query, an update or a new document names one;
    - jsonwebtoken: a symbolic token that records the key it was signed
      under and its claims;
    - bcryptjs: an interface ([Bcrypt]) with a hash and a compare function;
    - the clock, the salt and the fresh ObjectId of a request: fields of the
      request environment [Env].

    [package.json] is not among the sources.  Where the versions of Mongoose
    and of its bson behave differently in what a handler calls, the
    behaviour is a parameter ([Mongoose]).

    [part_000] as it is written cannot be evaluated: line 54 names
    [string], which is not declared ([load]).  Its handlers are embedded as
    the file registers them once that line reads [String], as line 35 of the
    same file does. *)

From Stdlib Require Import ZArith String Ascii List Bool Lia.
From Stdlib Require Import Sorting.Sorted Sorting.Permutation.
From stdpp Require Import base option list gmap strings fin_maps.
Import ListNotations.

Local Open Scope string_scope.
Local Open Scope Z_scope.

(** ** Identifiers, dates, variants *)

(** An ObjectId in its 24-digit hexadecimal string form, in lower case,
    which is the form [toString] and JSON give it: the documents of the
    store and the [id] that [generateToken] signs hold ObjectIds.  A string
    that arrives in a request (a route parameter, a path of the body) is
    not one until [castObjectId] has made it one. *)
Abbreviation ObjectId := string (only parsing).

(** A [Date], in seconds. *)
Abbreviation Date := Z (only parsing).

Inductive Variant := server_js | part_000.

#[global] Instance Variant_eq_dec : EqDecision Variant.
Proof. solve_decision. Defined.

(** ** jsonwebtoken (symbolic) *)

(** The decoded payload of a token: what [generateToken] signs, and the
    [iat]/[exp] claims that [expiresIn] adds.  [c_id] is [user._id], an
    ObjectId; a token signed under the secret with another payload is
    outside the model. *)
Record Claims := mkClaims {
  c_id : ObjectId;
  c_username : option string;
  c_iat : Z;
  c_exp : Z
}.

(** The value of the [Authorization] header: a token signed under some key,
    or any other string. *)
Inductive Token :=
| Signed (key : string) (claims : Claims)
| Opaque (raw : string).

Inductive JwtError :=
| JsonWebTokenError (msg : string)
| TokenExpiredError.

(** [jwt.sign(payload, secret, { expiresIn })] at time [now]. *)
Definition jwt_sign (uid : ObjectId) (uname : option string) (secret : string)
    (expiresIn : Z) (now : Z) : Token :=
  Signed secret {| c_id := uid; c_username := uname;
                   c_iat := now; c_exp := now + expiresIn |}.

(** [jwt.verify(token, secret)] at time [now]: the signature first, then the
    expiry ([clockTimestamp >= payload.exp] is expired). *)
Definition jwt_verify (t : Token) (secret : string) (now : Z) : JwtError + Claims :=
  match t with
  | Opaque _ => inl (JsonWebTokenError "jwt malformed")
  | Signed key claims =>
      if negb (String.eqb key secret) then inl (JsonWebTokenError "invalid signature")
      else if c_exp claims <=? now then inl TokenExpiredError
      else inr claims
  end.

(** ['1h'] *)
Definition one_hour : Z := 3600.

(** ** bcryptjs *)

Class Bcrypt := {
  (** [bcrypt.hash(password, rounds)] with the salt it drew *)
  bcrypt_hash : string -> nat -> string -> string;
  (** [bcrypt.compare(password, hash)] *)
  bcrypt_compare : string -> string -> bool
}.

(** ** Mongoose and bson

    Two behaviours that the handlers meet and that differ between the
    versions of the libraries. *)
Class Mongoose := {
  (** a sub-document has a [remove] method (Mongoose 6 and earlier; later
      versions have dropped it) *)
  subdocument_remove : bool;
  (** [new ObjectId(s)] takes a string [s] of 12 characters as the 12 bytes
      of the id (older versions of bson; later ones take a string of 24
      hexadecimal digits only) *)
  objectid_from_12_bytes : bool
}.

Fixpoint string_forallb (p : ascii -> bool) (s : string) : bool :=
  match s with
  | EmptyString => true
  | String c s' => p c && string_forallb p s'
  end.

Fixpoint string_map (f : ascii -> ascii) (s : string) : string :=
  match s with
  | EmptyString => EmptyString
  | String c s' => String (f c) (string_map f s')
  end.

(** [0-9a-f] *)
Definition is_lower_hex (c : ascii) : bool :=
  let n := nat_of_ascii c in
  (((48 <=? n) && (n <=? 57)) || ((97 <=? n) && (n <=? 102)))%nat.

(** [0-9a-fA-F] *)
Definition is_hex (c : ascii) : bool :=
  let n := nat_of_ascii c in
  (is_lower_hex c || ((65 <=? n) && (n <=? 70)))%nat.

Definition lower_hex (c : ascii) : ascii :=
  let n := nat_of_ascii c in
  if ((65 <=? n) && (n <=? 70))%nat then ascii_of_nat (n + 32) else c.

(** The hexadecimal digit of a number below 16. *)
Definition hex_digit (n : nat) : ascii :=
  if (n <? 10)%nat then ascii_of_nat (48 + n) else ascii_of_nat (87 + n).

(** [toHexString] of a sequence of bytes. *)
Fixpoint hex_of_bytes (s : string) : string :=
  match s with
  | EmptyString => EmptyString
  | String c s' =>
      let n := nat_of_ascii c in
      String (hex_digit (n / 16)) (String (hex_digit (n mod 16)) (hex_of_bytes s'))
  end.

(** The string is the string form of an ObjectId: 24 hexadecimal digits in
    lower case. *)
Definition is_ObjectId (s : string) : bool :=
  (String.length s =? 24)%nat && string_forallb is_lower_hex s.

(** Mongoose's cast of a string to an ObjectId, [new ObjectId(s)]: a string
    of 24 hexadecimal digits is the id with these digits, whatever their
    case; a string of 12 characters that are 12 bytes in UTF-8 is, for the
    versions of bson that take it, the id with these bytes; any other string
    is refused ([None]: the cast throws). *)
Definition castObjectId `{Mongoose} (s : string) : option ObjectId :=
  if (String.length s =? 24)%nat && string_forallb is_hex s
  then Some (string_map lower_hex s)
  else if (String.length s =? 12)%nat && objectid_from_12_bytes
          && string_forallb (fun c => (nat_of_ascii c <? 128)%nat) s
  then Some (hex_of_bytes s)
  else None.

(** ** The schema *)

Record FriendRequest := mkFriendRequest {
  fr_id : ObjectId;
  fr_from : ObjectId;
  fr_to : ObjectId;
  fr_status : string
}.

(** A [User] document without its [_id], which is the key it is stored
    under.  [createdAt] and [lastLogin] are [createdAtRT] and [lastLoginRT]
    in [part_000]; [createdAtST] is a path of [part_000] only. *)
Record User := mkUser {
  username : option string;
  steamId : option string;
  passwordHash : option string;
  createdAtST : option string;
  createdAt : Date;
  lastLogin : option Date;
  friends : list ObjectId;
  friendRequests : list FriendRequest;
  faction : string;
  isOnline : bool
}.

(** A [Message] document.  [m_createdAt] is [createdAt] in [server.js] and
    [createdAtRT] in [part_000]; [m_createdAtST] is a path of [part_000]
    only, declared there with [type: string], which is read as [String]
    (see [load]). *)
Record Message := mkMessage {
  m_id : ObjectId;
  m_userId : ObjectId;
  m_recipientId : option ObjectId;
  m_content : option string;
  m_isAnonymous : bool;
  m_createdAt : Date;
  m_createdAtST : option string
}.

Record Note := mkNote {
  n_id : ObjectId;
  n_userId : ObjectId;
  n_title : option string;
  n_content : option string;
  n_createdAt : Date;
  n_updatedAt : Date
}.

Definition status_enum (v : Variant) : list string :=
  match v with
  | server_js => ["pending"; "accepted"; "declined"]
  | part_000 => ["PENDING"; "ACCEPTED"; "DECLINED"]
  end.

Definition status_default (v : Variant) : string :=
  match v with
  | server_js => "pending"
  | part_000 => "PENDING"
  end.

Definition faction_enum (v : Variant) : list string :=
  match v with
  | server_js => ["LONER"; "UKM"; "ECOLOGISTS"; "MERCS"; "CLEAR_SKY";
                  "BROTHERHOOD"; "DUTY"; "FREEDOM"; "MONOLITH"; "RENEGADES"]
  | part_000 => ["LONER"; "UKM"; "ECOLOGIST"; "MERC"; "CLEAR_SKY";
                 "BROTHERHOOD"; "DUTY"; "FREEDOM"; "MONOLITH"; "RENEGADE"]
  end.

(** [createdAtST: { type: String, required: true }] of the User schema of
    [part_000]; its Message schema declares the path with [type: string],
    which is read as the same. *)
Definition requires_createdAtST (v : Variant) : bool :=
  match v with server_js => false | part_000 => true end.

(** Whether [lastLogin] is a path of the User schema.  In [part_000] the
    path is [lastLoginRT]. *)
Definition has_path_lastLogin (v : Variant) : bool :=
  match v with server_js => true | part_000 => false end.

Definition includes (x : string) (l : list string) : bool :=
  existsb (String.eqb x) l.

(** ** Errors and responses *)

Inductive Error :=
| TypeError (msg : string)
| ReferenceError (msg : string)
| ValidationError (path : string)
| CastError (path : string) (value : string)
| DuplicateKey (index : string) (value : string)
| BcryptError (msg : string)
| MongoError (msg : string).

(** [error.message].  The text of a [TypeError] or [ReferenceError] is the
    one the JavaScript engine gives.  The texts of the errors of Mongoose,
    of the MongoDB driver and of bcryptjs are not modelled: a description of
    the error stands in their place.  What the properties below rest on in
    an answer made from such an error is its status, 400, and what the
    store holds; where a lemma shows the text, it is this stand-in. *)
Definition message (e : Error) : string :=
  match e with
  | TypeError msg => msg
  | ReferenceError msg => msg
  | ValidationError path => "Path `" ++ path ++ "` is required or invalid."
  | CastError path value => "Cast to ObjectId failed for value " ++ value ++ " at path " ++ path
  | DuplicateKey index value => "E11000 duplicate key error index: " ++ index ++ " dup key: " ++ value
  | BcryptError msg => msg
  | MongoError msg => msg
  end.

(** Evaluating the file.  Line 54 of [part_000] is
    [createdAtST: { type: string, required: true }]; [string] is not
    declared, so building the Message schema throws before any route is
    registered and before [app.listen]. *)
Definition load (v : Variant) : option Error :=
  match v with
  | server_js => None
  | part_000 => Some (ReferenceError "string is not defined")
  end.

(** [friendRequests.from] after [populate]: the [_id] and the selected
    paths of the sender. *)
Record Sender := mkSender {
  s_id : ObjectId;
  s_username : option string;
  s_createdAt : option Date
}.

Record PopulatedRequest := mkPopulatedRequest {
  pr_id : ObjectId;
  pr_from : option Sender;
  pr_to : ObjectId;
  pr_status : string
}.

(** [userId] and [recipientId] of a message after [populate]. *)
Record Author := mkAuthor {
  a_id : ObjectId;
  a_username : option string;
  a_faction : string;
  a_createdAtST : option string
}.

Record PopulatedMessage := mkPopulatedMessage {
  pm_message : Message;
  pm_userId : option Author;
  pm_recipientId : option Author
}.

Record Metadata := mkMetadata {
  md_totalMessages : Z;
  md_currentPage : Z;
  md_totalPages : Z;
  md_limit : Z
}.

Inductive Body :=
| JError (msg : string)
| JMessage (msg : string)
| JTokenUser (token : Token) (uid : ObjectId) (user : User)
| JUser (uid : ObjectId) (user : User)
| JUserWithFriends (uid : ObjectId) (user : User) (populated : list (ObjectId * User))
| JGlobalPage (metadata : Metadata) (msgs : list PopulatedMessage)
| JDirectPage (page limit totalMessages : Z) (totalPages : option Z)
    (msgs : list PopulatedMessage)
| JCreatedMessage (m : Message)
| JNotes (ns : list Note)
| JNote (n : Note)
| JRequests (rs : list PopulatedRequest).

Record Response := mkResponse {
  res_status : Z;
  res_body : Body
}.

(** [res.json(body)] answers with status 200. *)
Definition json (b : Body) : Response := mkResponse 200 b.
Definition status_json (code : Z) (b : Body) : Response := mkResponse code b.

(** ** The store *)

(** An operation sent to the store.  A write of a user document that the
    store accepted is recorded with the document written. *)
Inductive DbOp :=
| Read (collection : string)
| Write (collection : string)
| WriteUser (uid : string) (doc : User).

Record Db := mkDb {
  users : gmap string User;
  messages : list Message;
  notes : list Note;
  (** every operation sent to the store so far, oldest first *)
  oplog : list DbOp
}.

Definition log (op : DbOp) (db : Db) : Db :=
  mkDb (users db) (messages db) (notes db) (oplog db ++ [op]).

Definition with_users (us : gmap string User) (db : Db) : Db :=
  mkDb us (messages db) (notes db) (oplog db).

Definition with_messages (ms : list Message) (db : Db) : Db :=
  mkDb (users db) ms (notes db) (oplog db).

Definition with_notes (ns : list Note) (db : Db) : Db :=
  mkDb (users db) (messages db) ns (oplog db).

(** ** The handler monad

    A handler runs over the store and ends in one of three ways: with a
    value, with a response already sent ([return res.status(..).json(..)]),
    or with an exception, which the [catch] of the handler turns into a
    400. *)

Inductive Outcome (A : Type) :=
| Value (a : A)
| Sent (r : Response)
| Thrown (e : Error).
Arguments Value {A} a.
Arguments Sent {A} r.
Arguments Thrown {A} e.

Definition Async (A : Type) : Type := Db -> Outcome A * Db.

Definition ret {A} (a : A) : Async A := fun db => (Value a, db).
Definition send {A} (r : Response) : Async A := fun db => (Sent r, db).
Definition throw {A} (e : Error) : Async A := fun db => (Thrown e, db).

Definition bind {A B} (m : Async A) (k : A -> Async B) : Async B :=
  fun db =>
    match m db with
    | (Value a, db') => k a db'
    | (Sent r, db') => (Sent r, db')
    | (Thrown e, db') => (Thrown e, db')
    end.

Notation "x <- m ;; k" := (bind m (fun x => k))
  (at level 100, m at next level, k at level 200, right associativity).
Notation "m ;; k" := (bind m (fun _ => k))
  (at level 100, k at level 200, right associativity).

Definition lift {A} (r : Error + A) : Async A :=
  match r with
  | inl e => throw e
  | inr a => ret a
  end.

(** [try { ... } catch (error) { res.status(400).json({ error: error.message }) }] *)
Definition try_catch (h : Async Response) (db : Db) : Response * Db :=
  match h db with
  | (Value r, db') => (r, db')
  | (Sent r, db') => (r, db')
  | (Thrown e, db') => (status_json 400 (JError (message e)), db')
  end.

(** ** Mongoose: validation and the store operations *)

(** The [required] validator of a String path: the value is a string, and
    not the empty one. *)
Definition required (x : option string) : bool :=
  match x with
  | Some s => negb (String.eqb s "")
  | None => false
  end.

(** The cast of the string at [path]; a string that is refused is a
    [CastError]. *)
Definition cast `{Mongoose} (path : string) (s : string) : Error + ObjectId :=
  match castObjectId s with
  | Some oid => inr oid
  | None => inl (CastError path s)
  end.

(** The validators of the User schema: the required paths and the two
    enums.  The handlers only ever write members of the enums, so on a
    stored document that satisfies the schema this is the validation that
    [save] runs. *)
Definition validate_user (v : Variant) (u : User) : option Error :=
  if negb (required (username u)) then Some (ValidationError "username")
  else if negb (required (steamId u)) then Some (ValidationError "steamId")
  else if negb (required (passwordHash u)) then Some (ValidationError "passwordHash")
  else if requires_createdAtST v && negb (required (createdAtST u))
  then Some (ValidationError "createdAtST")
  else if negb (includes (faction u) (faction_enum v))
  then Some (ValidationError "faction")
  else if negb (forallb (fun r => includes (fr_status r) (status_enum v)) (friendRequests u))
  then Some (ValidationError "friendRequests.status")
  else None.

(** The unique index on [username]: some other document has this name. *)
Definition username_taken (uid : ObjectId) (name : option string)
    (us : gmap string User) : bool :=
  existsb (fun p => negb (String.eqb (fst p) uid) && bool_decide (username (snd p) = name))
          (map_to_list us).

(** [User.findById(id)] for an ObjectId, or for the [id] of a verified
    token, which is the ObjectId [generateToken] signed.  A string of the
    request is cast first ([cast]). *)
Definition User_findById (uid : ObjectId) : Async (option User) :=
  fun db => (Value (users db !! uid), log (Read "users") db).

(** [User.findOne({ username })] *)
Definition find_by_username (name : string) (us : gmap string User)
    : option (ObjectId * User) :=
  snd <$> list_find (fun p => username (snd p) = Some name) (map_to_list us).

Definition User_findOne (name : string) : Async (option (ObjectId * User)) :=
  fun db => (Value (find_by_username name (users db)), log (Read "users") db).

(** [user.save()] on a document made by [new User(..)]: validation, then an
    insert that the [_id] and [username] indexes may refuse. *)
Definition User_insert (v : Variant) (uid : ObjectId) (u : User) : Async unit :=
  fun db =>
    match validate_user v u with
    | Some e => (Thrown e, db)
    | None =>
        let db1 := log (Write "users") db in
        if bool_decide (is_Some (users db !! uid))
        then (Thrown (DuplicateKey "_id_" uid), db1)
        else if username_taken uid (username u) (users db)
        then (Thrown (DuplicateKey "username_1" (default "" (username u))), db1)
        else (Value tt, with_users (<[uid := u]> (users db)) (log (WriteUser uid u) db))
    end.

(** [user.save()] on a document that was read from the store.  The write is
    modelled as replacing the stored document; for one request at a time
    and documents with different [_id]s that is what the update Mongoose
    sends amounts to. *)
Definition User_save (v : Variant) (uid : ObjectId) (u : User) : Async unit :=
  fun db =>
    match validate_user v u with
    | Some e => (Thrown e, db)
    | None => (Value tt, with_users (<[uid := u]> (users db)) (log (WriteUser uid u) db))
    end.

(** ** The request environment *)

Record Env := mkEnv {
  JWT_SECRET : string;  (** [process.env.JWT_SECRET] *)
  now : Z;              (** the clock when the request is served *)
  fresh : ObjectId;     (** the ObjectId given to a document created by the request *)
  salt : string         (** the salt [bcrypt.hash] draws *)
}.

(** ** Helper functions and middleware *)

Definition generateToken (env : Env) (uid : ObjectId) (user : User) : Token :=
  jwt_sign uid (username user) (JWT_SECRET env) one_hour (now env).

(** [!authHeader]: the header is missing or the empty string. *)
Definition no_header (h : option Token) : bool :=
  match h with
  | None => true
  | Some (Opaque "") => true
  | Some _ => false
  end.

(** The middleware: [next] is the handler it protects, which receives the
    decoded claims as [req.user]. *)
Definition authenticate (env : Env) (authHeader : option Token)
    (next : Claims -> Db -> Response * Db) (db : Db) : Response * Db :=
  if no_header authHeader
  then (status_json 401 (JError "No token provided"), db)
  else match authHeader with
       | None => (status_json 401 (JError "No token provided"), db)
       | Some t =>
           match jwt_verify t (JWT_SECRET env) (now env) with
           | inl _ => (status_json 403 (JError "Invalid token"), db)
           | inr decoded => next decoded db
           end
       end.

(** ** Documents *)

(** The body accepted by [new User(..)]: any path of the schema may be
    given.  [ub_lastLogin] and [ub_createdAt] are the values for the date
    paths of the variant. *)
Record UserBody := mkUserBody {
  ub_id : option string;
  ub_username : option string;
  ub_steamId : option string;
  ub_passwordHash : option string;
  ub_createdAtST : option string;
  ub_createdAt : option Date;
  ub_lastLogin : option Date;
  ub_friends : list string;
  ub_friendRequests : list FriendRequest;
  ub_faction : option string;
  ub_isOnline : option bool
}.

(** [new User(body)]: the schema defaults fill what the body leaves out;
    a key that is no path of the schema is dropped. *)
Definition new_User (v : Variant) (env : Env) (b : UserBody) : ObjectId * User :=
  (default (fresh env) (ub_id b),
   {| username := ub_username b;
      steamId := ub_steamId b;
      passwordHash := ub_passwordHash b;
      createdAtST := if requires_createdAtST v then ub_createdAtST b else None;
      createdAt := default (now env) (ub_createdAt b);
      lastLogin := ub_lastLogin b;
      friends := ub_friends b;
      friendRequests := ub_friendRequests b;
      faction := default "LONER" (ub_faction b);
      isOnline := default false (ub_isOnline b) |}).

Definition set_isOnline (b : bool) (u : User) : User :=
  mkUser (username u) (steamId u) (passwordHash u) (createdAtST u) (createdAt u)
         (lastLogin u) (friends u) (friendRequests u) (faction u) b.

Definition set_friends (fs : list ObjectId) (u : User) : User :=
  mkUser (username u) (steamId u) (passwordHash u) (createdAtST u) (createdAt u)
         (lastLogin u) fs (friendRequests u) (faction u) (isOnline u).

Definition set_friendRequests (rs : list FriendRequest) (u : User) : User :=
  mkUser (username u) (steamId u) (passwordHash u) (createdAtST u) (createdAt u)
         (lastLogin u) (friends u) rs (faction u) (isOnline u).

(** [user.lastLogin = date].  Where [lastLogin] is a path of the schema the
    document changes; where it is not, the assignment makes a plain property
    of the JavaScript object, which [save] does not write and [toJSON] does
    not show. *)
Definition assign_lastLogin (v : Variant) (date : Date) (u : User) : User :=
  if has_path_lastLogin v
  then mkUser (username u) (steamId u) (passwordHash u) (createdAtST u) (createdAt u)
              (Some date) (friends u) (friendRequests u) (faction u) (isOnline u)
  else u.

(** [user.friends.push(id)] *)
Definition push_friend (fid : ObjectId) (u : User) : User :=
  set_friends (friends u ++ [fid]) u.

(** ** Authentication routes *)

Record RegisterBody := mkRegisterBody {
  rb_username : option string;
  rb_password : option string;
  rb_steamId : option string
}.

Record LoginBody := mkLoginBody {
  lb_username : string;
  lb_password : string
}.

(** The [_id] of a new document: the one the body gives, cast, or a fresh
    one. *)
Definition new_id `{Mongoose} (env : Env) (given : option string) : Error + ObjectId :=
  match given with
  | Some s => cast "_id" s
  | None => inr (fresh env)
  end.

(** The cast of a path that may be absent. *)
Definition cast_given `{Mongoose} (path : string) (given : option string)
    : Error + option ObjectId :=
  match given with
  | Some s =>
      match cast path s with
      | inl e => inl e
      | inr oid => inr (Some oid)
      end
  | None => inr None
  end.

(** The cast of each string of a list. *)
Fixpoint cast_all `{Mongoose} (path : string) (l : list string) : Error + list ObjectId :=
  match l with
  | [] => inr []
  | s :: l' =>
      match cast path s, cast_all path l' with
      | inl e, _ => inl e
      | _, inl e => inl e
      | inr oid, inr oids => inr (oid :: oids)
      end
  end.

Definition cast_request `{Mongoose} (r : FriendRequest) : Error + FriendRequest :=
  match cast "friendRequests._id" (fr_id r), cast "friendRequests.from" (fr_from r),
        cast "friendRequests.to" (fr_to r) with
  | inr rid, inr from, inr to => inr (mkFriendRequest rid from to (fr_status r))
  | inl e, _, _ => inl e
  | _, inl e, _ => inl e
  | _, _, inl e => inl e
  end.

Fixpoint cast_requests `{Mongoose} (l : list FriendRequest) : Error + list FriendRequest :=
  match l with
  | [] => inr []
  | r :: l' =>
      match cast_request r, cast_requests l' with
      | inl e, _ => inl e
      | _, inl e => inl e
      | inr r', inr rs => inr (r' :: rs)
      end
  end.

(** The casts that [new User(body)] makes of the ObjectIds the body names:
    its [_id], its friends, and the ids of its friend-request records,
    which are taken to be complete.  A string that is refused makes [save]
    fail. *)
Definition cast_UserBody `{Mongoose} (b : UserBody) : Error + UserBody :=
  match cast_given "_id" (ub_id b),
        cast_all "friends" (ub_friends b), cast_requests (ub_friendRequests b) with
  | inr uid, inr fs, inr rs =>
      inr (mkUserBody uid (ub_username b) (ub_steamId b) (ub_passwordHash b)
                      (ub_createdAtST b) (ub_createdAt b) (ub_lastLogin b) fs rs
                      (ub_faction b) (ub_isOnline b))
  | inl e, _, _ => inl e
  | _, inl e, _ => inl e
  | _, _, inl e => inl e
  end.

Section Handlers.
Context `{Bcrypt} `{Mongoose}.
Variable v : Variant.
Variable env : Env.

(** [POST /auth/register] *)
Definition register (body : RegisterBody) : Async Response :=
  passwordHash <-
    match rb_password body with
    | None => throw (BcryptError "Illegal arguments: undefined, number")
    | Some password => ret (bcrypt_hash password 10%nat (salt env))
    end ;;
  let '(uid, user) :=
    new_User v env
      (mkUserBody None (rb_username body) (rb_steamId body) (Some passwordHash)
                  None None None [] [] None None) in
  User_insert v uid user ;;
  let token := generateToken env uid user in
  ret (status_json 201 (JTokenUser token uid user)).

(** [POST /auth/login] *)
Definition login (body : LoginBody) : Async Response :=
  found <- User_findOne (lb_username body) ;;
  match found with
  | None => send (status_json 404 (JError "User not found"))
  | Some (uid, user) =>
      isPasswordValid <-
        match passwordHash user with
        | None => throw (BcryptError "Illegal arguments: string, undefined")
        | Some h => ret (bcrypt_compare (lb_password body) h)
        end ;;
      if negb isPasswordValid
      then send (status_json 401 (JError "Invalid credentials"))
      else
        let user := assign_lastLogin v (now env) user in
        let user := set_isOnline true user in
        User_save v uid user ;;
        let token := generateToken env uid user in
        ret (json (JTokenUser token uid user))
  end.

(** [POST /auth/logout] *)
Definition logout (req_user : Claims) : Async Response :=
  found <- User_findById (c_id req_user) ;;
  match found with
  | None => send (status_json 404 (JError "User not found"))
  | Some user =>
      let user := set_isOnline false user in
      User_save v (c_id req_user) user ;;
      ret (json (JMessage "Logged out successfully"))
  end.

(** ** User routes *)

(** [POST /users] *)
Definition post_users (body : UserBody) : Async Response :=
  body <- lift (cast_UserBody body) ;;
  let '(uid, user) := new_User v env body in
  User_insert v uid user ;;
  ret (status_json 201 (JUser uid user)).

(** [User.findById(id).populate('friends')]: the friends that exist. *)
Definition populate_friends (u : User) : Async (list (ObjectId * User)) :=
  fun db =>
    (Value (omap (fun f => pair f <$> users db !! f) (friends u)),
     log (Read "users") db).

(** [GET /users/:id] *)
Definition get_user (id : string) : Async Response :=
  uid <- lift (cast "_id" id) ;;
  found <- User_findById uid ;;
  match found with
  | None => send (status_json 404 (JError "User not found"))
  | Some user =>
      populated <- populate_friends user ;;
      ret (json (JUserWithFriends uid user populated))
  end.

(** ** Message routes *)

Definition is_whitespace (c : ascii) : bool :=
  let n := nat_of_ascii c in
  ((n =? 32) || (n =? 9) || (n =? 10) || (n =? 11) || (n =? 12) || (n =? 13))%nat.

Fixpoint skip_whitespace (s : string) : string :=
  match s with
  | String c s' => if is_whitespace c then skip_whitespace s' else s
  | EmptyString => s
  end.

Definition digit_value (radix : Z) (c : ascii) : option Z :=
  let n := Z.of_nat (nat_of_ascii c) in
  let d := if (48 <=? n) && (n <=? 57) then Some (n - 48)
           else if (97 <=? n) && (n <=? 122) then Some (n - 87)
           else if (65 <=? n) && (n <=? 90) then Some (n - 55)
           else None in
  match d with
  | Some k => if k <? radix then Some k else None
  | None => None
  end.

(** The value of the longest prefix of digits; [None] when there is none. *)
Fixpoint parse_digits (radix : Z) (s : string) (acc : option Z) : option Z :=
  match s with
  | String c s' =>
      match digit_value radix c with
      | Some d => parse_digits radix s' (Some (radix * default 0 acc + d))
      | None => acc
      end
  | EmptyString => acc
  end.

Definition parse_unsigned (s : string) : option Z :=
  match s with
  | String "0" (String "x" s') => parse_digits 16 s' None
  | String "0" (String "X" s') => parse_digits 16 s' None
  | _ => parse_digits 10 s None
  end.

(** [Number.MAX_SAFE_INTEGER]: up to it the numbers of JavaScript are the
    integers, which is how they are modelled here. *)
Definition MAX_SAFE_INTEGER : Z := 2 ^ 53 - 1.

(** [parseInt(x)] of a query parameter, which is a string or [undefined];
    [None] is [NaN]. *)
Definition parseInt (x : option string) : option Z :=
  match x with
  | None => None
  | Some s =>
      match skip_whitespace s with
      | String "-" s' => Z.opp <$> parse_unsigned s'
      | String "+" s' => parse_unsigned s'
      | s' => parse_unsigned s'
      end
  end.

(** [n || d] for a number [n]: [NaN] and [0] are falsy. *)
Definition or_default (n : option Z) (d : Z) : Z :=
  match n with
  | None => d
  | Some 0 => d
  | Some z => z
  end.

(** [Math.ceil(a / b)] for integers [a] and [b <> 0]. *)
Definition Math_ceil_div (a b : Z) : Z := - ((- a) / b).

(** [.sort({ createdAt: -1 })], by insertion. *)
Fixpoint insert_newest_first (m : Message) (l : list Message) : list Message :=
  match l with
  | [] => [m]
  | x :: l' =>
      if m_createdAt x <=? m_createdAt m then m :: l
      else x :: insert_newest_first m l'
  end.

Definition sort_newest_first (l : list Message) : list Message :=
  foldr insert_newest_first [] l.

(** [.limit(n)]: [0] is no limit, a negative limit counts as its absolute
    value. *)
Definition apply_limit (n : Z) (l : list Message) : list Message :=
  if n =? 0 then l else firstn (Z.to_nat (Z.abs n)) l.

(** [Message.countDocuments(filter)] *)
Definition Message_countDocuments (f : Message -> bool) : Async Z :=
  fun db => (Value (Z.of_nat (length (List.filter f (messages db)))),
             log (Read "messages") db).

(** [Message.find(filter).sort({ createdAt: -1 }).skip(skip).limit(limit)] *)
Definition Message_find (f : Message -> bool) (skip limit : Z) : Async (list Message) :=
  fun db =>
    if skip <? 0
    then (Thrown (MongoError "Skip value must be non-negative"), log (Read "messages") db)
    else (Value (apply_limit limit
                   (skipn (Z.to_nat skip) (sort_newest_first (List.filter f (messages db))))),
          log (Read "messages") db).

Definition author_of (v : Variant) (uid : ObjectId) (u : User) : Author :=
  mkAuthor uid (username u) (faction u)
           (if requires_createdAtST v then createdAtST u else None).

(** [.populate('userId', ..)] and, when [both], [.populate('recipientId', ..)] *)
Definition populate_messages (v : Variant) (both : bool) (ms : list Message)
    : Async (list PopulatedMessage) :=
  fun db =>
    let author uid := author_of v uid <$> users db !! uid in
    (Value (map (fun m => mkPopulatedMessage m (author (m_userId m))
                            (if both then m_recipientId m ≫= author else None)) ms),
     log (Read "users") db).

Record GlobalQuery := mkGlobalQuery {
  gq_page : option string;
  gq_limit : option string
}.

Definition is_global (m : Message) : bool :=
  negb (bool_decide (is_Some (m_recipientId m))).

(** [GET /messages/global] *)
Definition messages_global (q : GlobalQuery) : Async Response :=
  let page := or_default (parseInt (gq_page q)) 1 in
  let limit := or_default (parseInt (gq_limit q)) 10 in
  totalMessages <- Message_countDocuments is_global ;;
  let totalPages := Math_ceil_div totalMessages limit in
  found <- Message_find is_global ((page - 1) * limit) limit ;;
  msgs <- populate_messages v false found ;;
  ret (json (JGlobalPage (mkMetadata totalMessages page totalPages limit) msgs)).

(** The query of [/messages/direct].  [dq_page] and [dq_limit] are the
    integers that the query strings denote; strings that are no decimal
    numeral of an integer are not modelled.  [dq_recipientId] is an
    ObjectId or the empty string; the cast of another string, which the
    query refuses, is not modelled. *)
Record DirectQuery := mkDirectQuery {
  dq_recipientId : option string;
  dq_page : option Z;
  dq_limit : option Z
}.

Definition is_direct (me other : ObjectId) (m : Message) : bool :=
  (String.eqb (m_userId m) me && bool_decide (m_recipientId m = Some other))
  || (String.eqb (m_userId m) other && bool_decide (m_recipientId m = Some me)).

(** [GET /messages/direct] *)
Definition messages_direct (req_user : Claims) (q : DirectQuery) : Async Response :=
  let page := default 1 (dq_page q) in
  let limit := default 10 (dq_limit q) in
  match dq_recipientId q with
  | None => send (status_json 400 (JError "Recipient ID is required"))
  | Some "" => send (status_json 400 (JError "Recipient ID is required"))
  | Some recipientId =>
      let skip := (page - 1) * limit in
      found <- Message_find (is_direct (c_id req_user) recipientId) skip limit ;;
      msgs <- populate_messages v true found ;;
      totalMessages <- Message_countDocuments (is_direct (c_id req_user) recipientId) ;;
      (* a division by zero gives Infinity or NaN, which JSON writes as null *)
      let totalPages := if limit =? 0 then None
                        else Some (Math_ceil_div totalMessages limit) in
      ret (json (JDirectPage page limit totalMessages totalPages msgs))
  end.

(** The body of [POST /messages]; any path of the schema may be given. *)
Record MessageBody := mkMessageBody {
  mb_id : option string;
  mb_userId : option string;
  mb_recipientId : option string;
  mb_content : option string;
  mb_isAnonymous : option bool;
  mb_createdAt : option Date;
  mb_createdAtST : option string
}.

(** [{ ...req.body, userId: id }] *)
Definition spread_with_userId (body : MessageBody) (uid : ObjectId) : MessageBody :=
  mkMessageBody (mb_id body) (Some uid) (mb_recipientId body) (mb_content body)
                (mb_isAnonymous body) (mb_createdAt body) (mb_createdAtST body).

(** [new Message(fields)], where [userId] is the [id] of the token.
    [userId] is required, so a document without it is refused; the [_id]
    and the [recipientId] that the body gives are cast, and a string that
    is refused makes [save] fail. *)
Definition new_Message (fields : MessageBody) : Error + Message :=
  match mb_userId fields, new_id env (mb_id fields), cast_given "recipientId" (mb_recipientId fields) with
  | None, _, _ => inl (ValidationError "userId")
  | Some _, inl e, _ => inl e
  | Some _, _, inl e => inl e
  | Some uid, inr mid, inr recipient =>
      inr {| m_id := mid;
             m_userId := uid;
             m_recipientId := recipient;
             m_content := mb_content fields;
             m_isAnonymous := default false (mb_isAnonymous fields);
             m_createdAt := default (now env) (mb_createdAt fields);
             m_createdAtST := if requires_createdAtST v then mb_createdAtST fields
                              else None |}
  end.

(** [message.save()] *)
Definition Message_save (doc : Error + Message) : Async Message :=
  fun db =>
    match doc with
    | inl e => (Thrown e, db)
    | inr m =>
        if negb (required (m_content m))
        then (Thrown (ValidationError "content"), db)
        else if requires_createdAtST v && negb (required (m_createdAtST m))
        then (Thrown (ValidationError "createdAtST"), db)
        else
          let db1 := log (Write "messages") db in
          if existsb (fun x => String.eqb (m_id x) (m_id m)) (messages db)
          then (Thrown (DuplicateKey "_id_" (m_id m)), db1)
          else (Value m, with_messages (messages db ++ [m]) db1)
    end.

(** [POST /messages] *)
Definition post_message (req_user : Claims) (body : MessageBody) : Async Response :=
  let message := new_Message (spread_with_userId body (c_id req_user)) in
  saved <- Message_save message ;;
  ret (status_json 201 (JCreatedMessage saved)).

(** ** Notes routes *)

Record NoteBody := mkNoteBody {
  nb_id : option string;
  nb_userId : option string;
  nb_title : option string;
  nb_content : option string;
  nb_createdAt : option Date;
  nb_updatedAt : option Date
}.

(** [Note.find({ userId })] *)
Definition Note_find (userId : ObjectId) : Async (list Note) :=
  fun db =>
    (Value (List.filter (fun n => String.eqb (n_userId n) userId) (notes db)),
     log (Read "notes") db).

(** [GET /notes/:userId] *)
Definition get_notes (userId : string) : Async Response :=
  owner <- lift (cast "userId" userId) ;;
  found <- Note_find owner ;;
  ret (json (JNotes found)).

(** [note.save()] of [new Note({ ...req.body, userId: id })], where [id] is
    the [id] of the token *)
Definition Note_save (body : NoteBody) (uid : ObjectId) : Async Note :=
  fun db =>
    match new_id env (nb_id body) with
    | inl e => (Thrown e, db)
    | inr nid =>
        let n := {| n_id := nid;
                    n_userId := uid;
                    n_title := nb_title body;
                    n_content := nb_content body;
                    n_createdAt := default (now env) (nb_createdAt body);
                    n_updatedAt := default (now env) (nb_updatedAt body) |} in
        if negb (required (n_title n))
        then (Thrown (ValidationError "title"), db)
        else if negb (required (n_content n))
        then (Thrown (ValidationError "content"), db)
        else
          let db1 := log (Write "notes") db in
          if existsb (fun x => String.eqb (n_id x) (n_id n)) (notes db)
          then (Thrown (DuplicateKey "_id_" (n_id n)), db1)
          else (Value n, with_notes (notes db ++ [n]) db1)
    end.

(** [POST /notes] *)
Definition post_note (req_user : Claims) (body : NoteBody) : Async Response :=
  note <- Note_save body (c_id req_user) ;;
  ret (status_json 201 (JNote note)).

(** The update [{ $set: body }] after its cast: the [_id] and the [userId]
    that the body gives are ObjectIds. *)
Record NoteUpdate := mkNoteUpdate {
  nu_id : option ObjectId;
  nu_userId : option ObjectId;
  nu_title : option string;
  nu_content : option string;
  nu_createdAt : option Date;
  nu_updatedAt : option Date
}.

Definition cast_update (body : NoteBody) : Error + NoteUpdate :=
  match cast_given "_id" (nb_id body), cast_given "userId" (nb_userId body) with
  | inr nid, inr uid =>
      inr (mkNoteUpdate nid uid (nb_title body) (nb_content body)
                        (nb_createdAt body) (nb_updatedAt body))
  | inl e, _ => inl e
  | _, inl e => inl e
  end.

Definition update_note (update : NoteUpdate) (n : Note) : Note :=
  {| n_id := n_id n;
     n_userId := default (n_userId n) (nu_userId update);
     n_title := match nu_title update with Some t => Some t | None => n_title n end;
     n_content := match nu_content update with Some t => Some t | None => n_content n end;
     n_createdAt := default (n_createdAt n) (nu_createdAt update);
     n_updatedAt := default (n_updatedAt n) (nu_updatedAt update) |}.

(** [Note.findByIdAndUpdate(id, body, { new: true })]: the id and the
    update are cast before anything is sent to the store; the update runs
    no validator. *)
Definition Note_findByIdAndUpdate (id : string) (body : NoteBody) : Async (option Note) :=
  nid <- lift (cast "_id" id) ;;
  update <- lift (cast_update body) ;;
  fun db =>
    let db1 := log (Write "notes") db in
    match List.find (fun n => String.eqb (n_id n) nid) (notes db) with
    | None => (Value None, db1)
    | Some n =>
        if negb (bool_decide (nu_id update = None ∨ nu_id update = Some nid))
        then (Thrown (MongoError "Performing an update on the path '_id' would modify the immutable field '_id'"), db1)
        else
          (Value (Some (update_note update n)),
           with_notes (map (fun x => if String.eqb (n_id x) nid then update_note update x else x)
                           (notes db)) db1)
    end.

(** [PUT /notes/:id] *)
Definition put_note (id : string) (body : NoteBody) : Async Response :=
  note <- Note_findByIdAndUpdate id body ;;
  match note with
  | None => send (status_json 404 (JError "Note not found"))
  | Some n => ret (json (JNote n))
  end.

(** [Note.findByIdAndDelete(id)]: the id is cast before anything is sent to
    the store. *)
Definition Note_findByIdAndDelete (id : string) : Async (option Note) :=
  nid <- lift (cast "_id" id) ;;
  fun db =>
    (Value (List.find (fun n => String.eqb (n_id n) nid) (notes db)),
     with_notes (List.filter (fun n => negb (String.eqb (n_id n) nid)) (notes db))
                (log (Write "notes") db)).

(** [DELETE /notes/:id] *)
Definition delete_note (id : string) : Async Response :=
  note <- Note_findByIdAndDelete id ;;
  match note with
  | None => send (status_json 404 (JError "Note not found"))
  | Some _ => ret (json (JMessage "Note deleted successfully"))
  end.

(** ** Friend request routes *)

(** JavaScript values met when the callback of [find] reads properties. *)
Inductive JsValue :=
| JsUndefined
| JsString (s : string).

(** [doc[path]] on a friend-request sub-document: the paths of its schema
    have values, every other property is [undefined]. *)
Definition subdoc_get (r : FriendRequest) (path : string) : JsValue :=
  if String.eqb path "_id" then JsString (fr_id r)
  else if String.eqb path "from" then JsString (fr_from r)
  else if String.eqb path "to" then JsString (fr_to r)
  else if String.eqb path "status" then JsString (fr_status r)
  else JsUndefined.

(** [value[name]] for a property that strings do not have: reading through
    [undefined] throws. *)
Definition get_member (value : JsValue) (name : string) : Error + JsValue :=
  match value with
  | JsUndefined =>
      inl (TypeError ("Cannot read properties of undefined (reading '" ++ name ++ "')"))
  | JsString _ => inr JsUndefined
  end.

Definition strict_equal (a b : JsValue) : bool :=
  match a, b with
  | JsUndefined, JsUndefined => true
  | JsString x, JsString y => String.eqb x y
  | _, _ => false
  end.

(** [(req) => req.from.toString() === req.user.id] inside
    [POST /friend-requests].  The parameter [req] hides the request of the
    handler: both sides are read from the sub-document. *)
Definition existing_request_callback (req : FriendRequest) : Error + bool :=
  let lhs := subdoc_get req "from" in
  match get_member (subdoc_get req "user") "id" with
  | inl e => inl e
  | inr rhs => inr (strict_equal lhs rhs)
  end.

(** [array.find(callback)] with a callback that may throw. *)
Fixpoint array_find {A} (callback : A -> Error + bool) (l : list A) : Error + option A :=
  match l with
  | [] => inr None
  | x :: l' =>
      match callback x with
      | inl e => inl e
      | inr true => inr (Some x)
      | inr false => array_find callback l'
      end
  end.

(** [recipient.friendRequests.push({ from, to })] *)
Definition push_request (from to : ObjectId) (u : User) : User :=
  set_friendRequests
    (friendRequests u ++ [mkFriendRequest (fresh env) from to (status_default v)]) u.

(** [POST /friend-requests].  The check against oneself compares the
    strings; [findById] and [push] cast [toUserId], so the recipient is the
    user whose ObjectId the string is a form of. *)
Definition send_request (req_user : Claims) (toUserId : option string) : Async Response :=
  if bool_decide (Some (c_id req_user) = toUserId)
  then send (status_json 400 (JError "You can't send a friend request to yourself."))
  else
    recipient <- match toUserId with
                 | Some id =>
                     to <- lift (cast "_id" id) ;;
                     found <- User_findById to ;;
                     ret (pair to <$> found)
                 | None => fun db => (Value None, log (Read "users") db)
                 end ;;
    match recipient with
    | Some (to, recipient) =>
        let isAlreadyFriend := includes (c_id req_user) (friends recipient) in
        if isAlreadyFriend
        then send (status_json 400 (JError "User is already your friend."))
        else
          existingRequest <- lift (array_find existing_request_callback
                                              (friendRequests recipient)) ;;
          match existingRequest with
          | Some _ => send (status_json 400 (JError "Friend request already sent."))
          | None =>
              let recipient := push_request (c_id req_user) to recipient in
              User_save v to recipient ;;
              ret (status_json 201 (JMessage "Friend request sent successfully."))
          end
    | None => send (status_json 404 (JError "User not found"))
    end.

(** [request.status = status] for the sub-document with this [_id]. *)
Fixpoint set_request_status (rid st : string) (rs : list FriendRequest)
    : list FriendRequest :=
  match rs with
  | [] => []
  | r :: rs' =>
      if String.eqb (fr_id r) rid
      then mkFriendRequest (fr_id r) (fr_from r) (fr_to r) st :: rs'
      else r :: set_request_status rid st rs'
  end.

(** [request.remove()], where a sub-document has the method: the parent
    array pulls [{ _id }]. *)
Definition remove_request (rid : string) (rs : list FriendRequest) : list FriendRequest :=
  List.filter (fun r => negb (String.eqb (fr_id r) rid)) rs.

(** [user.friendRequests.id(requestId)]: the argument is cast, and the
    sub-document with the [_id] it is a form of is the answer; for an
    argument that is refused, or none, the answer is [null]. *)
Definition subdoc_id (requestId : option string) (rs : list FriendRequest)
    : option FriendRequest :=
  match requestId ≫= castObjectId with
  | None => None
  | Some rid => List.find (fun r => String.eqb (fr_id r) rid) rs
  end.

Record RespondBody := mkRespondBody {
  rsp_requestId : option string;
  rsp_status : option string
}.

Definition null_user {A} (property : string) : Async A :=
  throw (TypeError ("Cannot read properties of null (reading '" ++ property ++ "')")).

(** [POST /friend-requests/respond] ([part_000]) *)
Definition respond (req_user : Claims) (body : RespondBody) : Async Response :=
  match rsp_status body with
  | None => send (status_json 400 (JError "Invalid status."))
  | Some status =>
      if negb (includes status ["ACCEPTED"; "DECLINED"])
      then send (status_json 400 (JError "Invalid status."))
      else
        found <- User_findById (c_id req_user) ;;
        match found with
        | None => null_user "friendRequests"
        | Some user =>
            match subdoc_id (rsp_requestId body) (friendRequests user) with
            | None => send (status_json 404 (JError "Friend request not found."))
            | Some request =>
                let user := set_friendRequests
                              (set_request_status (fr_id request) status (friendRequests user))
                              user in
                User_save v (c_id req_user) user ;;
                user <- (if String.eqb status "ACCEPTED"
                         then
                           sender <- User_findById (fr_from request) ;;
                           match sender with
                           | None => send (status_json 404 (JError "Sender not found."))
                           | Some sender =>
                               let user := push_friend (fr_from request) user in
                               let sender := push_friend (c_id req_user) sender in
                               User_save v (c_id req_user) user ;;
                               User_save v (fr_from request) sender ;;
                               ret user
                           end
                         else ret user) ;;
                (* request.remove() *)
                if subdocument_remove
                then
                  let user := set_friendRequests
                                (remove_request (fr_id request) (friendRequests user)) user in
                  User_save v (c_id req_user) user ;;
                  ret (json (JMessage ("Friend request " ++ status ++ ".")))
                else throw (TypeError "request.remove is not a function")
            end
        end
  end.

(** [.populate('friendRequests.from', select)]: each [from] becomes the
    sender with its [_id] and the selected paths, or [null] when there is
    no such user.  [username] is always among the selected paths;
    [createdAtRT] is selected in [part_000]. *)
Definition populate_request (us : gmap string User) (r : FriendRequest)
    : PopulatedRequest :=
  let sender uid :=
    (fun u => mkSender uid (username u)
                       (if requires_createdAtST v then Some (createdAt u) else None))
      <$> us !! uid in
  mkPopulatedRequest (fr_id r) (sender (fr_from r)) (fr_to r) (fr_status r).

Definition populate_requests (rs : list FriendRequest) : Async (list PopulatedRequest) :=
  fun db => (Value (map (populate_request (users db)) rs), log (Read "users") db).

(** [POST /friend-requests/:id/accept] ([server.js]) *)
Definition accept (req_user : Claims) (requestId : string) : Async Response :=
  found <- User_findById (c_id req_user) ;;
  match found with
  | None => null_user "friendRequests"
  | Some user =>
      populated <- populate_requests (friendRequests user) ;;
      match List.find (fun r => String.eqb (pr_id r) requestId) populated with
      | None =>
          send (status_json 404 (JError "Friend request not found or already processed."))
      | Some request =>
          if negb (String.eqb (pr_status request) "pending")
          then send (status_json 404 (JError "Friend request not found or already processed."))
          else
            match pr_from request with
            | None => null_user "_id"
            | Some from =>
                let user := push_friend (s_id from) user in
                otherUser <- User_findById (s_id from) ;;
                match otherUser with
                | None => null_user "friends"
                | Some otherUser =>
                    let otherUser := push_friend (c_id req_user) otherUser in
                    let user := set_friendRequests
                                  (set_request_status (pr_id request) "accepted"
                                                      (friendRequests user)) user in
                    User_save v (c_id req_user) user ;;
                    User_save v (s_id from) otherUser ;;
                    ret (json (JMessage "Friend request accepted."))
                end
            end
      end
  end.

(** [POST /friend-requests/:id/decline] ([server.js]) *)
Definition decline (req_user : Claims) (requestId : string) : Async Response :=
  found <- User_findById (c_id req_user) ;;
  match found with
  | None => null_user "friendRequests"
  | Some user =>
      match List.find (fun r => String.eqb (fr_id r) requestId) (friendRequests user) with
      | None =>
          send (status_json 404 (JError "Friend request not found or already processed."))
      | Some request =>
          if negb (String.eqb (fr_status request) "pending")
          then send (status_json 404 (JError "Friend request not found or already processed."))
          else
            let user := set_friendRequests
                          (set_request_status (fr_id request) "declined"
                                              (friendRequests user)) user in
            User_save v (c_id req_user) user ;;
            ret (json (JMessage "Friend request declined."))
      end
  end.

(** [GET /friend-requests] *)
Definition list_pending (req_user : Claims) : Async Response :=
  found <- User_findById (c_id req_user) ;;
  match found with
  | None => null_user "friendRequests"
  | Some user =>
      populated <- populate_requests (friendRequests user) ;;
      let incomingRequests :=
        List.filter (fun r => String.eqb (pr_status r) "pending") populated in
      ret (json (JRequests incomingRequests))
  end.

(** ** The application *)

Inductive Route :=
| POST_auth_register (body : RegisterBody)
| POST_auth_login (body : LoginBody)
| POST_auth_logout
| POST_users (body : UserBody)
| GET_users (id : string)
| GET_messages_global (q : GlobalQuery)
| GET_messages_direct (q : DirectQuery)
| POST_messages (body : MessageBody)
| GET_notes (userId : string)
| POST_notes (body : NoteBody)
| PUT_notes (id : string) (body : NoteBody)
| DELETE_notes (id : string)
| POST_friend_requests (toUserId : option string)
| POST_friend_requests_respond (body : RespondBody)
| POST_friend_requests_accept (requestId : string)
| POST_friend_requests_decline (requestId : string)
| GET_friend_requests.

Record Request := mkRequest {
  authorization : option Token;
  route : Route
}.

(** No route matches: Express answers 404 without calling a handler. *)
Definition not_found (db : Db) : Response * Db :=
  (status_json 404 (JError "Cannot find the route"), db).

(** The routing table: [app.METHOD(path, [authenticate,] handler)]. *)
Definition app (req : Request) (db : Db) : Response * Db :=
  let protected (handler : Claims -> Async Response) :=
    authenticate env (authorization req) (fun req_user => try_catch (handler req_user)) db in
  match route req with
  | POST_auth_register body => try_catch (register body) db
  | POST_auth_login body => try_catch (login body) db
  | POST_auth_logout => protected logout
  | POST_users body => try_catch (post_users body) db
  | GET_users uid => protected (fun _ => get_user uid)
  | GET_messages_global q => protected (fun _ => messages_global q)
  | GET_messages_direct q => protected (fun req_user => messages_direct req_user q)
  | POST_messages body => protected (fun req_user => post_message req_user body)
  | GET_notes userId => protected (fun _ => get_notes userId)
  | POST_notes body => protected (fun req_user => post_note req_user body)
  | PUT_notes nid body => protected (fun _ => put_note nid body)
  | DELETE_notes nid => protected (fun _ => delete_note nid)
  | POST_friend_requests toUserId => protected (fun req_user => send_request req_user toUserId)
  | POST_friend_requests_respond body =>
      match v with
      | part_000 => protected (fun req_user => respond req_user body)
      | server_js => not_found db
      end
  | POST_friend_requests_accept requestId =>
      match v with
      | server_js => protected (fun req_user => accept req_user requestId)
      | part_000 => not_found db
      end
  | POST_friend_requests_decline requestId =>
      match v with
      | server_js => protected (fun req_user => decline req_user requestId)
      | part_000 => not_found db
      end
  | GET_friend_requests => protected list_pending
  end.

(** The process: the file is evaluated, and where that throws, no server
    listens and no request is answered. *)
Definition served (req : Request) (db : Db) : option (Response * Db) :=
  match load v with
  | Some _ => None
  | None => Some (app req db)
  end.

End Handlers.

(** * Vocabulary of the properties *)

Definition unauthorized : Response := status_json 401 (JError "No token provided").
Definition forbidden : Response := status_json 403 (JError "Invalid token").

(** The tokens that [authenticate] lets through. *)
Definition accepted (env : Env) (h : option Token) : bool :=
  match h with
  | Some (Signed key claims) => String.eqb key (JWT_SECRET env) && (now env <? c_exp claims)
  | _ => false
  end.

(** The routes registered without the middleware. *)
Definition unprotected (r : Route) : bool :=
  match r with
  | POST_auth_register _ | POST_auth_login _ | POST_users _ => true
  | _ => false
  end.

(** The body with another [userId]. *)
Definition with_body_userId (uid : option ObjectId) (body : MessageBody) : MessageBody :=
  mkMessageBody (mb_id body) uid (mb_recipientId body) (mb_content body)
                (mb_isAnonymous body) (mb_createdAt body) (mb_createdAtST body).

Definition newer_or_equal (a b : Message) : Prop := m_createdAt b <= m_createdAt a.

(** The global messages of the store, newest first. *)
Definition global_messages (db : Db) : list Message :=
  sort_newest_first (List.filter is_global (messages db)).

(** The [n]-th page of [limit] entries. *)
Definition page_of (limit n : Z) (l : list Message) : list Message :=
  firstn (Z.to_nat limit) (skipn (Z.to_nat ((n - 1) * limit)) l).

Definition status_ok (v : Variant) (r : FriendRequest) : bool :=
  includes (fr_status r) (status_enum v).

Definition is_pending (r : PopulatedRequest) : bool := String.eqb (pr_status r) "pending".

Definition stored_valid (v : Variant) (db : Db) : Prop :=
  forall uid u, users db !! uid = Some u -> validate_user v u = None.

Definition preserves {A} (I : Db -> Prop) (m : Async A) : Prop :=
  forall db, I db -> I (snd (m db)).

(** The document [register] makes in [server.js]. *)
Definition registered `{Bcrypt} (env : Env) (name password steam : string) : User :=
  {| username := Some name;
     steamId := Some steam;
     passwordHash := Some (bcrypt_hash password 10%nat (salt env));
     createdAtST := None;
     createdAt := now env;
     lastLogin := None;
     friends := [];
     friendRequests := [];
     faction := "LONER";
     isOnline := false |}.

(** The request list of [uB] after [request.status = status] on the record
    [rid]. *)
Definition marked (rid : string) (uB : User) (status : string) : list FriendRequest :=
  set_request_status rid status (friendRequests uB).





(** Serving requests one after the other, each with its own environment. *)
Fixpoint serve `{Bcrypt} `{Mongoose} (v : Variant) (trace : list (Env * Request)) (db : Db)
    : Db :=
  match trace with
  | [] => db
  | (env, req) :: rest => serve v rest (snd (app v env req db))
  end.

(** The [GET] routes. *)
Definition read_only (r : Route) : bool :=
  match r with
  | GET_users _ | GET_messages_global _ | GET_messages_direct _ | GET_notes _
  | GET_friend_requests => true
  | _ => false
  end.

Definition is_read (op : DbOp) : bool :=
  match op with
  | Read _ => true
  | _ => false
  end.

(** [db] holds what [db0] holds, and the operations logged since are
    reads. *)
Definition only_reads (db0 db : Db) : Prop :=
  users db = users db0 /\ messages db = messages db0 /\ notes db = notes db0
  /\ exists ops, oplog db = (oplog db0 ++ ops)%list /\ forallb is_read ops = true.

(** The protected routes whose handler does not read [req.user]. *)
Definition identity_blind (r : Route) : bool :=
  match r with
  | GET_users _ | GET_messages_global _ | GET_notes _ | PUT_notes _ _ | DELETE_notes _ => true
  | _ => false
  end.

(** The body of [PUT /notes/:id] that names no path. *)
Definition empty_note_body : NoteBody := mkNoteBody None None None None None None.

(** What a request can do to an account: every user of [db0] is still a
    user of [db], with the same name, Steam id, password hash, creation
    dates and faction, and with a friend list that has only grown at its
    end. *)
Definition keeps_accounts (db0 db : Db) : Prop :=
  forall uid u,
    users db0 !! uid = Some u ->
    exists u',
      users db !! uid = Some u'
      /\ username u' = username u /\ steamId u' = steamId u
      /\ passwordHash u' = passwordHash u /\ createdAt u' = createdAt u
      /\ createdAtST u' = createdAtST u /\ faction u' = faction u
      /\ exists l, friends u' = (friends u ++ l)%list.

(** The messages of [db0] are the first messages of [db], unchanged. *)
Definition appends_messages (db0 db : Db) : Prop :=
  exists l, messages db = (messages db0 ++ l)%list.

(** The body of [POST /notes] with another [userId]. *)
Definition with_note_userId (uid : option ObjectId) (body : NoteBody) : NoteBody :=
  mkNoteBody (nb_id body) uid (nb_title body) (nb_content body)
             (nb_createdAt body) (nb_updatedAt body).

(** The notes that [GET /notes/:userId] lists. *)
Definition notes_of (userId : ObjectId) (db : Db) : list Note :=
  List.filter (fun n => String.eqb (n_userId n) userId) (notes db).

(** The status that the file gives a record that was accepted or
    declined. *)
Definition status_answered (v : Variant) (accepting : bool) : string :=
  match v, accepting with
  | server_js, true => "accepted"
  | server_js, false => "declined"
  | part_000, true => "ACCEPTED"
  | part_000, false => "DECLINED"
  end.






(** * Sample data

    A small instance of the bcrypt interface and a store with the three
    users named in the comments of [part_000], on which the handlers are
    evaluated. *)

(** Like bcrypt, this hash reads only a prefix of the password. *)
Definition toy_bcrypt : Bcrypt :=
  {| bcrypt_hash := fun password _ salt => "$2a$" ++ salt ++ "$" ++ substring 0 8 password;
     bcrypt_compare := fun password h =>
       match index 4 "$" h with
       | Some n => String.eqb (substring (S n) (String.length h) h) (substring 0 8 password)
       | None => false
       end |}.

(** A Mongoose whose sub-documents have [remove], with a bson that takes a
    string of 12 characters as an id; and one with neither, as the later
    versions are. *)
Definition older_mongoose : Mongoose :=
  {| subdocument_remove := true; objectid_from_12_bytes := true |}.
Definition newer_mongoose : Mongoose :=
  {| subdocument_remove := false; objectid_from_12_bytes := false |}.

Definition Skif : ObjectId := "6762cc5b39d00d9a50084f47".
Definition NikolaiVoronov : ObjectId := "6762c9970c9b582d4830a10a".
Definition TestUser1 : ObjectId := "676449d6dd307bef7516d90c".

Definition sample_user (name : string) : User :=
  {| username := Some name;
     steamId := Some "76561198000000000";
     passwordHash := Some "$2a$NaCl$zone";
     createdAtST := Some "2012-05-01 06:00";
     createdAt := 1000;
     lastLogin := None;
     friends := [];
     friendRequests := [];
     faction := "LONER";
     isOnline := false |}.

Definition sample_users : gmap string User :=
  <[Skif := sample_user "Skif"]>
    (<[NikolaiVoronov := sample_user "NikolaiVoronov"]>
       (<[TestUser1 := sample_user "TestUser1"]> ∅)).

Definition sample_db : Db := mkDb sample_users [] [] [].

Definition sample_env : Env :=
  mkEnv "s3cr3t" 5000 "6764a0000000000000000001" "NaCl".

Definition claims_of (uid : ObjectId) (name : string) (issued : Z) : Claims :=
  mkClaims uid (Some name) issued (issued + 3600).

(** A handler that answers with the identity it was given. *)
Definition whoami (req_user : Claims) (db : Db) : Response * Db :=
  (json (JMessage (c_id req_user ++ ":" ++ default "" (c_username req_user))), db).

Definition spoofed_request : Request :=
  mkRequest (Some (Signed "s3cr3t" (claims_of Skif "Skif" 4000)))
            (POST_messages (mkMessageBody None (Some NikolaiVoronov) None
                                          (Some "Anyone near the Cordon?") None None
                                          (Some "2012-05-01 06:10"))).

(** The spoofed request creates a message of Skif's, and the same one
    whichever [userId] the body names. *)
Definition spoof_has_no_effect (v : Variant) : Prop :=
  (exists m,
      fst (@app toy_bcrypt newer_mongoose v sample_env spoofed_request sample_db)
      = status_json 201 (JCreatedMessage m)
      /\ m_userId m = Skif
      /\ messages (snd (@app toy_bcrypt newer_mongoose v sample_env spoofed_request sample_db)) = [m])
  /\ @app toy_bcrypt newer_mongoose v sample_env
       (mkRequest (authorization spoofed_request)
          (POST_messages (mkMessageBody None (Some TestUser1) None
                            (Some "Anyone near the Cordon?") None None
                            (Some "2012-05-01 06:10")))) sample_db
     = @app toy_bcrypt newer_mongoose v sample_env spoofed_request sample_db.

(** Twenty-five global messages posted out of order, and two direct ones. *)
Definition sample_message (i : nat) : Message :=
  mkMessage ("6765a0000000000000000a" ++ String (hex_digit (i / 16)) (String (hex_digit (i mod 16)) ""))
            Skif None (Some "Get out of here, stalker")
            false (2000 + Z.of_nat ((i * 7) mod 25)) None.

Definition sample_board : Db :=
  mkDb sample_users
       (map sample_message (seq 0 25)
        ++ [mkMessage "6765a0000000000000000b01" Skif (Some TestUser1) (Some "psst") false 2100 None;
            mkMessage "6765a0000000000000000b02" TestUser1 (Some Skif) (Some "what") false 2101
                      None])
       [] [].

(** Skif holds a pending request from TestUser1 ([part_000]). *)
Definition request_1 : FriendRequest :=
  mkFriendRequest "6764b0000000000000000001" TestUser1 Skif "PENDING".

Definition sample_pending : Db :=
  with_users (<[Skif := set_friendRequests [request_1] (sample_user "Skif")]> sample_users)
             sample_db.

Definition skif_claims : Claims := claims_of Skif "Skif" 4000.

(** Three requests served by [part_000]: an unauthenticated [POST /users],
    TestUser1's friend request to Skif, Skif's acceptance. *)
Definition sample_trace : list (Env * Request) :=
  [(sample_env, mkRequest None (POST_users
      (mkUserBody None (Some "Stranger") (Some "7656") (Some "$2a$NaCl$anything")
                  (Some "2012-05-01 06:00") None None [Skif] [] None None)));
   (sample_env, mkRequest (Some (Signed "s3cr3t" (claims_of TestUser1 "TestUser1" 4000)))
                          (POST_friend_requests (Some Skif)));
   (sample_env, mkRequest (Some (Signed "s3cr3t" (claims_of Skif "Skif" 4000)))
                          (POST_friend_requests_respond
                             (mkRespondBody (Some "6764a0000000000000000001")
                                            (Some "ACCEPTED"))))].

(** Two notes of Skif's and one of TestUser1's. *)
Definition sample_notes : Db :=
  mkDb sample_users []
       [mkNote "6764c0000000000000000001" Skif (Some "Stash") (Some "Under the bridge") 3000 3000;
        mkNote "6764c0000000000000000002" TestUser1 (Some "Anomaly") (Some "Mind the bolts") 3100 3100;
        mkNote "6764c0000000000000000003" Skif (Some "Debt") (Some "Sidorovich, 500 RU") 3200 3200]
       [].

Definition skif_token : option Token := Some (Signed "s3cr3t" (claims_of Skif "Skif" 4000)).
Definition testuser1_token : option Token :=
  Some (Signed "s3cr3t" (claims_of TestUser1 "TestUser1" 4000)).

(** Skif holds a pending request from TestUser1 and an older, declined one
    from NikolaiVoronov ([server.js]). *)
Definition request_1_js : FriendRequest :=
  mkFriendRequest "6764b0000000000000000001" TestUser1 Skif "pending".

Definition request_0_js : FriendRequest :=
  mkFriendRequest "6764b0000000000000000000" NikolaiVoronov Skif "declined".

Definition sample_pending_js : Db :=
  with_users (<[Skif := set_friendRequests [request_0_js; request_1_js] (sample_user "Skif")]>
                sample_users)
             sample_db.

(** Skif holds a pending request whose sender is no user ([part_000]). *)
Definition request_ghost : FriendRequest :=
  mkFriendRequest "6764b0000000000000000009" "6762000000000000000000aa" Skif "PENDING".

Definition sample_ghost : Db :=
  with_users (<[Skif := set_friendRequests [request_ghost] (sample_user "Skif")]> sample_users)
             sample_db.

(** The store after Strelok registered ([server.js]), and a later moment. *)
Definition sample_registered : Db :=
  snd (try_catch (@register toy_bcrypt server_js sample_env
                    (mkRegisterBody (Some "Strelok") (Some "hunter2hunter2") (Some "7656")))
                 sample_db).

Definition later_env : Env := mkEnv "s3cr3t" 5100 "6764a0000000000000000002" "NaCl".

(** Skif has two friends, one of whom is no user any more. *)
Definition sample_friends : Db :=
  with_users (<[Skif := set_friends [TestUser1; "6762000000000000000000aa"] (sample_user "Skif")]>
                sample_users)
             sample_db.

(** One request: Skif posts a global message. *)
Definition sample_post : list (Env * Request) := [(sample_env, spoofed_request)].

(** * Properties *)

(** ** Casting to ObjectId *)

Lemma lower_hex_fixes (c : ascii) : is_lower_hex c = true -> lower_hex c = c.
Proof.
  unfold is_lower_hex, lower_hex. intros Hc.
  destruct ((65 <=? nat_of_ascii c)%nat && (nat_of_ascii c <=? 70)%nat) eqn:Hupper;
    [| reflexivity].
  exfalso. apply andb_true_iff in Hupper as [H1 H2].
  apply Nat.leb_le in H1. apply Nat.leb_le in H2.
  apply orb_true_iff in Hc as [Hc | Hc]; apply andb_true_iff in Hc as [H3 H4];
    apply Nat.leb_le in H3; apply Nat.leb_le in H4; lia.
Qed.

Lemma string_map_lower_hex (s : string) :
  string_forallb is_lower_hex s = true -> string_map lower_hex s = s.
Proof.
  induction s as [| c s IH]; [reflexivity |].
  cbn [string_forallb string_map]. intros Hs. apply andb_true_iff in Hs as [Hc Hs].
  rewrite (lower_hex_fixes c Hc), (IH Hs). reflexivity.
Qed.

Lemma string_forallb_impl (p q : ascii -> bool) (s : string) :
  (forall c, p c = true -> q c = true) ->
  string_forallb p s = true -> string_forallb q s = true.
Proof.
  intros Hpq. induction s as [| c s IH]; [reflexivity |].
  cbn [string_forallb]. intros Hs. apply andb_true_iff in Hs as [Hc Hs].
  rewrite (Hpq c Hc), (IH Hs). reflexivity.
Qed.

(** The cast of the string form of an ObjectId is that ObjectId. *)
Lemma castObjectId_ObjectId `{Mongoose} (s : string) :
  is_ObjectId s = true -> castObjectId s = Some s.
Proof.
  unfold is_ObjectId, castObjectId. intros Hs. apply andb_true_iff in Hs as [Hlen Hhex].
  rewrite Hlen.
  rewrite (string_forallb_impl is_lower_hex is_hex s); [| | exact Hhex].
  - cbn [andb]. rewrite (string_map_lower_hex s Hhex). reflexivity.
  - intros c Hc. unfold is_hex. rewrite Hc. reflexivity.
Qed.

Lemma cast_ObjectId `{Mongoose} (path s : string) :
  is_ObjectId s = true -> cast path s = inr s.
Proof. intros Hs. unfold cast. rewrite (castObjectId_ObjectId s Hs). reflexivity. Qed.

Lemma cast_inr `{Mongoose} (path s : string) (oid : ObjectId) :
  castObjectId s = Some oid -> cast path s = inr oid.
Proof. intros Hs. unfold cast. rewrite Hs. reflexivity. Qed.

Lemma cast_inr_inv `{Mongoose} (path s : string) (oid : ObjectId) :
  cast path s = inr oid -> castObjectId s = Some oid.
Proof. unfold cast. destruct (castObjectId s); congruence. Qed.

Lemma cast_inl `{Mongoose} (path s : string) :
  castObjectId s = None -> cast path s = inl (CastError path s).
Proof. intros Hs. unfold cast. rewrite Hs. reflexivity. Qed.

(** No string shorter than 12 characters is cast, whatever the library. *)
Lemma castObjectId_short `{Mongoose} (s : string) :
  (String.length s < 12)%nat -> castObjectId s = None.
Proof.
  intros Hlen. unfold castObjectId.
  destruct (Nat.eqb_spec (String.length s) 24) as [E | _]; [lia |].
  destruct (Nat.eqb_spec (String.length s) 12) as [E | _]; [lia |].
  reflexivity.
Qed.

Lemma required_Some (s : string) : s <> "" -> required (Some s) = true.
Proof.
  intros Hs. unfold required. apply negb_true_iff, String.eqb_neq. exact Hs.
Qed.

Lemma required_true (x : option string) :
  required x = true -> exists s, x = Some s /\ s <> "".
Proof.
  destruct x as [s |]; [| discriminate]. unfold required. intros Hs.
  apply negb_true_iff, String.eqb_neq in Hs. eauto.
Qed.

(** ** The Auth Gateway *)

Lemma jwt_verify_generateToken (issued : Env) (uid : ObjectId) (user : User)
    (secret : string) (t : Z) :
  JWT_SECRET issued = secret ->
  jwt_verify (generateToken issued uid user) secret t =
    if now issued + one_hour <=? t then inl TokenExpiredError
    else inr (mkClaims uid (username user) (now issued) (now issued + one_hour)).
Proof.
  intros <-. unfold generateToken, jwt_sign, jwt_verify.
  rewrite String.eqb_refl. reflexivity.
Qed.

Lemma jwt_verify_wrong_key (key secret : string) (claims : Claims) (t : Z) :
  key <> secret ->
  jwt_verify (Signed key claims) secret t = inl (JsonWebTokenError "invalid signature").
Proof.
  intros Hne. unfold jwt_verify.
  destruct (String.eqb_spec key secret) as [Heq | _]; [contradiction | reflexivity].
Qed.

Lemma authenticate_no_token (env : Env) (h : option Token)
    (next : Claims -> Db -> Response * Db) (db : Db) :
  no_header h = true -> authenticate env h next db = (unauthorized, db).
Proof. intros Hno. unfold authenticate. rewrite Hno. reflexivity. Qed.

Lemma authenticate_invalid (env : Env) (t : Token) (e : JwtError)
    (next : Claims -> Db -> Response * Db) (db : Db) :
  no_header (Some t) = false ->
  jwt_verify t (JWT_SECRET env) (now env) = inl e ->
  authenticate env (Some t) next db = (forbidden, db).
Proof. intros Hno Hverify. unfold authenticate. rewrite Hno, Hverify. reflexivity. Qed.

Lemma authenticate_valid (env : Env) (t : Token) (decoded : Claims)
    (next : Claims -> Db -> Response * Db) (db : Db) :
  no_header (Some t) = false ->
  jwt_verify t (JWT_SECRET env) (now env) = inr decoded ->
  authenticate env (Some t) next db = next decoded db.
Proof. intros Hno Hverify. unfold authenticate. rewrite Hno, Hverify. reflexivity. Qed.

Lemma jwt_verify_expired (key secret : string) (claims : Claims) (t : Z) :
  c_exp claims <= t ->
  exists e, jwt_verify (Signed key claims) secret t = inl e.
Proof.
  intros Hexp. unfold jwt_verify.
  destruct (negb (key =? secret)%string); [eauto |].
  destruct (Z.leb_spec (c_exp claims) t); [eauto | lia].
Qed.

Lemma jwt_verify_live (secret : string) (claims : Claims) (t : Z) :
  t < c_exp claims ->
  jwt_verify (Signed secret claims) secret t = inr claims.
Proof.
  intros Hlive. unfold jwt_verify. rewrite String.eqb_refl. cbn [negb].
  destruct (Z.leb_spec (c_exp claims) t); [lia | reflexivity].
Qed.

(** C7: [authenticate] answers 401 without a token, 403 for a token whose
    signature is not valid or whose expiry has passed, and otherwise hands
    the claims of the token (user id and username) to the handler it
    protects.  A token made by [generateToken] passes for one hour (3600
    seconds) after it was issued and is answered with 403 from then on. *)
Theorem authenticate_gate (env : Env) (h : option Token)
    (next : Claims -> Db -> Response * Db) (db : Db) :
  (no_header h = true -> authenticate env h next db = (unauthorized, db))
  /\ (forall raw, h = Some (Opaque raw) -> raw <> "" ->
      authenticate env h next db = (forbidden, db))
  /\ (forall key claims, h = Some (Signed key claims) ->
      key <> JWT_SECRET env \/ c_exp claims <= now env ->
      authenticate env h next db = (forbidden, db))
  /\ (forall claims, h = Some (Signed (JWT_SECRET env) claims) ->
      now env < c_exp claims ->
      authenticate env h next db = next claims db)
  /\ (forall issued uid user,
      h = Some (generateToken issued uid user) ->
      JWT_SECRET issued = JWT_SECRET env ->
      (now env < now issued + 3600 ->
       authenticate env h next db =
         next (mkClaims uid (username user) (now issued) (now issued + 3600)) db)
      /\ (now issued + 3600 <= now env ->
          authenticate env h next db = (forbidden, db))).
Proof.
  split; [| split; [| split; [| split]]].
  - apply authenticate_no_token.
  - intros raw -> Hraw.
    destruct raw as [| c raw]; [contradiction |].
    exact (authenticate_invalid env (Opaque (String c raw)) _ next db eq_refl eq_refl).
  - intros key claims -> [Hkey | Hexp].
    + exact (authenticate_invalid env (Signed key claims) _ next db eq_refl
               (jwt_verify_wrong_key key _ claims _ Hkey)).
    + destruct (jwt_verify_expired key (JWT_SECRET env) claims _ Hexp) as [e He].
      exact (authenticate_invalid env (Signed key claims) e next db eq_refl He).
  - intros claims -> Hlive.
    exact (authenticate_valid env (Signed (JWT_SECRET env) claims) claims next db eq_refl
             (jwt_verify_live _ claims _ Hlive)).
  - intros issued uid user -> Hsecret.
    pose proof (jwt_verify_generateToken issued uid user _ (now env) Hsecret) as Hverify.
    unfold one_hour in Hverify. split.
    + intros Hlive. apply authenticate_valid; [reflexivity |]. rewrite Hverify.
      destruct (Z.leb_spec (now issued + 3600) (now env)); [lia | reflexivity].
    + intros Hdead.
      apply (authenticate_invalid env _ TokenExpiredError); [reflexivity |]. rewrite Hverify.
      destruct (Z.leb_spec (now issued + 3600) (now env)); [reflexivity | lia].
Qed.

(** ** Lookups in the user collection *)

Lemma find_by_username_Some (name : string) (us : gmap string User)
    (uid : ObjectId) (u : User) :
  find_by_username name us = Some (uid, u) ->
  us !! uid = Some u /\ username u = Some name.
Proof.
  unfold find_by_username. intros Hfind.
  destruct (list_find _ _) as [[i p] |] eqn:E; [| discriminate].
  simpl in Hfind. injection Hfind as ->.
  apply list_find_Some in E as (Hlookup & Hname & _).
  split; [| exact Hname].
  apply elem_of_map_to_list. eapply list_elem_of_lookup_2. exact Hlookup.
Qed.

Lemma find_by_username_None (name : string) (us : gmap string User) :
  find_by_username name us = None <->
  (forall uid u, us !! uid = Some u -> username u <> Some name).
Proof.
  unfold find_by_username. split.
  - intros Hfind uid u Hu Hname.
    destruct (list_find _ _) as [[i p] |] eqn:E; [discriminate |].
    apply list_find_None in E. rewrite Forall_forall in E.
    apply (E (uid, u)); [| exact Hname].
    apply elem_of_map_to_list. exact Hu.
  - intros Hnone.
    destruct (list_find _ _) as [[i [uid u]] |] eqn:E; [| reflexivity].
    apply list_find_Some in E as (Hlookup & Hname & _).
    exfalso. apply (Hnone uid u); [| exact Hname].
    apply elem_of_map_to_list. eapply list_elem_of_lookup_2. exact Hlookup.
Qed.

Lemma find_by_username_is_Some (name : string) (us : gmap string User)
    (uid : ObjectId) (u : User) :
  us !! uid = Some u -> username u = Some name ->
  exists uid' u', find_by_username name us = Some (uid', u').
Proof.
  intros Hu Hname.
  destruct (find_by_username name us) as [[uid' u'] |] eqn:E; [eauto |].
  exfalso. exact (proj1 (find_by_username_None name us) E uid u Hu Hname).
Qed.

Lemma username_taken_true (uid other : ObjectId) (name : option string)
    (us : gmap string User) (u : User) :
  us !! other = Some u -> other <> uid -> username u = name ->
  username_taken uid name us = true.
Proof.
  intros Hu Hne Hname. unfold username_taken.
  apply existsb_exists. exists (other, u). split.
  - apply list_elem_of_In, elem_of_map_to_list. exact Hu.
  - simpl. apply andb_true_iff. split.
    + apply negb_true_iff, String.eqb_neq. exact Hne.
    + apply bool_decide_eq_true. exact Hname.
Qed.

Lemma username_taken_false (uid : ObjectId) (name : option string)
    (us : gmap string User) :
  (forall other u, us !! other = Some u -> username u <> name) ->
  username_taken uid name us = false.
Proof.
  intros Hfree. unfold username_taken.
  apply not_true_iff_false. intros Htaken.
  apply existsb_exists in Htaken as ([other u] & Hin & Hp).
  apply list_elem_of_In, elem_of_map_to_list in Hin.
  simpl in Hp. apply andb_true_iff in Hp as [_ Hname].
  apply bool_decide_eq_true in Hname.
  exact (Hfree other u Hin Hname).
Qed.

(** ** Registration and login *)

Section Registration.
Context `{Bcrypt} `{Mongoose}.
Variable env : Env.

Lemma register_duplicate (v : Variant) (db : Db) (body : RegisterBody) (name : string)
    (uid : ObjectId) (u : User) :
  rb_username body = Some name ->
  users db !! uid = Some u -> username u = Some name ->
  exists msg,
    fst (try_catch (register v env body) db) = status_json 400 (JError msg)
    /\ users (snd (try_catch (register v env body) db)) = users db.
Proof.
  intros Hbody Hu Hname.
  unfold try_catch, register, bind, ret, throw.
  destruct (rb_password body) as [password |]; [| eexists; split; reflexivity].
  cbn [new_User ub_id default]. unfold User_insert.
  destruct (validate_user v _) as [e |]; [eexists; split; reflexivity |].
  destruct (bool_decide (is_Some (users db !! fresh env))) eqn:Eid;
    [eexists; split; reflexivity |].
  rewrite (username_taken_true (fresh env) uid _ (users db) u Hu).
  - eexists; split; reflexivity.
  - intros ->. apply bool_decide_eq_false in Eid. apply Eid. eauto.
  - cbn. congruence.
Qed.

Lemma register_created (v : Variant) (db : Db) (body : RegisterBody) (r : Response) (db' : Db) :
  try_catch (register v env body) db = (r, db') ->
  res_status r = 201 ->
  exists password user,
    rb_password body = Some password
    /\ r = status_json 201 (JTokenUser (generateToken env (fresh env) user) (fresh env) user)
    /\ username user = rb_username body
    /\ passwordHash user = Some (bcrypt_hash password 10%nat (salt env))
    /\ users db !! fresh env = None
    /\ users db' = <[fresh env := user]> (users db).
Proof.
  unfold try_catch, register, bind, ret, throw.
  destruct (rb_password body) as [password |];
    [| intros [= <- <-]; discriminate].
  cbn [new_User ub_id default]. unfold User_insert.
  destruct (validate_user v _) as [e |]; [intros [= <- <-]; discriminate |].
  destruct (bool_decide (is_Some (users db !! fresh env))) eqn:Eid;
    [intros [= <- <-]; discriminate |].
  destruct (username_taken _ _ _); [intros [= <- <-]; discriminate |].
  intros [= <- <-] _. eexists password, _.
  repeat split.
  apply bool_decide_eq_false in Eid.
  destruct (users db !! fresh env); [exfalso; apply Eid; eauto | reflexivity].
Qed.

(** In [part_000] the schema requires [createdAtST], which [register] does
    not give the document: whatever the body, validation fails and nothing
    is written. *)
Lemma register_part_000 (db : Db) (body : RegisterBody) :
  exists msg,
    try_catch (register part_000 env body) db = (status_json 400 (JError msg), db).
Proof.
  unfold try_catch, register, bind, ret, throw.
  destruct (rb_password body) as [password |]; [| eexists; reflexivity].
  cbn [new_User ub_id default]. unfold User_insert, validate_user.
  cbn [username steamId passwordHash createdAtST requires_createdAtST required ub_username
       ub_steamId ub_passwordHash ub_createdAtST].
  destruct (negb (required (rb_username body))); [eexists; reflexivity |].
  destruct (negb (required (rb_steamId body))); [eexists; reflexivity |].
  destruct (negb (negb _)); eexists; reflexivity.
Qed.

(** C6: [register] fails when the username is already taken; what it stores
    and returns depends on the password only through its salted hash (two
    passwords with the same hash give the same response and the same
    store); a registration that answers 201 returns, together with the
    created user, whose [passwordHash] is the hash, a token signed under
    [JWT_SECRET] that names the [_id] and the username of that user and
    that [jwt.verify] accepts during the hour that follows; in [server.js]
    a registration with a free username, where the username, the Steam id
    and the hash are not empty, is such a success; in [part_000] no
    registration succeeds, the schema requiring a path that [register]
    leaves out. *)
Theorem register_spec (db : Db) (name password steam : string) :
  let body := mkRegisterBody (Some name) (Some password) (Some steam) in
  let token := Signed (JWT_SECRET env)
                      (mkClaims (fresh env) (Some name) (now env) (now env + 3600)) in
  (forall v uid u,
      users db !! uid = Some u -> username u = Some name ->
      exists msg,
        fst (try_catch (register v env body) db) = status_json 400 (JError msg)
        /\ users (snd (try_catch (register v env body) db)) = users db)
  /\ (forall v password',
      bcrypt_hash password 10%nat (salt env) = bcrypt_hash password' 10%nat (salt env) ->
      try_catch (register v env body) db
      = try_catch (register v env (mkRegisterBody (Some name) (Some password') (Some steam))) db)
  /\ (forall v r db',
      try_catch (register v env body) db = (r, db') ->
      res_status r = 201 ->
      exists user,
        r = status_json 201 (JTokenUser token (fresh env) user)
        /\ username user = Some name
        /\ passwordHash user = Some (bcrypt_hash password 10%nat (salt env))
        /\ users db' = <[fresh env := user]> (users db)
        /\ (forall t, now env <= t < now env + 3600 ->
              jwt_verify token (JWT_SECRET env) t
              = inr (mkClaims (fresh env) (Some name) (now env) (now env + 3600))))
  /\ (users db !! fresh env = None ->
      (forall uid u, users db !! uid = Some u -> username u <> Some name) ->
      name <> "" -> steam <> "" -> bcrypt_hash password 10%nat (salt env) <> "" ->
      try_catch (register server_js env body) db
      = (status_json 201 (JTokenUser token (fresh env) (registered env name password steam)),
         with_users (<[fresh env := registered env name password steam]> (users db))
                    (log (WriteUser (fresh env) (registered env name password steam)) db)))
  /\ (exists msg,
        try_catch (register part_000 env body) db = (status_json 400 (JError msg), db)).
Proof.
  cbv zeta. split; [| split; [| split; [| split]]].
  - intros v uid u Hu Hname.
    exact (register_duplicate v db (mkRegisterBody (Some name) (Some password) (Some steam))
             name uid u eq_refl Hu Hname).
  - intros v password' Hhash.
    unfold try_catch, register, bind, ret. cbn [rb_password rb_username rb_steamId].
    rewrite Hhash. reflexivity.
  - intros v r db' Hrun Hok.
    destruct (register_created v db _ r db' Hrun Hok)
      as (pw & user & Hpw & -> & Hname & Hhash & _ & Hstore).
    injection Hpw as <-. exists user.
    unfold generateToken, jwt_sign, one_hour. rewrite Hname. cbn [rb_username].
    split; [reflexivity |]. split; [reflexivity |]. split; [exact Hhash |].
    split; [exact Hstore |].
    intros t [_ Hlive]. apply jwt_verify_live. cbn [c_exp]. exact Hlive.
  - intros Hfresh Hfree Hname Hsteam Hhash.
    unfold try_catch, register, bind, ret. cbn [rb_password rb_username rb_steamId].
    cbn [new_User ub_id default]. unfold User_insert, validate_user.
    cbn [username steamId passwordHash createdAtST requires_createdAtST ub_username
         ub_steamId ub_passwordHash ub_createdAtST andb faction friendRequests ub_faction
         ub_friendRequests forallb default].
    rewrite (required_Some name Hname), (required_Some steam Hsteam),
      (required_Some _ Hhash).
    cbn [negb]. change (negb (includes "LONER" (faction_enum server_js))) with false.
    cbv iota. rewrite Hfresh.
    rewrite bool_decide_eq_false_2 by (intros [x Hx]; discriminate).
    rewrite username_taken_false; [reflexivity |].
    intros other u Hu. exact (Hfree other u Hu).
  - apply register_part_000.
Qed.

End Registration.

Lemma authenticate_gate_witness :
  authenticate sample_env None whoami sample_db = (unauthorized, sample_db)
  /\ authenticate sample_env (Some (Opaque "Bearer x")) whoami sample_db
     = (forbidden, sample_db)
  /\ authenticate sample_env (Some (Signed "guess" (claims_of Skif "Skif" 4000)))
                  whoami sample_db = (forbidden, sample_db)
  /\ authenticate sample_env (Some (Signed "s3cr3t" (claims_of Skif "Skif" 4000)))
                  whoami sample_db
     = (json (JMessage "6762cc5b39d00d9a50084f47:Skif"), sample_db)
  /\ authenticate (mkEnv "s3cr3t" 5000 "" "")
                  (Some (generateToken (mkEnv "s3cr3t" 1400 "" "") Skif (sample_user "Skif")))
                  whoami sample_db = (forbidden, sample_db)
  /\ authenticate (mkEnv "s3cr3t" 4999 "" "")
                  (Some (generateToken (mkEnv "s3cr3t" 1400 "" "") Skif (sample_user "Skif")))
                  whoami sample_db
     = (json (JMessage "6762cc5b39d00d9a50084f47:Skif"), sample_db).
Proof.
  split; [| split; [| split; [| split; [| split]]]].
  - apply (authenticate_gate sample_env None whoami sample_db). reflexivity.
  - apply (proj1 (proj2 (authenticate_gate sample_env (Some (Opaque "Bearer x"))
                           whoami sample_db)) "Bearer x"); [reflexivity | discriminate].
  - apply (proj1 (proj2 (proj2 (authenticate_gate sample_env
                  (Some (Signed "guess" (claims_of Skif "Skif" 4000))) whoami sample_db)))
             "guess" (claims_of Skif "Skif" 4000)); [reflexivity |].
    left. discriminate.
  - apply (proj1 (proj2 (proj2 (proj2 (authenticate_gate sample_env
                  (Some (Signed "s3cr3t" (claims_of Skif "Skif" 4000))) whoami sample_db))))
             (claims_of Skif "Skif" 4000)); [reflexivity |].
    vm_compute. reflexivity.
  - apply (proj2 (proj2 (proj2 (proj2 (authenticate_gate (mkEnv "s3cr3t" 5000 "" "")
                  (Some (generateToken (mkEnv "s3cr3t" 1400 "" "") Skif (sample_user "Skif")))
                  whoami sample_db))))
             (mkEnv "s3cr3t" 1400 "" "") Skif (sample_user "Skif"));
      [reflexivity | reflexivity |].
    vm_compute. discriminate.
  - apply (proj2 (proj2 (proj2 (proj2 (authenticate_gate (mkEnv "s3cr3t" 4999 "" "")
                  (Some (generateToken (mkEnv "s3cr3t" 1400 "" "") Skif (sample_user "Skif")))
                  whoami sample_db))))
             (mkEnv "s3cr3t" 1400 "" "") Skif (sample_user "Skif"));
      [reflexivity | reflexivity |].
    vm_compute. reflexivity.
Defined.

Lemma register_spec_witness :
  (exists msg,
      fst (try_catch (@register toy_bcrypt server_js sample_env
             (mkRegisterBody (Some "Skif") (Some "hunter2hunter2") (Some "7656"))) sample_db)
      = status_json 400 (JError msg))
  /\ try_catch (@register toy_bcrypt server_js sample_env
        (mkRegisterBody (Some "Strelok") (Some "hunter2hunter2") (Some "7656"))) sample_db
     = try_catch (@register toy_bcrypt server_js sample_env
        (mkRegisterBody (Some "Strelok") (Some "hunter2hunter3") (Some "7656"))) sample_db
  /\ res_status (fst (try_catch (@register toy_bcrypt server_js sample_env
        (mkRegisterBody (Some "Strelok") (Some "hunter2hunter2") (Some "7656"))) sample_db))
     = 201
  /\ users (snd (try_catch (@register toy_bcrypt server_js sample_env
        (mkRegisterBody (Some "Strelok") (Some "hunter2hunter2") (Some "7656"))) sample_db))
       !! fresh sample_env
     = Some (@registered toy_bcrypt sample_env "Strelok" "hunter2hunter2" "7656")
  /\ (exists user,
        res_body (fst (try_catch (@register toy_bcrypt server_js sample_env
          (mkRegisterBody (Some "Strelok") (Some "hunter2hunter2") (Some "7656"))) sample_db))
        = JTokenUser (Signed "s3cr3t"
                        (mkClaims "6764a0000000000000000001" (Some "Strelok") 5000 8600))
                     (fresh sample_env) user
        /\ passwordHash user = Some "$2a$NaCl$hunter2h")
  /\ jwt_verify (Signed "s3cr3t"
                   (mkClaims "6764a0000000000000000001" (Some "Strelok") 5000 8600))
                "s3cr3t" 8599
     = inr (mkClaims "6764a0000000000000000001" (Some "Strelok") 5000 8600)
  /\ (exists msg,
        try_catch (@register toy_bcrypt part_000 sample_env
          (mkRegisterBody (Some "Strelok") (Some "hunter2hunter2") (Some "7656"))) sample_db
        = (status_json 400 (JError msg), sample_db)).
Proof.
  pose proof (@register_spec toy_bcrypt sample_env sample_db "Skif" "hunter2hunter2" "7656")
    as Hskif.
  pose proof (@register_spec toy_bcrypt sample_env sample_db "Strelok" "hunter2hunter2" "7656")
    as Hstrelok.
  cbv zeta in Hskif, Hstrelok.
  destruct Hskif as (Hdup & _).
  destruct Hstrelok as (_ & Hsame & Hcreated & Hok & Hpart).
  assert (Hfresh : users sample_db !! fresh sample_env = None) by (vm_compute; reflexivity).
  assert (Hfree : forall uid u, users sample_db !! uid = Some u -> username u <> Some "Strelok").
  { intros uid u Hu. apply (proj1 (find_by_username_None "Strelok" (users sample_db))
                              ltac:(vm_compute; reflexivity) uid u Hu). }
  specialize (Hok Hfresh Hfree ltac:(discriminate) ltac:(discriminate)
                ltac:(vm_compute; discriminate)).
  split; [| split; [| split; [| split; [| split; [| split]]]]].
  - destruct (Hdup server_js Skif (sample_user "Skif")) as (msg & Hmsg & _);
      [vm_compute; reflexivity | reflexivity |].
    exists msg. exact Hmsg.
  - apply Hsame. vm_compute. reflexivity.
  - rewrite Hok. reflexivity.
  - rewrite Hok. cbn [snd with_users users]. apply lookup_insert_eq.
  - destruct (Hcreated server_js _ _ Hok eq_refl) as (user & Hr & _ & Hhash & _).
    exists user. rewrite Hok. cbn [fst]. rewrite Hr. split; [reflexivity | exact Hhash].
  - destruct (Hcreated server_js _ _ Hok eq_refl) as (user & _ & _ & _ & _ & Hverify).
    apply (Hverify 8599). change (5000 <= 8599 < 5000 + 3600). lia.
  - exact Hpart.
Defined.

Section Login.
Context `{Bcrypt} `{Mongoose}.
Variable env : Env.

(** [login] answers 404 when no user has the name, and touches nothing. *)
Lemma login_not_found (v : Variant) (db : Db) (body : LoginBody) :
  (forall uid u, users db !! uid = Some u -> username u <> Some (lb_username body)) ->
  try_catch (login v env body) db
  = (status_json 404 (JError "User not found"), log (Read "users") db).
Proof.
  intros Hnone. apply find_by_username_None in Hnone.
  unfold try_catch, login, bind, User_findOne. rewrite Hnone. reflexivity.
Qed.

(** [login] answers 401 when the password does not match the stored hash. *)
Lemma login_unauthorized (v : Variant) (db : Db) (body : LoginBody)
    (uid : ObjectId) (u : User) (h : string) :
  find_by_username (lb_username body) (users db) = Some (uid, u) ->
  passwordHash u = Some h ->
  bcrypt_compare (lb_password body) h = false ->
  try_catch (login v env body) db
  = (status_json 401 (JError "Invalid credentials"), log (Read "users") db).
Proof.
  intros Hfind Hhash Hcmp.
  unfold try_catch, login, bind, User_findOne, ret. rewrite Hfind, Hhash.
  cbn. rewrite Hcmp. reflexivity.
Qed.

Lemma validate_user_login (v : Variant) (u : User) (date : Date) :
  validate_user v u = None ->
  validate_user v (set_isOnline true (assign_lastLogin v date u)) = None.
Proof.
  intros Hvalid. unfold assign_lastLogin.
  destruct (has_path_lastLogin v); exact Hvalid.
Qed.

(** A login with the right password answers 200 with the token and the
    user, online, and stores that user. *)
Lemma login_success (v : Variant) (db : Db) (body : LoginBody)
    (uid : ObjectId) (u : User) (h : string) :
  find_by_username (lb_username body) (users db) = Some (uid, u) ->
  passwordHash u = Some h ->
  bcrypt_compare (lb_password body) h = true ->
  validate_user v u = None ->
  let u' := set_isOnline true (assign_lastLogin v (now env) u) in
  try_catch (login v env body) db
  = (json (JTokenUser (generateToken env uid u') uid u'),
     with_users (<[uid := u']> (users db))
                (log (WriteUser uid u') (log (Read "users") db))).
Proof.
  intros Hfind Hhash Hcmp Hvalid u'.
  unfold try_catch, login, bind, User_findOne, ret. rewrite Hfind, Hhash.
  cbn [negb]. rewrite Hcmp. cbn [negb]. unfold User_save.
  fold u'. unfold u' at 1. rewrite (validate_user_login v u (now env) Hvalid).
  reflexivity.
Qed.

(** In [server.js] the stored user then carries the time of the login. *)
Lemma login_success_server_js (db : Db) (body : LoginBody)
    (uid : ObjectId) (u : User) (h : string) :
  find_by_username (lb_username body) (users db) = Some (uid, u) ->
  passwordHash u = Some h ->
  bcrypt_compare (lb_password body) h = true ->
  validate_user server_js u = None ->
  exists u',
    try_catch (login server_js env body) db
    = (json (JTokenUser (generateToken env uid u') uid u'),
       with_users (<[uid := u']> (users db))
                  (log (WriteUser uid u') (log (Read "users") db)))
    /\ lastLogin u' = Some (now env) /\ isOnline u' = true.
Proof.
  intros Hfind Hhash Hcmp Hvalid.
  eexists. split; [exact (login_success server_js db body uid u h Hfind Hhash Hcmp Hvalid) |].
  split; reflexivity.
Qed.

(** In [part_000] no login changes the last-login date of a stored user:
    the handler assigns [lastLogin], the path of the schema is
    [lastLoginRT]. *)
Lemma login_part_000_lastLogin (db : Db) (body : LoginBody) (uid : ObjectId) (u : User) :
  users db !! uid = Some u ->
  exists u',
    users (snd (try_catch (login part_000 env body) db)) !! uid = Some u'
    /\ lastLogin u' = lastLogin u.
Proof.
  intros Hu.
  unfold try_catch, login, bind, User_findOne, ret, send, throw.
  destruct (find_by_username _ _) as [[uid0 u0] |] eqn:Hfind; [| eauto].
  apply find_by_username_Some in Hfind as [Hu0 _].
  destruct (passwordHash u0) as [h |]; [| eauto].
  destruct (bcrypt_compare _ h); cbn [negb]; [| eauto].
  unfold User_save. destruct (validate_user _ _); [eauto |].
  cbn [snd with_users users].
  destruct (decide (uid0 = uid)) as [-> | Hne].
  - rewrite lookup_insert_eq. eexists. split; [reflexivity |].
    cbn. congruence.
  - rewrite lookup_insert_ne by exact Hne. eauto.
Qed.

End Login.

(** C5, at a store of [part_000] where Skif has never logged in: the login
    with the right password answers 200 with a token and the user online,
    but the stored user still has no last-login date, while the same
    request in [server.js] stores the time of the login. *)
Theorem login_part_000_no_timestamp :
  let body := mkLoginBody "Skif" "zone" in
  let after v := try_catch (@login toy_bcrypt v sample_env body) sample_db in
  res_status (fst (after part_000)) = 200
  /\ (isOnline <$> users (snd (after part_000)) !! Skif) = Some true
  /\ (lastLogin <$> users (snd (after part_000)) !! Skif) = Some None
  /\ (lastLogin <$> users (snd (after server_js)) !! Skif) = Some (Some 5000).
Proof. vm_compute. repeat split. Qed.

(** ** Routing through the gateway *)

Lemma authenticate_accepted (env : Env) (key : string) (claims : Claims)
    (next : Claims -> Db -> Response * Db) (db : Db) :
  accepted env (Some (Signed key claims)) = true ->
  authenticate env (Some (Signed key claims)) next db = next claims db.
Proof.
  unfold accepted. intros Hacc. apply andb_true_iff in Hacc as [Hkey Hexp].
  apply String.eqb_eq in Hkey. subst key. apply Z.ltb_lt in Hexp.
  exact (authenticate_valid env (Signed (JWT_SECRET env) claims) claims next db eq_refl
           (jwt_verify_live _ claims _ Hexp)).
Qed.

Lemma authenticate_rejected (env : Env) (h : option Token)
    (next : Claims -> Db -> Response * Db) (db : Db) :
  accepted env h = false ->
  authenticate env h next db = (unauthorized, db)
  \/ authenticate env h next db = (forbidden, db).
Proof.
  intros Hrej. destruct h as [[key claims | raw] |].
  - right. unfold accepted in Hrej. apply andb_false_iff in Hrej as [Hkey | Hexp].
    + apply String.eqb_neq in Hkey.
      exact (authenticate_invalid env (Signed key claims) _ next db eq_refl
               (jwt_verify_wrong_key key _ claims _ Hkey)).
    + apply Z.ltb_ge in Hexp.
      destruct (jwt_verify_expired key (JWT_SECRET env) claims _ Hexp) as [e He].
      exact (authenticate_invalid env (Signed key claims) e next db eq_refl He).
  - destruct raw as [| c raw]; [left; reflexivity | right; reflexivity].
  - left. reflexivity.
Qed.

Section Gateway.
Context `{Bcrypt} `{Mongoose}.
Variable v : Variant.
Variable env : Env.

(** X1: every route registered with [authenticate] (all but register, login
    and [POST /users]) answers 401, 403 or 404 and leaves the store as it
    was, log of operations included, when the request carries no accepted
    token. *)
Lemma app_gate (req : Request) (db : Db) :
  unprotected (route req) = false ->
  accepted env (authorization req) = false ->
  exists r, app v env req db = (r, db)
            /\ (res_status r = 401 \/ res_status r = 403 \/ res_status r = 404).
Proof.
  intros Hroute Hrej. unfold app.
  destruct (route req); try discriminate Hroute; cbv zeta; try destruct v;
    try (eexists; split; [reflexivity | cbn; auto]; fail);
    match goal with
    | |- context [authenticate env (authorization req) ?next db] =>
        destruct (authenticate_rejected env (authorization req) next db Hrej) as [Hr | Hr];
        rewrite Hr
    end;
    eexists; (split; [reflexivity | cbn; auto]).
Qed.

(** With an accepted token, [POST /friend-requests/respond] of [part_000]
    runs [respond] for the identity of the token. *)
Lemma app_respond (req : Request) (db : Db) (key : string) (claims : Claims)
    (body : RespondBody) :
  v = part_000 ->
  route req = POST_friend_requests_respond body ->
  authorization req = Some (Signed key claims) ->
  accepted env (authorization req) = true ->
  app v env req db = try_catch (respond v claims body) db.
Proof.
  intros -> Hroute Hauth Hacc. unfold app. rewrite Hroute. cbv zeta.
  rewrite Hauth in *. exact (authenticate_accepted env key claims _ db Hacc).
Qed.

End Gateway.

(** C9, at a request without an [Authorization] header: [POST /users] is
    registered without [authenticate], so the request writes a user
    document, in both files. *)
Theorem post_users_without_token :
  let body := mkUserBody None (Some "Stranger") (Some "7656") (Some "$2a$NaCl$anything")
                         (Some "2012-05-01 06:00") None None [Skif] [] None None in
  let req := mkRequest None (POST_users body) in
  forall (lib : Mongoose) v,
    res_status (fst (@app toy_bcrypt lib v sample_env req sample_db)) = 201
    /\ is_Some (users (snd (@app toy_bcrypt lib v sample_env req sample_db))
                  !! fresh sample_env)
    /\ users sample_db !! fresh sample_env = None
    /\ exists doc, oplog (snd (@app toy_bcrypt lib v sample_env req sample_db))
                   = [WriteUser (fresh sample_env) doc].
Proof.
  intros body req lib v. destruct v; vm_compute; repeat split; eauto.
Qed.

(** ** Posting a message *)

Section PostMessage.
Context `{Bcrypt} `{Mongoose}.
Variable v : Variant.
Variable env : Env.

Lemma post_message_result (req_user : Claims) (body : MessageBody) (db : Db) :
  (exists m,
      try_catch (post_message v env req_user body) db
      = (status_json 201 (JCreatedMessage m),
         with_messages (messages db ++ [m]) (log (Write "messages") db))
      /\ m_userId m = c_id req_user)
  \/ (exists msg db',
      try_catch (post_message v env req_user body) db = (status_json 400 (JError msg), db')
      /\ messages db' = messages db).
Proof.
  unfold try_catch, post_message, bind, ret, Message_save.
  cbn [new_Message spread_with_userId mb_userId mb_id mb_recipientId].
  destruct (new_id env (mb_id body)) as [e | mid]; [right; eauto |].
  destruct (cast_given "recipientId" (mb_recipientId body)) as [e | recipient];
    [right; eauto |].
  match goal with |- context [required (m_content ?m)] => set (doc := m) end.
  destruct (negb (required (m_content doc))); [right; eauto |].
  destruct (requires_createdAtST v && negb (required (m_createdAtST doc)));
    [right; eauto |].
  destruct (existsb _ (messages db)); [right; eauto |].
  left. exists doc. split; reflexivity.
Qed.

(** C10: an authenticated [POST /messages] stores at most one message, whose
    author is the [id] of the verified token; the [userId] of the body has
    no influence (with any other [userId] in the body the response and the
    store are the same); a body with a content that is not empty (and, in
    [part_000], such a [createdAtST]), whose [recipientId] and [_id], where
    it gives them, are forms of ObjectIds, the [_id] not a used one, is
    answered with 201 and the created message; a body without a content,
    or with the empty one, is answered with 400 and stores nothing. *)
Theorem post_message_author (req : Request) (db : Db) (key : string)
    (claims : Claims) (body : MessageBody) :
  route req = POST_messages body ->
  authorization req = Some (Signed key claims) ->
  accepted env (authorization req) = true ->
  (messages (snd (app v env req db)) = messages db
   \/ exists m, messages (snd (app v env req db)) = (messages db ++ [m])%list
                /\ fst (app v env req db) = status_json 201 (JCreatedMessage m)
                /\ m_userId m = c_id claims)
  /\ (forall uid,
       app v env (mkRequest (authorization req) (POST_messages (with_body_userId uid body))) db
       = app v env req db)
  /\ (forall content mid recipient,
      mb_content body = Some content -> content <> "" ->
      (requires_createdAtST v = true ->
       exists st, mb_createdAtST body = Some st /\ st <> "") ->
      new_id env (mb_id body) = inr mid ->
      cast_given "recipientId" (mb_recipientId body) = inr recipient ->
      (forall m, In m (messages db) -> m_id m <> mid) ->
      exists m, fst (app v env req db) = status_json 201 (JCreatedMessage m)
                /\ m_userId m = c_id claims
                /\ m_id m = mid /\ m_recipientId m = recipient
                /\ m_content m = Some content
                /\ messages (snd (app v env req db)) = (messages db ++ [m])%list)
  /\ (required (mb_content body) = false ->
      res_status (fst (app v env req db)) = 400
      /\ messages (snd (app v env req db)) = messages db).
Proof.
  intros Hroute Hauth Hacc.
  assert (Happ : forall b, app v env (mkRequest (authorization req) (POST_messages b)) db
                           = try_catch (post_message v env claims b) db).
  { intros b. unfold app. cbn [route authorization]. rewrite Hauth.
    rewrite Hauth in Hacc. exact (authenticate_accepted env key claims _ db Hacc). }
  assert (Hreq : app v env req db = try_catch (post_message v env claims body) db).
  { rewrite <- Happ. destruct req as [a r]. cbn in Hroute. subst r. reflexivity. }
  split; [| split; [| split]].
  - rewrite Hreq.
    destruct (post_message_result claims body db) as [(m & -> & Hm) | (msg & db' & -> & Hdb)].
    + right. exists m. auto.
    + left. exact Hdb.
  - intros uid. rewrite Hreq, Happ. reflexivity.
  - intros content mid recipient Hc Hne Hst Hmid Hrecipient Hfresh. rewrite Hreq.
    unfold try_catch, post_message, bind, ret, Message_save.
    cbn [new_Message spread_with_userId mb_userId mb_content mb_id mb_recipientId
         mb_createdAtST].
    rewrite Hmid, Hrecipient.
    cbn [m_content m_createdAtST m_id]. rewrite Hc, (required_Some content Hne). cbn [negb].
    assert (Hpath : requires_createdAtST v
                    && negb (required (if requires_createdAtST v
                                       then mb_createdAtST body else None))
                    = false).
    { destruct (requires_createdAtST v); [| reflexivity].
      destruct (Hst eq_refl) as (st & -> & Hst').
      rewrite (required_Some st Hst'). reflexivity. }
    rewrite Hpath.
    assert (Hid : existsb (fun x => String.eqb (m_id x) mid) (messages db) = false).
    { apply not_true_iff_false. intros Hex. apply existsb_exists in Hex as (m & Hin & Heq).
      apply String.eqb_eq in Heq. exact (Hfresh m Hin Heq). }
    rewrite Hid. eexists. split; [reflexivity |]. repeat split.
  - intros Hc. rewrite Hreq.
    unfold try_catch, post_message, bind, ret, Message_save.
    cbn [new_Message spread_with_userId mb_userId mb_content mb_id mb_recipientId].
    destruct (new_id env (mb_id body)) as [e | mid]; [split; reflexivity |].
    destruct (cast_given "recipientId" (mb_recipientId body)) as [e | recipient];
      [split; reflexivity |].
    cbn [m_content]. rewrite Hc. split; reflexivity.
Qed.

End PostMessage.

Lemma post_message_author_witness :
  spoof_has_no_effect server_js /\ spoof_has_no_effect part_000.
Proof.
  assert (Hboth : forall v, spoof_has_no_effect v).
  { intros v.
    destruct (@post_message_author toy_bcrypt newer_mongoose v sample_env spoofed_request
                sample_db "s3cr3t" (claims_of Skif "Skif" 4000)
                (mkMessageBody None (Some NikolaiVoronov) None
                   (Some "Anyone near the Cordon?") None None (Some "2012-05-01 06:10"))
                eq_refl eq_refl eq_refl) as (_ & Hbody & Hcreated & _).
    split.
    - destruct (Hcreated "Anyone near the Cordon?" (fresh sample_env) None)
        as (m & Hres & Hauthor & _ & _ & _ & Hstore).
      + reflexivity.
      + discriminate.
      + intros _. eexists. split; [reflexivity | discriminate].
      + reflexivity.
      + reflexivity.
      + intros m [].
      + exists m. auto.
    - exact (Hbody (Some TestUser1)). }
  split; apply Hboth.
Defined.

(** ** Listing messages *)

Lemma Math_ceil_div_spec (a b : Z) :
  0 < b -> b * (Math_ceil_div a b - 1) < a <= b * Math_ceil_div a b.
Proof.
  intros Hb. unfold Math_ceil_div.
  pose proof (Z.mul_div_le (- a) b Hb).
  pose proof (Z.mul_succ_div_gt (- a) b Hb).
  lia.
Qed.

Lemma insert_newest_first_perm (m : Message) (l : list Message) :
  Permutation (insert_newest_first m l) (m :: l).
Proof.
  induction l as [| x l IH]; simpl.
  - reflexivity.
  - destruct (m_createdAt x <=? m_createdAt m).
    + reflexivity.
    + rewrite IH. apply perm_swap.
Qed.

Lemma sort_newest_first_perm (l : list Message) :
  Permutation (sort_newest_first l) l.
Proof.
  induction l as [| x l IH]; simpl.
  - reflexivity.
  - rewrite insert_newest_first_perm. apply perm_skip. exact IH.
Qed.

Lemma insert_newest_first_sorted (m : Message) (l : list Message) :
  StronglySorted newer_or_equal l ->
  StronglySorted newer_or_equal (insert_newest_first m l).
Proof.
  induction 1 as [| x l Hsorted IH Hall]; simpl.
  - constructor; constructor.
  - destruct (Z.leb_spec (m_createdAt x) (m_createdAt m)) as [Hle | Hgt].
    + constructor.
      * constructor; assumption.
      * constructor; [exact Hle |].
        eapply Forall_impl; [exact Hall |].
        unfold newer_or_equal. intros y Hy. lia.
    + constructor; [exact IH |].
      rewrite (insert_newest_first_perm m l).
      constructor; [unfold newer_or_equal; lia | exact Hall].
Qed.

Lemma sort_newest_first_sorted (l : list Message) :
  StronglySorted newer_or_equal (sort_newest_first l).
Proof.
  induction l as [| x l IH]; simpl.
  - constructor.
  - apply insert_newest_first_sorted. exact IH.
Qed.

Lemma sort_newest_first_length (l : list Message) :
  length (sort_newest_first l) = length l.
Proof. apply Permutation_length, sort_newest_first_perm. Qed.

Lemma page_of_length (limit n : Z) (l : list Message) :
  1 <= limit -> 1 <= n ->
  Z.of_nat (length (page_of limit n l))
  = Z.max 0 (Z.min limit (Z.of_nat (length l) - (n - 1) * limit)).
Proof.
  intros Hl Hn. unfold page_of.
  rewrite length_firstn, length_skipn. nia.
Qed.

Section Listing.
Variable v : Variant.

(** C8: [GET /messages/global] with page [page >= 1] and limit [limit >= 1]
    (safe integers) answers with [totalPages = ceiling(totalMessages / limit)] and with the
    messages that follow the first [(page - 1) * limit] of the global
    messages sorted newest first, [limit] of them at most.  For 25 global
    messages and a limit of 10, [totalPages] is 3, pages 1 and 2 hold 10
    messages, page 3 holds 5, later pages are empty, and the three pages
    together are all the global messages, newest first. *)
Theorem messages_global_pagination (db : Db) (q : GlobalQuery) (page limit : Z) :
  or_default (parseInt (gq_page q)) 1 = page ->
  or_default (parseInt (gq_limit q)) 10 = limit ->
  1 <= page -> 1 <= limit -> page * limit <= MAX_SAFE_INTEGER ->
  let total := Z.of_nat (length (global_messages db)) in
  exists totalPages msgs db',
    try_catch (messages_global v q) db
    = (json (JGlobalPage (mkMetadata total page totalPages limit) msgs), db')
    /\ map pm_message msgs = page_of limit page (global_messages db)
    /\ limit * (totalPages - 1) < total <= limit * totalPages
    /\ StronglySorted newer_or_equal (global_messages db)
    /\ Permutation (global_messages db) (List.filter is_global (messages db))
    /\ (total = 25 -> limit = 10 ->
        totalPages = 3
        /\ (page <= 2 -> length msgs = 10%nat)
        /\ (page = 3 -> length msgs = 5%nat)
        /\ (4 <= page -> msgs = [])
        /\ (page_of 10 1 (global_messages db) ++ page_of 10 2 (global_messages db)
            ++ page_of 10 3 (global_messages db))%list = global_messages db).
Proof.
  intros Hpage Hlimit Hp Hl _ total.
  unfold try_catch, messages_global, bind, ret, Message_countDocuments, Message_find,
    populate_messages.
  rewrite Hpage, Hlimit. cbn [log messages users].
  destruct (Z.ltb_spec ((page - 1) * limit) 0) as [Hneg | _]; [nia |].
  assert (Htotal : Z.of_nat (length (List.filter is_global (messages db))) = total).
  { unfold total, global_messages. rewrite sort_newest_first_length. reflexivity. }
  rewrite Htotal.
  assert (Hlim : apply_limit limit
                   (skipn (Z.to_nat ((page - 1) * limit))
                          (sort_newest_first (List.filter is_global (messages db))))
                 = page_of limit page (global_messages db)).
  { unfold apply_limit, page_of, global_messages.
    destruct (Z.eqb_spec limit 0); [lia |]. rewrite Z.abs_eq by lia. reflexivity. }
  rewrite Hlim.
  eexists _, _, _. split; [reflexivity |].
  assert (Hmap : forall (f : Message -> PopulatedMessage) l,
             (forall m, pm_message (f m) = m) -> map pm_message (map f l) = l).
  { intros f l Hf. rewrite map_map. rewrite <- (map_id l) at 2.
    apply map_ext. exact Hf. }
  split; [apply Hmap; reflexivity |].
  split; [apply Math_ceil_div_spec; lia |].
  split; [apply sort_newest_first_sorted |].
  split; [apply sort_newest_first_perm |].
  intros H25 ->.
  pose proof (page_of_length 10 page (global_messages db) ltac:(lia) Hp) as Hlen.
  fold total in Hlen. rewrite H25 in Hlen.
  split; [rewrite H25; reflexivity |].
  split; [intros; rewrite length_map; lia |].
  split; [intros; rewrite length_map; lia |].
  split.
  - intros H4. destruct (page_of 10 page (global_messages db)) eqn:E; [reflexivity |].
    cbn [length] in Hlen. lia.
  - unfold page_of. change (Z.to_nat ((1 - 1) * 10)) with 0%nat.
    change (Z.to_nat ((2 - 1) * 10)) with 10%nat.
    change (Z.to_nat ((3 - 1) * 10)) with 20%nat.
    change (Z.to_nat 10) with 10%nat.
    assert (Hn : length (global_messages db) = 25%nat) by (unfold total in H25; lia).
    set (g := global_messages db) in *.
    rewrite <- (firstn_skipn 10 g) at 4.
    rewrite skipn_O. f_equal.
    rewrite <- (firstn_skipn 10 (skipn 10 g)) at 2.
    f_equal. rewrite skipn_skipn. change (10 + 10)%nat with 20%nat.
    apply firstn_all2. rewrite length_skipn. lia.
Qed.

End Listing.

Lemma messages_global_pagination_witness :
  exists msgs db',
    try_catch (messages_global server_js (mkGlobalQuery (Some "3") (Some "10"))) sample_board
    = (json (JGlobalPage (mkMetadata 25 3 3 10) msgs), db')
    /\ length msgs = 5%nat
    /\ map (fun m => m_createdAt (pm_message m)) msgs = [2004; 2003; 2002; 2001; 2000].
Proof.
  destruct (messages_global_pagination server_js sample_board
              (mkGlobalQuery (Some "3") (Some "10")) 3 10 eq_refl eq_refl
              ltac:(lia) ltac:(lia) ltac:(unfold MAX_SAFE_INTEGER; lia))
    as (totalPages & msgs & db' & Hrun & Hmsgs & _ & _ & _ & H25).
  destruct (H25 eq_refl eq_refl) as (-> & _ & H3 & _).
  exists msgs, db'. split; [exact Hrun |]. split; [exact (H3 eq_refl) |].
  rewrite <- (map_map pm_message m_createdAt), Hmsgs. vm_compute. reflexivity.
Defined.

(** ** Friend requests: the documents *)

Lemma validate_user_set_friendRequests (v : Variant) (u : User) (rs : list FriendRequest) :
  validate_user v u = None ->
  forallb (status_ok v) rs = true ->
  validate_user v (set_friendRequests rs u) = None.
Proof.
  unfold validate_user, set_friendRequests. cbn.
  destruct (negb (required (username u))); [discriminate |].
  destruct (negb (required (steamId u))); [discriminate |].
  destruct (negb (required (passwordHash u))); [discriminate |].
  destruct (requires_createdAtST v && _); [discriminate |].
  destruct (negb (includes (faction u) (faction_enum v))); [discriminate |].
  intros _ Hrs. fold (status_ok v). rewrite Hrs. reflexivity.
Qed.

Lemma validate_user_statuses (v : Variant) (u : User) :
  validate_user v u = None -> forallb (status_ok v) (friendRequests u) = true.
Proof.
  unfold validate_user.
  destruct (negb (required (username u))); [discriminate |].
  destruct (negb (required (steamId u))); [discriminate |].
  destruct (negb (required (passwordHash u))); [discriminate |].
  destruct (requires_createdAtST v && _); [discriminate |].
  destruct (negb (includes (faction u) (faction_enum v))); [discriminate |].
  fold (status_ok v). destruct (forallb (status_ok v) (friendRequests u)); [reflexivity | discriminate].
Qed.

Lemma validate_user_push_friend (v : Variant) (u : User) (fid : ObjectId) :
  validate_user v u = None -> validate_user v (push_friend fid u) = None.
Proof. intros Hvalid. exact Hvalid. Qed.

Lemma set_request_status_ok (v : Variant) (rid st : string) (rs : list FriendRequest) :
  includes st (status_enum v) = true ->
  forallb (status_ok v) rs = true ->
  forallb (status_ok v) (set_request_status rid st rs) = true.
Proof.
  intros Hst. induction rs as [| r rs IH]; [reflexivity |].
  cbn [forallb set_request_status]. intros Hrs.
  apply andb_true_iff in Hrs as [Hr Hrs].
  destruct (fr_id r =? rid)%string; cbn [forallb].
  - apply andb_true_iff. split; [exact Hst | exact Hrs].
  - apply andb_true_iff. split; [exact Hr | exact (IH Hrs)].
Qed.




Lemma remove_request_others (rid : string) (rs : list FriendRequest) (r : FriendRequest) :
  In r rs -> fr_id r <> rid -> In r (remove_request rid rs).
Proof.
  intros Hin Hne. apply filter_In. split; [exact Hin |].
  apply negb_true_iff, String.eqb_neq. exact Hne.
Qed.



Lemma set_request_status_In (rid st : string) (rs : list FriendRequest)
    (request : FriendRequest) :
  List.find (fun r => String.eqb (fr_id r) rid) rs = Some request ->
  In (mkFriendRequest rid (fr_from request) (fr_to request) st)
     (set_request_status rid st rs).
Proof.
  induction rs as [| r rs IH]; [discriminate |].
  cbn [List.find set_request_status].
  destruct (String.eqb_spec (fr_id r) rid) as [Heq | Hne].
  - intros [= <-]. left. rewrite Heq. reflexivity.
  - intros Hfind. right. exact (IH Hfind).
Qed.




(** ** Answering a friend request ([part_000])

    What [respond] answers and writes for a request that the caller holds,
    where sub-documents have [remove] and where they have not. *)

Section Respond.
Context `{Mongoose}.

Variable db : Db.
Variable claims : Claims.
Variable given : string.
Variable rid : ObjectId.
Variable uB : User.
Variable request : FriendRequest.

Hypothesis HB : users db !! c_id claims = Some uB.
Hypothesis HvalidB : validate_user part_000 uB = None.
Hypothesis Hcast : castObjectId given = Some rid.
Hypothesis Hrequest :
  List.find (fun r => String.eqb (fr_id r) rid) (friendRequests uB) = Some request.




Section Accepted.

Variable uA : User.
Hypothesis HA : users db !! fr_from request = Some uA.
Hypothesis HvalidA : validate_user part_000 uA = None.
Hypothesis Hdistinct : fr_from request <> c_id claims.



End Accepted.
End Respond.

(** ** The pending list *)

Lemma list_pending_run (v : Variant) (claims : Claims) (db : Db) (u : User) :
  users db !! c_id claims = Some u ->
  try_catch (list_pending v claims) db
  = (json (JRequests (List.filter is_pending
                        (map (populate_request v (users db)) (friendRequests u)))),
     log (Read "users") (log (Read "users") db)).
Proof.
  intros Hu. unfold try_catch, list_pending, bind, User_findById, populate_requests, ret.
  rewrite Hu. reflexivity.
Qed.

(** Every entry of the answer of [GET /friend-requests] is a record of the
    caller's request list. *)
Lemma list_pending_entries (v : Variant) (claims : Claims) (db db' : Db)
    (u : User) (rs : list PopulatedRequest) (r : PopulatedRequest) :
  users db !! c_id claims = Some u ->
  try_catch (list_pending v claims) db = (json (JRequests rs), db') ->
  In r rs ->
  exists r0, In r0 (friendRequests u) /\ pr_id r = fr_id r0 /\ pr_status r = "pending".
Proof.
  intros Hu Hrun Hin. rewrite (list_pending_run v claims db u Hu) in Hrun.
  injection Hrun as <- _.
  apply filter_In in Hin as [Hin Hp]. apply in_map_iff in Hin as (r0 & <- & Hin0).
  exists r0. split; [exact Hin0 |]. split; [reflexivity |].
  apply String.eqb_eq in Hp. exact Hp.
Qed.


(** In [part_000] the answer is empty for every user whose document
    satisfies the schema: no member of the enum is ['pending']. *)
Lemma list_pending_part_000 (claims : Claims) (db : Db) (u : User) :
  users db !! c_id claims = Some u ->
  validate_user part_000 u = None ->
  fst (try_catch (list_pending part_000 claims) db) = json (JRequests []).
Proof.
  intros Hu Hvalid. rewrite (list_pending_run part_000 claims db u Hu). cbn [fst].
  do 2 f_equal. apply validate_user_statuses in Hvalid.
  induction (friendRequests u) as [| r rs IH]; [reflexivity |].
  cbn [forallb] in Hvalid. apply andb_true_iff in Hvalid as [Hr Hrs].
  cbn [map List.filter]. unfold is_pending at 1. cbn [populate_request pr_status].
  unfold status_ok, includes in Hr. cbn [status_enum existsb] in Hr.
  destruct (String.eqb_spec (fr_status r) "pending") as [Heq | _]; [| exact (IH Hrs)].
  rewrite Heq in Hr. discriminate Hr.
Qed.

(** ** Sending a friend request *)

Section SendRequest.
Context `{Mongoose}.
Variable v : Variant.
Variable env : Env.
Variable claims : Claims.

Lemma send_request_self (db : Db) :
  try_catch (send_request v env claims (Some (c_id claims))) db
  = (status_json 400 (JError "You can't send a friend request to yourself."), db).
Proof.
  unfold try_catch, send_request.
  rewrite bool_decide_eq_true_2 by reflexivity. reflexivity.
Qed.

(** A string that is the form of no ObjectId is refused before the store
    is consulted. *)
Lemma send_request_refused (db : Db) (given : string) :
  c_id claims <> given -> castObjectId given = None ->
  exists msg,
    try_catch (send_request v env claims (Some given)) db = (status_json 400 (JError msg), db).
Proof.
  intros Hne Hcast. unfold try_catch, send_request.
  rewrite bool_decide_eq_false_2 by congruence.
  unfold bind, lift. rewrite (cast_inl "_id" given Hcast). eexists. reflexivity.
Qed.

Lemma send_request_unknown (db : Db) (given : string) (to : ObjectId) :
  c_id claims <> given -> castObjectId given = Some to -> users db !! to = None ->
  try_catch (send_request v env claims (Some given)) db
  = (status_json 404 (JError "User not found"), log (Read "users") db).
Proof.
  intros Hne Hcast Hto. unfold try_catch, send_request.
  rewrite bool_decide_eq_false_2 by congruence.
  unfold bind, lift, User_findById, ret. rewrite (cast_inr "_id" given to Hcast).
  cbn [ret]. rewrite Hto. reflexivity.
Qed.

Lemma send_request_already_friend (db : Db) (given : string) (to : ObjectId)
    (recipient : User) :
  c_id claims <> given -> castObjectId given = Some to ->
  users db !! to = Some recipient ->
  includes (c_id claims) (friends recipient) = true ->
  try_catch (send_request v env claims (Some given)) db
  = (status_json 400 (JError "User is already your friend."), log (Read "users") db).
Proof.
  intros Hne Hcast Hto Hfriend. unfold try_catch, send_request.
  rewrite bool_decide_eq_false_2 by congruence.
  unfold bind, lift, User_findById, ret. rewrite (cast_inr "_id" given to Hcast).
  cbn [ret]. rewrite Hto. cbn [fmap option_fmap option_map]. rewrite Hfriend. reflexivity.
Qed.

(** The callback of [find] throws on the first record it is given. *)
Lemma existing_request_callback_throws (r : FriendRequest) :
  existing_request_callback r
  = inl (TypeError "Cannot read properties of undefined (reading 'id')").
Proof. reflexivity. Qed.

Lemma array_find_existing_request (rs : list FriendRequest) :
  array_find existing_request_callback rs
  = match rs with
    | [] => inr None
    | _ :: _ => inl (TypeError "Cannot read properties of undefined (reading 'id')")
    end.
Proof. destruct rs; reflexivity. Qed.

(** Whenever the recipient's request list is not empty, whoever the
    records are from, the request is answered with 400 and nothing is
    written. *)
Lemma send_request_nonempty (db : Db) (given : string) (to : ObjectId) (recipient : User) :
  c_id claims <> given -> castObjectId given = Some to ->
  users db !! to = Some recipient ->
  includes (c_id claims) (friends recipient) = false ->
  friendRequests recipient <> [] ->
  try_catch (send_request v env claims (Some given)) db
  = (status_json 400 (JError "Cannot read properties of undefined (reading 'id')"),
     log (Read "users") db).
Proof.
  intros Hne Hcast Hto Hfriend Hrs. unfold try_catch, send_request.
  rewrite bool_decide_eq_false_2 by congruence.
  unfold bind, User_findById, ret. unfold lift at 1. rewrite (cast_inr "_id" given to Hcast).
  cbn [ret]. rewrite Hto. cbn [fmap option_fmap option_map]. rewrite Hfriend.
  rewrite array_find_existing_request.
  destruct (friendRequests recipient); [contradiction | reflexivity].
Qed.

(** When the recipient's request list is empty, one record with the
    default status is appended and the answer is 201. *)
Lemma send_request_first (db : Db) (given : string) (to : ObjectId) (recipient : User) :
  c_id claims <> given -> castObjectId given = Some to ->
  users db !! to = Some recipient ->
  includes (c_id claims) (friends recipient) = false ->
  friendRequests recipient = [] ->
  validate_user v recipient = None ->
  let record := mkFriendRequest (fresh env) (c_id claims) to (status_default v) in
  try_catch (send_request v env claims (Some given)) db
  = (status_json 201 (JMessage "Friend request sent successfully."),
     with_users (<[to := set_friendRequests [record] recipient]> (users db))
                (log (WriteUser to (set_friendRequests [record] recipient))
                     (log (Read "users") db))).
Proof.
  intros Hne Hcast Hto Hfriend Hrs Hvalid record. unfold try_catch, send_request.
  rewrite bool_decide_eq_false_2 by congruence.
  unfold bind, User_findById. unfold lift at 1. rewrite (cast_inr "_id" given to Hcast).
  cbn [ret]. unfold ret at 1. rewrite Hto. cbn [fmap option_fmap option_map].
  rewrite Hfriend.
  rewrite array_find_existing_request, Hrs. cbn [lift ret].
  unfold push_request. rewrite Hrs. fold record.
  change ([] ++ [record])%list with [record].
  unfold User_save.
  rewrite (validate_user_set_friendRequests v recipient [record] Hvalid);
    [reflexivity |].
  cbn [forallb]. unfold status_ok. cbn [record fr_status]. destruct v; reflexivity.
Qed.

End SendRequest.

(** C3, at a store where TestUser1 has sent Skif a request that is not
    answered yet: NikolaiVoronov, who is no friend of Skif and has sent him
    nothing, now sends Skif a request.  The callback of [find] names its
    parameter [req], so [req.user.id] is read on the stored record and
    throws; the answer is 400 and no record is appended.  This is so in
    both files. *)
Theorem send_request_after_another `{Mongoose} (v : Variant) :
  let first := try_catch (send_request v sample_env (claims_of TestUser1 "TestUser1" 4000)
                            (Some Skif)) sample_db in
  let second := try_catch (send_request v (mkEnv "s3cr3t" 5060 "6764a0000000000000000002" "NaCl")
                             (claims_of NikolaiVoronov "NikolaiVoronov" 4000) (Some Skif))
                          (snd first) in
  fst first = status_json 201 (JMessage "Friend request sent successfully.")
  /\ (friendRequests <$> users (snd first) !! Skif)
     = Some [mkFriendRequest "6764a0000000000000000001" TestUser1 Skif (status_default v)]
  /\ (friends <$> users (snd first) !! Skif) = Some []
  /\ (friends <$> users (snd first) !! NikolaiVoronov) = Some []
  /\ fst second
     = status_json 400 (JError "Cannot read properties of undefined (reading 'id')")
  /\ (friendRequests <$> users (snd second) !! Skif)
     = (friendRequests <$> users (snd first) !! Skif)
  /\ oplog (snd second) = (oplog (snd first) ++ [Read "users"])%list.
Proof. destruct v; vm_compute; repeat split. Qed.

(** C2, at the store of [part_000] where Skif holds one request, from
    TestUser1, with status ['PENDING']: [GET /friend-requests] compares the
    status with ['pending'] and answers with the empty list.  On the same
    store with the statuses of [server.js] the answer is that record with
    the sender's name. *)
Theorem list_pending_part_000_empty :
  (friendRequests <$> users sample_pending !! Skif) = Some [request_1]
  /\ fr_status request_1 = status_default part_000
  /\ fst (try_catch (list_pending part_000 skif_claims) sample_pending) = json (JRequests [])
  /\ fst (try_catch (list_pending server_js skif_claims)
            (with_users (<[Skif := set_friendRequests
                                     [mkFriendRequest (fr_id request_1) TestUser1 Skif "pending"]
                                     (sample_user "Skif")]> sample_users) sample_db))
     = json (JRequests [mkPopulatedRequest (fr_id request_1)
                          (Some (mkSender TestUser1 (Some "TestUser1") None)) Skif "pending"]).
Proof. vm_compute. repeat split. Qed.

(** ** The answer routes of [server.js] *)

Lemma find_populated (v : Variant) (us : gmap string User) (rid : string)
    (rs : list FriendRequest) :
  List.find (fun r => String.eqb (pr_id r) rid) (map (populate_request v us) rs)
  = populate_request v us <$> List.find (fun r => String.eqb (fr_id r) rid) rs.
Proof.
  induction rs as [| r rs IH]; [reflexivity |].
  cbn [map List.find populate_request pr_id].
  destruct (fr_id r =? rid)%string; [reflexivity | exact IH].
Qed.

Lemma set_request_status_length (rid st : string) (rs : list FriendRequest) :
  length (set_request_status rid st rs) = length rs.
Proof.
  induction rs as [| r rs IH]; [reflexivity |].
  cbn [set_request_status]. destruct (fr_id r =? rid)%string; cbn [length]; congruence.
Qed.

Section ServerJs.

Variable db : Db.
Variable claims : Claims.
Variable rid : string.
Variable uB : User.
Variable request : FriendRequest.

Hypothesis HB : users db !! c_id claims = Some uB.
Hypothesis HvalidB : validate_user server_js uB = None.
Hypothesis Hrequest :
  List.find (fun r => String.eqb (fr_id r) rid) (friendRequests uB) = Some request.
Hypothesis Hpending : fr_status request = "pending".

Lemma marked_valid (status : string) (u : User) :
  includes status (status_enum server_js) = true ->
  validate_user server_js u = None ->
  validate_user server_js (set_friendRequests (marked rid uB status) u) = None.
Proof.
  intros Hst Hu. apply validate_user_set_friendRequests; [exact Hu |].
  apply set_request_status_ok; [exact Hst |].
  apply validate_user_statuses. exact HvalidB.
Qed.

(** [decline] keeps the record, with status ['declined'], and writes
    nothing else. *)
Lemma decline_server_js :
  try_catch (decline server_js claims rid) db
  = (json (JMessage "Friend request declined."),
     with_users (<[c_id claims := set_friendRequests (marked rid uB "declined") uB]> (users db))
       (log (WriteUser (c_id claims) (set_friendRequests (marked rid uB "declined") uB))
            (log (Read "users") db))).
Proof.
  unfold try_catch, decline, bind, User_findById. rewrite HB, Hrequest, Hpending.
  change (negb ("pending" =? "pending")%string) with false. cbv iota.
  destruct (find_some _ _ Hrequest) as [_ Hid]. apply String.eqb_eq in Hid.
  rewrite Hid. fold (marked rid uB "declined"). unfold User_save.
  rewrite (marked_valid "declined" uB eq_refl HvalidB). reflexivity.
Qed.

Variable uA : User.
Hypothesis HA : users db !! fr_from request = Some uA.
Hypothesis HvalidA : validate_user server_js uA = None.
Hypothesis Hdistinct : fr_from request <> c_id claims.

(** [accept] adds each party to the other's friend list and keeps the
    record, with status ['accepted']. *)
Lemma accept_server_js :
  let A := fr_from request in
  let B := c_id claims in
  try_catch (accept server_js claims rid) db
  = (json (JMessage "Friend request accepted."),
     with_users
       (<[A := push_friend B uA]>
          (<[B := set_friendRequests (marked rid uB "accepted") (push_friend A uB)]> (users db)))
       (log (WriteUser A (push_friend B uA))
          (log (WriteUser B (set_friendRequests (marked rid uB "accepted") (push_friend A uB)))
             (log (Read "users") (log (Read "users") (log (Read "users") db)))))).
Proof.
  intros A B.
  unfold try_catch, accept.
  unfold bind at 1. unfold User_findById at 1. rewrite HB.
  unfold bind at 1. unfold populate_requests at 1. cbn [users log].
  rewrite find_populated, Hrequest. cbn [fmap option_fmap option_map].
  cbn [populate_request pr_status pr_from pr_id]. rewrite Hpending.
  change (negb ("pending" =? "pending")%string) with false. cbv iota.
  rewrite HA. cbn [fmap option_fmap option_map s_id].
  unfold bind at 1. unfold User_findById at 1. cbn [users log]. rewrite HA.
  destruct (find_some _ _ Hrequest) as [_ Hid]. apply String.eqb_eq in Hid.
  rewrite Hid. fold A B.
  change (set_friendRequests (set_request_status rid "accepted"
                                (friendRequests (push_friend A uB))) (push_friend A uB))
    with (set_friendRequests (marked rid uB "accepted") (push_friend A uB)).
  unfold bind at 1. unfold User_save at 1.
  rewrite (marked_valid "accepted" (push_friend A uB) eq_refl
             (validate_user_push_friend server_js uB A HvalidB)).
  unfold bind at 1. unfold User_save at 1.
  rewrite (validate_user_push_friend server_js uA B HvalidA).
  reflexivity.
Qed.

End ServerJs.

(** ** Direct messages *)

(** [GET /messages/direct] pages the conversation of the caller and the
    recipient in the same way. *)
Lemma messages_direct_pagination (v : Variant) (db : Db) (claims : Claims)
    (recipientId : string) (page limit : Z) :
  recipientId <> "" -> 1 <= page -> 1 <= limit ->
  let conversation :=
    sort_newest_first (List.filter (is_direct (c_id claims) recipientId) (messages db)) in
  let total := Z.of_nat (length conversation) in
  exists msgs db',
    try_catch (messages_direct v claims
                 (mkDirectQuery (Some recipientId) (Some page) (Some limit))) db
    = (json (JDirectPage page limit total (Some (Math_ceil_div total limit)) msgs), db')
    /\ map pm_message msgs = page_of limit page conversation.
Proof.
  intros Hrecipient Hp Hl conversation total.
  unfold try_catch, messages_direct.
  cbn [dq_recipientId dq_page dq_limit default from_option id].
  destruct recipientId as [| c rest]; [contradiction |].
  unfold bind, ret, Message_countDocuments, Message_find, populate_messages.
  destruct (Z.ltb_spec ((page - 1) * limit) 0) as [Hneg | _]; [nia |].
  destruct (Z.eqb_spec limit 0) as [H0 | _]; [lia |].
  cbv beta iota. cbn [log messages users].
  assert (Htotal : Z.of_nat (length (List.filter (is_direct (c_id claims) (String c rest))
                                                 (messages db))) = total).
  { unfold total, conversation. rewrite sort_newest_first_length. reflexivity. }
  rewrite Htotal.
  eexists _, _. split; [reflexivity |].
  rewrite map_map. cbn [pm_message]. rewrite map_id.
  unfold apply_limit, page_of.
  destruct (Z.eqb_spec limit 0); [lia |]. rewrite Z.abs_eq by lia. reflexivity.
Qed.

(** ** The stored users satisfy the schema

    Every write of a user goes through the validation of [save], so a
    store whose users satisfy the schema of the variant stays such a store
    whatever requests are served. *)

Lemma preserves_ret {A} (I : Db -> Prop) (a : A) : preserves I (ret a).
Proof. intros db Hdb. exact Hdb. Qed.

Lemma preserves_send {A} (I : Db -> Prop) (r : Response) : preserves I (@send A r).
Proof. intros db Hdb. exact Hdb. Qed.

Lemma preserves_throw {A} (I : Db -> Prop) (e : Error) : preserves I (@throw A e).
Proof. intros db Hdb. exact Hdb. Qed.

Lemma preserves_bind {A B} (I : Db -> Prop) (m : Async A) (k : A -> Async B) :
  preserves I m -> (forall a, preserves I (k a)) -> preserves I (bind m k).
Proof.
  intros Hm Hk db Hdb. unfold bind. specialize (Hm db Hdb).
  destruct (m db) as [[a | r | e] db']; cbn [snd] in *.
  - exact (Hk a db' Hm).
  - exact Hm.
  - exact Hm.
Qed.

Lemma preserves_same_users {A} (v : Variant) (m : Async A) :
  (forall db, users (snd (m db)) = users db) -> preserves (stored_valid v) m.
Proof.
  intros Hsame db Hdb uid u Hu. rewrite Hsame in Hu. exact (Hdb uid u Hu).
Qed.

Lemma stored_valid_insert (v : Variant) (db db' : Db) (uid : ObjectId) (u : User) :
  stored_valid v db -> validate_user v u = None ->
  users db' = <[uid := u]> (users db) -> stored_valid v db'.
Proof.
  intros Hdb Hu Hstore uid' u' Hlookup. rewrite Hstore in Hlookup.
  destruct (decide (uid = uid')) as [-> | Hne].
  - rewrite lookup_insert_eq in Hlookup. injection Hlookup as <-. exact Hu.
  - rewrite lookup_insert_ne in Hlookup by exact Hne. exact (Hdb uid' u' Hlookup).
Qed.

Lemma preserves_User_save (v : Variant) (uid : ObjectId) (u : User) :
  preserves (stored_valid v) (User_save v uid u).
Proof.
  intros db Hdb. unfold User_save.
  destruct (validate_user v u) eqn:Hu; [exact Hdb |].
  cbn [snd]. eapply stored_valid_insert; [exact Hdb | exact Hu | reflexivity].
Qed.

Lemma preserves_User_insert (v : Variant) (uid : ObjectId) (u : User) :
  preserves (stored_valid v) (User_insert v uid u).
Proof.
  intros db Hdb. unfold User_insert.
  destruct (validate_user v u) eqn:Hu; [exact Hdb |].
  destruct (bool_decide _); [exact Hdb |].
  destruct (username_taken _ _ _); [exact Hdb |].
  cbn [snd]. eapply stored_valid_insert; [exact Hdb | exact Hu | reflexivity].
Qed.

Lemma preserves_Message_save (v v' : Variant) (doc : Error + Message) :
  preserves (stored_valid v) (Message_save v' doc).
Proof.
  apply preserves_same_users. intros db. unfold Message_save.
  destruct doc as [e | m]; [reflexivity |].
  destruct (negb _); [reflexivity |].
  destruct (_ && _); [reflexivity |].
  destruct (existsb _ _); reflexivity.
Qed.

Lemma preserves_Message_find (v : Variant) (f : Message -> bool) (skip limit : Z) :
  preserves (stored_valid v) (Message_find f skip limit).
Proof.
  apply preserves_same_users. intros db. unfold Message_find.
  destruct (skip <? 0); reflexivity.
Qed.

Lemma preserves_Note_save `{Mongoose} (v : Variant) (env : Env) (body : NoteBody)
    (uid : ObjectId) :
  preserves (stored_valid v) (Note_save env body uid).
Proof.
  apply preserves_same_users. intros db. unfold Note_save.
  destruct (new_id env (nb_id body)); [reflexivity |].
  cbv zeta. destruct (negb _); [reflexivity |].
  destruct (negb _); [reflexivity |].
  destruct (existsb _ _); reflexivity.
Qed.

Lemma preserves_Note_findByIdAndUpdate `{Mongoose} (v : Variant) (id : string)
    (body : NoteBody) :
  preserves (stored_valid v) (Note_findByIdAndUpdate id body).
Proof.
  apply preserves_same_users. intros db. unfold Note_findByIdAndUpdate, bind, lift.
  destruct (cast "_id" id); [reflexivity |].
  destruct (cast_update body); [reflexivity |].
  cbn [ret throw]. cbv zeta. destruct (List.find _ _); [| reflexivity].
  destruct (negb _); reflexivity.
Qed.

Lemma preserves_Note_findByIdAndDelete `{Mongoose} (v : Variant) (id : string) :
  preserves (stored_valid v) (Note_findByIdAndDelete id).
Proof.
  apply preserves_same_users. intros db. unfold Note_findByIdAndDelete, bind, lift.
  destruct (cast "_id" id); reflexivity.
Qed.

Lemma preserves_lift {A} (I : Db -> Prop) (r : Error + A) : preserves I (lift r).
Proof. destruct r; intros db Hdb; exact Hdb. Qed.

Ltac preserve_step :=
  first
    [ apply preserves_ret | apply preserves_send | apply preserves_throw
    | apply preserves_User_insert | apply preserves_User_save
    | apply preserves_Message_save | apply preserves_Message_find
    | apply preserves_Note_save | apply preserves_Note_findByIdAndUpdate
    | apply preserves_Note_findByIdAndDelete | apply preserves_lift
    | apply preserves_same_users; intros; reflexivity
    | apply preserves_bind; [| intros ?]
    | match goal with
      | |- preserves _ (match ?x with _ => _ end) => destruct x
      | |- preserves _ (if ?b then _ else _) => destruct b
      end ].

Ltac preserve := repeat preserve_step.

Lemma stored_valid_try_catch (v : Variant) (h : Async Response) (db : Db) :
  preserves (stored_valid v) h -> stored_valid v db ->
  stored_valid v (snd (try_catch h db)).
Proof.
  intros Hh Hdb. specialize (Hh db Hdb). unfold try_catch.
  destruct (h db) as [[r | r | e] db']; exact Hh.
Qed.

Lemma stored_valid_authenticate (v : Variant) (env : Env) (h : option Token)
    (handler : Claims -> Async Response) (db : Db) :
  (forall req_user, preserves (stored_valid v) (handler req_user)) ->
  stored_valid v db ->
  stored_valid v
    (snd (authenticate env h (fun req_user => try_catch (handler req_user)) db)).
Proof.
  intros Hh Hdb. unfold authenticate.
  destruct (no_header h); [exact Hdb |].
  destruct h as [t |]; [| exact Hdb].
  destruct (jwt_verify t (JWT_SECRET env) (now env)) as [e | decoded]; [exact Hdb |].
  apply stored_valid_try_catch; [apply Hh | exact Hdb].
Qed.

(** Serving a request keeps the stored users valid. *)
Lemma app_stored_valid `{Bcrypt} `{Mongoose} (v : Variant) (env : Env) (req : Request)
    (db : Db) :
  stored_valid v db -> stored_valid v (snd (app v env req db)).
Proof.
  intros Hdb. unfold app.
  destruct (route req); cbv zeta; try destruct v;
    try exact Hdb;
    try (apply stored_valid_try_catch; [| exact Hdb]);
    try (apply stored_valid_authenticate; [intros req_user | exact Hdb]).
  all: unfold register, login, logout, post_users, get_user, populate_friends,
         messages_global, messages_direct, post_message, get_notes, post_note, put_note,
         delete_note, send_request, respond, accept, decline, list_pending, null_user,
         Message_countDocuments, populate_messages, populate_requests, User_findById,
         User_findOne, Note_find.
  all: preserve.
Qed.

(** The empty store is valid, so every store reached from it is. *)
Lemma stored_valid_empty (v : Variant) : stored_valid v (mkDb ∅ [] [] []).
Proof. intros uid u Hu. cbn in Hu. rewrite lookup_empty in Hu. discriminate. Qed.

(** ** The example of the specification, served by the handlers of [part_000]

    U1 sends U2 a friend request; U2 lists the requests; U2 accepts; U1's
    friends are read.  Where sub-documents have [remove], the first, third
    and fourth step answer as the specification says; the listing answers
    with no entry. *)

Lemma friend_request_example :
  let token uid name := Some (Signed "s3cr3t" (claims_of uid name 4000)) in
  let serve := @app toy_bcrypt older_mongoose part_000 sample_env in
  let step1 := serve (mkRequest (token TestUser1 "TestUser1")
                                (POST_friend_requests (Some Skif))) sample_db in
  let step2 := serve (mkRequest (token Skif "Skif") GET_friend_requests) (snd step1) in
  let step3 := serve (mkRequest (token Skif "Skif")
                        (POST_friend_requests_respond
                           (mkRespondBody (Some "6764a0000000000000000001") (Some "ACCEPTED"))))
                     (snd step2) in
  let step4 := serve (mkRequest (token Skif "Skif") (GET_users TestUser1)) (snd step3) in
  res_status (fst step1) = 201
  /\ fst step2 = json (JRequests [])
  /\ fst step3 = json (JMessage "Friend request ACCEPTED.")
  /\ (exists u populated,
        fst step4 = json (JUserWithFriends TestUser1 u populated)
        /\ friends u = [Skif] /\ map fst populated = [Skif])
  /\ (friends <$> users (snd step4) !! Skif) = Some [TestUser1]
  /\ (friendRequests <$> users (snd step4) !! Skif) = Some [].
Proof. vm_compute. repeat split. eexists _, _. repeat split. Qed.

(** * Further properties of the handlers *)

(** ** The gateway *)

Lemma app_gate_witness :
  exists r,
    @app toy_bcrypt newer_mongoose part_000 sample_env
      (mkRequest (Some (Signed "s3cr3t" (claims_of Skif "Skif" 1000))) (DELETE_notes "n1"))
      sample_db = (r, sample_db)
    /\ (res_status r = 401 \/ res_status r = 403 \/ res_status r = 404).
Proof.
  apply (@app_gate toy_bcrypt newer_mongoose part_000 sample_env
           (mkRequest (Some (Signed "s3cr3t" (claims_of Skif "Skif" 1000))) (DELETE_notes "n1"))
           sample_db); reflexivity.
Defined.

(** ** Stores reached by serving requests *)

Lemma sample_db_valid (v : Variant) : stored_valid v sample_db.
Proof.
  intros uid u Hu. unfold sample_db, sample_users in Hu. cbn [users] in Hu.
  repeat (rewrite lookup_insert in Hu; case_decide; [injection Hu as <-; destruct v; reflexivity |]).
  rewrite lookup_empty in Hu. discriminate.
Qed.

(** X2: whatever requests are served, one after the other, on a store whose
    users satisfy the schema of the file, the users of the resulting store
    satisfy it: [save] validates every user document before it is written,
    and no route writes one in another way. *)
Theorem serve_stored_valid `{Bcrypt} `{Mongoose} (v : Variant) (trace : list (Env * Request)) (db : Db) :
  stored_valid v db -> stored_valid v (serve v trace db).
Proof.
  revert db. induction trace as [| [env req] rest IH]; intros db Hdb.
  - exact Hdb.
  - cbn [serve]. apply IH. apply app_stored_valid. exact Hdb.
Qed.

Lemma serve_stored_valid_witness :
  exists u,
    users (@serve toy_bcrypt newer_mongoose part_000 sample_trace sample_db) !! TestUser1 = Some u
    /\ friends u = [Skif]
    /\ validate_user part_000 u = None.
Proof.
  pose proof (@serve_stored_valid toy_bcrypt newer_mongoose part_000 sample_trace sample_db
                (sample_db_valid part_000)) as Hvalid.
  assert (Hf : (friends <$> users (@serve toy_bcrypt newer_mongoose part_000 sample_trace sample_db)
                              !! TestUser1)
               = Some [Skif]) by (vm_compute; reflexivity).
  destruct (users (@serve toy_bcrypt newer_mongoose part_000 sample_trace sample_db) !! TestUser1)
    as [u |] eqn:Hu; [| discriminate Hf].
  exists u. split; [reflexivity |]. split.
  - injection Hf as Hf. exact Hf.
  - exact (Hvalid TestUser1 u Hu).
Defined.

(** ** The [GET] routes only read *)

Lemma only_reads_refl (db : Db) : only_reads db db.
Proof.
  repeat split. exists []. split; [symmetry; apply app_nil_r | reflexivity].
Qed.

Lemma only_reads_log (db0 db : Db) (collection : string) :
  only_reads db0 db -> only_reads db0 (log (Read collection) db).
Proof.
  intros (Hu & Hm & Hn & ops & Hops & Hreads). repeat split; try assumption.
  exists (ops ++ [Read collection])%list. cbn [log oplog]. split.
  - rewrite Hops. symmetry. apply app_assoc.
  - rewrite forallb_app, Hreads. reflexivity.
Qed.

Lemma preserves_read {A} (db0 : Db) (m : Async A) (collection : string) :
  (forall db, snd (m db) = log (Read collection) db) ->
  preserves (only_reads db0) m.
Proof. intros Hm db Hdb. rewrite Hm. apply only_reads_log. exact Hdb. Qed.

Lemma preserves_read_Message_find (db0 : Db) (f : Message -> bool) (skip limit : Z) :
  preserves (only_reads db0) (Message_find f skip limit).
Proof.
  apply (preserves_read db0 _ "messages"). intros db. unfold Message_find.
  destruct (skip <? 0); reflexivity.
Qed.

Ltac read_step db0 :=
  first
    [ apply preserves_ret | apply preserves_send | apply preserves_throw
    | apply preserves_lift | apply preserves_read_Message_find
    | apply (preserves_read db0 _ "users"); intros; reflexivity
    | apply (preserves_read db0 _ "messages"); intros; reflexivity
    | apply (preserves_read db0 _ "notes"); intros; reflexivity
    | apply preserves_bind; [| intros ?]
    | match goal with
      | |- preserves _ (match ?x with _ => _ end) => destruct x
      | |- preserves _ (if ?b then _ else _) => destruct b
      end ].

Lemma only_reads_try_catch (db0 : Db) (h : Async Response) (db : Db) :
  preserves (only_reads db0) h -> only_reads db0 db ->
  only_reads db0 (snd (try_catch h db)).
Proof.
  intros Hh Hdb. specialize (Hh db Hdb). unfold try_catch.
  destruct (h db) as [[r | r | e] db']; exact Hh.
Qed.

Lemma only_reads_authenticate (env : Env) (h : option Token)
    (handler : Claims -> Async Response) (db : Db) :
  (forall req_user, preserves (only_reads db) (handler req_user)) ->
  only_reads db (snd (authenticate env h (fun req_user => try_catch (handler req_user)) db)).
Proof.
  intros Hh. unfold authenticate.
  destruct (no_header h); [apply only_reads_refl |].
  destruct h as [t |]; [| apply only_reads_refl].
  destruct (jwt_verify t (JWT_SECRET env) (now env)) as [e | decoded];
    [apply only_reads_refl |].
  apply only_reads_try_catch; [apply Hh | apply only_reads_refl].
Qed.

(** X3: the [GET] routes ([/users/:id], [/messages/global],
    [/messages/direct], [/notes/:userId], [/friend-requests]) never write:
    users, messages and notes are what they were, and every operation the
    request sends to the store is a read. *)
Theorem get_routes_only_read `{Bcrypt} `{Mongoose} (v : Variant) (env : Env) (req : Request)
    (db : Db) :
  read_only (route req) = true ->
  only_reads db (snd (app v env req db)).
Proof.
  intros Hroute. unfold app.
  destruct (route req); try discriminate Hroute; cbv zeta;
    apply only_reads_authenticate; intros req_user;
    unfold get_user, populate_friends, messages_global, messages_direct, get_notes,
      list_pending, null_user, Message_countDocuments, populate_messages,
      populate_requests, User_findById, Note_find;
    repeat read_step db.
Qed.

Lemma get_routes_only_read_witness :
  only_reads sample_board
    (snd (@app toy_bcrypt newer_mongoose server_js sample_env
            (mkRequest (Some (Signed "s3cr3t" (claims_of Skif "Skif" 4000)))
                       (GET_messages_direct (mkDirectQuery (Some TestUser1) None None)))
            sample_board))
  /\ oplog (snd (@app toy_bcrypt newer_mongoose server_js sample_env
            (mkRequest (Some (Signed "s3cr3t" (claims_of Skif "Skif" 4000)))
                       (GET_messages_direct (mkDirectQuery (Some TestUser1) None None)))
            sample_board))
     = [Read "messages"; Read "users"; Read "messages"].
Proof.
  split.
  - apply (@get_routes_only_read toy_bcrypt newer_mongoose server_js sample_env). reflexivity.
  - vm_compute. reflexivity.
Defined.

(** ** Routes that do not look at the caller *)

(** X4: [GET /users/:id], [GET /messages/global], [GET /notes/:userId],
    [PUT /notes/:id] and [DELETE /notes/:id] never read [req.user]: two
    requests to one of these routes that carry accepted tokens of
    different users are answered alike and leave the same store.  In
    particular any signed-in user reads, edits and deletes the notes of any
    other. *)
Theorem identity_blind_routes `{Bcrypt} `{Mongoose} (v : Variant) (env : Env)
    (req1 req2 : Request) (db : Db) :
  identity_blind (route req1) = true ->
  route req2 = route req1 ->
  accepted env (authorization req1) = true ->
  accepted env (authorization req2) = true ->
  app v env req1 db = app v env req2 db.
Proof.
  intros Hblind Hroute Hacc1 Hacc2. unfold app. rewrite Hroute.
  destruct (authorization req1) as [[key1 claims1 | raw1] |]; try discriminate Hacc1.
  destruct (authorization req2) as [[key2 claims2 | raw2] |]; try discriminate Hacc2.
  destruct (route req1); try discriminate Hblind; cbv zeta;
    rewrite (authenticate_accepted env key1 claims1 _ db Hacc1),
            (authenticate_accepted env key2 claims2 _ db Hacc2);
    reflexivity.
Qed.

Lemma identity_blind_routes_witness :
  @app toy_bcrypt newer_mongoose server_js sample_env
     (mkRequest testuser1_token (DELETE_notes "6764c0000000000000000001")) sample_notes
  = @app toy_bcrypt newer_mongoose server_js sample_env
     (mkRequest skif_token (DELETE_notes "6764c0000000000000000001")) sample_notes
  /\ fst (@app toy_bcrypt newer_mongoose server_js sample_env
            (mkRequest testuser1_token (DELETE_notes "6764c0000000000000000001")) sample_notes)
     = json (JMessage "Note deleted successfully").
Proof.
  split.
  - apply (@identity_blind_routes toy_bcrypt newer_mongoose server_js sample_env); reflexivity.
  - vm_compute. reflexivity.
Defined.

(** ** Notes *)

Lemma app_accepted_POST_notes `{Bcrypt} `{Mongoose} (v : Variant) (env : Env) (h : option Token)
    (key : string) (claims : Claims) (body : NoteBody) (db : Db) :
  h = Some (Signed key claims) -> accepted env h = true ->
  app v env (mkRequest h (POST_notes body)) db = try_catch (post_note env claims body) db.
Proof.
  intros -> Hacc. unfold app. cbn [route authorization].
  exact (authenticate_accepted env key claims _ db Hacc).
Qed.

(** X5: an authenticated [POST /notes] with a title and a content that are
    not empty and an [_id] that is not used (a fresh one, or the one the
    body gives, where that is a form of an ObjectId) is answered 201 with
    the created note, whose owner is the [id] of the verified token
    whatever [userId] the body names; the note is appended to the
    collection and [GET /notes/:userId] for that owner lists it. *)
Theorem post_note_owner `{Bcrypt} `{Mongoose} (v : Variant) (env : Env) (req : Request)
    (db : Db) (key : string) (claims : Claims) (body : NoteBody) (title content : string)
    (nid : ObjectId) :
  route req = POST_notes body ->
  authorization req = Some (Signed key claims) ->
  accepted env (authorization req) = true ->
  nb_title body = Some title -> title <> "" ->
  nb_content body = Some content -> content <> "" ->
  new_id env (nb_id body) = inr nid ->
  (forall n, In n (notes db) -> n_id n <> nid) ->
  exists n,
    app v env req db
    = (status_json 201 (JNote n),
       with_notes (notes db ++ [n]) (log (Write "notes") db))
    /\ n_id n = nid
    /\ n_userId n = c_id claims
    /\ n_title n = Some title /\ n_content n = Some content
    /\ In n (notes_of (c_id claims) (snd (app v env req db)))
    /\ (forall uid,
          app v env (mkRequest (authorization req) (POST_notes (with_note_userId uid body))) db
          = app v env req db).
Proof.
  intros Hroute Hauth Hacc Htitle Htitle' Hcontent Hcontent' Hnid Hfresh.
  assert (Hrun : forall b, app v env (mkRequest (authorization req) (POST_notes b)) db
                           = try_catch (post_note env claims b) db).
  { intros b. exact (app_accepted_POST_notes v env _ key claims b db Hauth Hacc). }
  assert (Hid : existsb (fun x => String.eqb (n_id x) nid) (notes db) = false).
  { apply not_true_iff_false. intros Hex. apply existsb_exists in Hex as (n & Hin & Heq).
    apply String.eqb_eq in Heq. exact (Hfresh n Hin Heq). }
  assert (Hsaved : try_catch (post_note env claims body) db
                   = (status_json 201
                        (JNote (mkNote nid (c_id claims)
                                       (Some title) (Some content)
                                       (default (now env) (nb_createdAt body))
                                       (default (now env) (nb_updatedAt body)))),
                      with_notes
                        (notes db ++ [mkNote nid (c_id claims)
                                             (Some title) (Some content)
                                             (default (now env) (nb_createdAt body))
                                             (default (now env) (nb_updatedAt body))])
                        (log (Write "notes") db))).
  { unfold try_catch, post_note, bind, ret, Note_save. rewrite Hnid. cbv zeta.
    cbn [n_title n_content n_id]. rewrite Htitle, Hcontent.
    rewrite (required_Some title Htitle'), (required_Some content Hcontent').
    cbn [negb]. rewrite Hid. reflexivity. }
  assert (Happ : app v env req db = try_catch (post_note env claims body) db).
  { rewrite <- Hrun. destruct req as [a r]. cbn in Hroute. subst r. reflexivity. }
  eexists. rewrite Happ, Hsaved.
  split; [reflexivity |]. split; [reflexivity |]. split; [reflexivity |].
  split; [reflexivity |]. split; [reflexivity |]. split.
  - unfold notes_of. cbn [snd notes with_notes]. apply filter_In. split.
    + apply in_or_app. right. left. reflexivity.
    + cbn [n_userId]. apply String.eqb_refl.
  - intros uid. rewrite Hrun, <- Hsaved. reflexivity.
Qed.

Lemma post_note_owner_witness :
  exists n,
    fst (@app toy_bcrypt newer_mongoose part_000 sample_env
           (mkRequest testuser1_token
              (POST_notes (mkNoteBody None (Some Skif) (Some "Artifact") (Some "Sold it")
                                      None None))) sample_notes)
    = status_json 201 (JNote n)
    /\ n_userId n = TestUser1
    /\ length (notes_of TestUser1
                 (snd (@app toy_bcrypt newer_mongoose part_000 sample_env
                         (mkRequest testuser1_token
                            (POST_notes (mkNoteBody None (Some Skif) (Some "Artifact")
                                                    (Some "Sold it") None None)))
                         sample_notes))) = 2%nat.
Proof.
  destruct (@post_note_owner toy_bcrypt newer_mongoose part_000 sample_env
              (mkRequest testuser1_token
                 (POST_notes (mkNoteBody None (Some Skif) (Some "Artifact") (Some "Sold it")
                                         None None)))
              sample_notes "s3cr3t" (claims_of TestUser1 "TestUser1" 4000)
              (mkNoteBody None (Some Skif) (Some "Artifact") (Some "Sold it") None None)
              "Artifact" "Sold it" (fresh sample_env))
    as (n & Hrun & _ & Howner & _ & _ & _ & _).
  - reflexivity.
  - reflexivity.
  - reflexivity.
  - reflexivity.
  - discriminate.
  - reflexivity.
  - discriminate.
  - reflexivity.
  - intros n Hin. cbn in Hin.
    destruct Hin as [<- | [<- | [<- | []]]]; discriminate.
  - exists n. rewrite Hrun. split; [reflexivity |]. split; [exact Howner |].
    cbn [snd]. unfold notes_of. cbn [notes with_notes].
    rewrite List.filter_app, length_app. cbn [List.filter length].
    rewrite Howner. reflexivity.
Defined.

Lemma find_note_None (nid : ObjectId) (ns : list Note) :
  (forall n, In n ns -> n_id n <> nid) ->
  List.find (fun n => String.eqb (n_id n) nid) ns = None.
Proof.
  intros Hnone. destruct (List.find _ ns) as [n |] eqn:Hfind; [| reflexivity].
  apply find_some in Hfind as [Hin Heq]. apply String.eqb_eq in Heq.
  exfalso. exact (Hnone n Hin Heq).
Qed.

Lemma find_note_Some (nid : ObjectId) (ns : list Note) (n : Note) :
  In n ns -> n_id n = nid ->
  exists n', List.find (fun n => String.eqb (n_id n) nid) ns = Some n'.
Proof.
  intros Hin Hid. destruct (List.find _ ns) as [n' |] eqn:Hfind; [eauto |].
  exfalso. apply (find_none _ _ Hfind n) in Hin. rewrite Hid, String.eqb_refl in Hin.
  discriminate.
Qed.

Lemma filter_other_notes (nid : ObjectId) (ns : list Note) :
  (forall n, In n ns -> n_id n <> nid) ->
  List.filter (fun n => negb (String.eqb (n_id n) nid)) ns = ns.
Proof.
  induction ns as [| n ns IH]; [reflexivity |]. intros Hnone. cbn [List.filter].
  destruct (String.eqb_spec (n_id n) nid) as [Heq | _].
  - exfalso. exact (Hnone n (or_introl eq_refl) Heq).
  - cbn [negb]. f_equal. apply IH. intros n' Hin. apply Hnone. right. exact Hin.
Qed.

Lemma delete_note_run `{Mongoose} (id : string) (db : Db) :
  try_catch (delete_note id) db
  = match castObjectId id with
    | None => (status_json 400 (JError (message (CastError "_id" id))), db)
    | Some nid =>
        (match List.find (fun n => String.eqb (n_id n) nid) (notes db) with
         | Some _ => json (JMessage "Note deleted successfully")
         | None => status_json 404 (JError "Note not found")
         end,
         with_notes (List.filter (fun n => negb (String.eqb (n_id n) nid)) (notes db))
                    (log (Write "notes") db))
    end.
Proof.
  unfold try_catch, delete_note, Note_findByIdAndDelete, bind, lift, cast.
  destruct (castObjectId id) as [nid |]; [| reflexivity].
  cbn [ret]. destruct (List.find _ (notes db)); reflexivity.
Qed.

(** X6: [DELETE /notes/:id] touches neither users nor messages.  An id that
    is the string form of no ObjectId is answered 400, and nothing is sent
    to the store.  An id that is a form of an ObjectId, whatever the case of
    its digits, removes the note with that [_id] and no other; the answer
    is 200 when there was such a note and 404, the notes staying as they
    were, when there was none; so a second deletion of the same note is
    answered 404. *)
Theorem delete_note_spec `{Mongoose} (id : string) (db : Db) :
  let run := try_catch (delete_note id) db in
  users (snd run) = users db
  /\ messages (snd run) = messages db
  /\ (castObjectId id = None -> res_status (fst run) = 400 /\ snd run = db)
  /\ (forall nid,
        castObjectId id = Some nid ->
        (forall n, In n (notes (snd run)) <-> In n (notes db) /\ n_id n <> nid)
        /\ ((exists n, In n (notes db) /\ n_id n = nid) ->
            fst run = json (JMessage "Note deleted successfully"))
        /\ ((forall n, In n (notes db) -> n_id n <> nid) ->
            fst run = status_json 404 (JError "Note not found")
            /\ notes (snd run) = notes db)
        /\ fst (try_catch (delete_note id) (snd run))
           = status_json 404 (JError "Note not found")).
Proof.
  cbv zeta. rewrite (delete_note_run id db).
  destruct (castObjectId id) as [nid |] eqn:Hcast.
  - cbn [fst snd notes users messages with_notes log].
    split; [reflexivity |]. split; [reflexivity |]. split; [discriminate |].
    intros nid' [= <-].
    assert (Hnotes : forall n,
               In n (List.filter (fun n => negb (String.eqb (n_id n) nid)) (notes db))
               <-> In n (notes db) /\ n_id n <> nid).
    { intros n. rewrite filter_In. split; intros [Hin Hne]; (split; [exact Hin |]).
      - apply negb_true_iff, String.eqb_neq in Hne. exact Hne.
      - apply negb_true_iff, String.eqb_neq. exact Hne. }
    split; [exact Hnotes |]. split; [| split].
    + intros (n & Hin & Hid).
      destruct (find_note_Some nid (notes db) n Hin Hid) as [n' ->]. reflexivity.
    + intros Hnone. rewrite (find_note_None nid (notes db) Hnone).
      split; [reflexivity | exact (filter_other_notes nid (notes db) Hnone)].
    + rewrite delete_note_run, Hcast. cbn [fst notes with_notes log].
      rewrite find_note_None; [reflexivity |].
      intros n Hin. apply Hnotes in Hin as [_ Hne]. exact Hne.
  - cbn [fst snd]. split; [reflexivity |]. split; [reflexivity |].
    split; [split; reflexivity | discriminate].
Qed.

Lemma delete_note_spec_witness :
  fst (try_catch (@delete_note newer_mongoose "6764C0000000000000000002") sample_notes)
  = json (JMessage "Note deleted successfully")
  /\ map n_id (notes (snd (try_catch (@delete_note newer_mongoose "6764C0000000000000000002")
                                     sample_notes)))
     = ["6764c0000000000000000001"; "6764c0000000000000000003"]
  /\ (fst (try_catch (@delete_note newer_mongoose "6764c00000000000000000ff") sample_notes)
      = status_json 404 (JError "Note not found")
      /\ notes (snd (try_catch (@delete_note newer_mongoose "6764c00000000000000000ff")
                               sample_notes))
         = notes sample_notes)
  /\ (res_status (fst (try_catch (@delete_note newer_mongoose "n1") sample_notes)) = 400
      /\ snd (try_catch (@delete_note newer_mongoose "n1") sample_notes) = sample_notes).
Proof.
  pose proof (@delete_note_spec newer_mongoose "6764C0000000000000000002" sample_notes)
    as Hupper.
  pose proof (@delete_note_spec newer_mongoose "6764c00000000000000000ff" sample_notes)
    as Hmissing.
  pose proof (@delete_note_spec newer_mongoose "n1" sample_notes) as Hrefused.
  cbv zeta in Hupper, Hmissing, Hrefused.
  destruct Hupper as (_ & _ & _ & Hupper).
  destruct (Hupper "6764c0000000000000000002" eq_refl) as (_ & Hfound & _).
  destruct Hmissing as (_ & _ & _ & Hmissing).
  destruct (Hmissing "6764c00000000000000000ff" eq_refl) as (_ & _ & Hnone & _).
  destruct Hrefused as (_ & _ & Hrefused & _).
  split; [| split; [| split]].
  - apply Hfound. eexists. split; [right; left; reflexivity | reflexivity].
  - vm_compute. reflexivity.
  - apply Hnone.
    intros n Hin. cbn in Hin. destruct Hin as [<- | [<- | [<- | []]]]; discriminate.
  - apply Hrefused. reflexivity.
Defined.

Lemma update_note_id (update : NoteUpdate) (n : Note) : n_id (update_note update n) = n_id n.
Proof. reflexivity. Qed.

Lemma update_note_empty (n : Note) :
  update_note (mkNoteUpdate None None None None None None) n = n.
Proof. destruct n. reflexivity. Qed.

Lemma cast_update_empty `{Mongoose} :
  cast_update empty_note_body = inr (mkNoteUpdate None None None None None None).
Proof. reflexivity. Qed.

Lemma cast_update_updatedAt `{Mongoose} (body : NoteBody) (update : NoteUpdate) :
  cast_update body = inr update -> nu_updatedAt update = nb_updatedAt body.
Proof.
  unfold cast_update.
  destruct (cast_given "_id" (nb_id body)); [discriminate |].
  destruct (cast_given "userId" (nb_userId body)); [discriminate |].
  intros [= <-]. reflexivity.
Qed.

Lemma put_note_refused `{Mongoose} (id : string) (body : NoteBody) (db : Db) :
  castObjectId id = None \/ (exists e, cast_update body = inl e) ->
  res_status (fst (try_catch (put_note id body) db)) = 400
  /\ snd (try_catch (put_note id body) db) = db.
Proof.
  intros Hrefused.
  unfold try_catch, put_note, Note_findByIdAndUpdate, bind, lift, cast.
  destruct (castObjectId id) as [nid |]; [| split; reflexivity].
  destruct Hrefused as [Hid | [e He]]; [discriminate |].
  rewrite He. split; reflexivity.
Qed.

Lemma put_note_run `{Mongoose} (id : string) (body : NoteBody) (db : Db)
    (nid : ObjectId) (update : NoteUpdate) :
  castObjectId id = Some nid -> cast_update body = inr update ->
  try_catch (put_note id body) db
  = match List.find (fun n => String.eqb (n_id n) nid) (notes db) with
    | None => (status_json 404 (JError "Note not found"), log (Write "notes") db)
    | Some n =>
        if bool_decide (nu_id update = None \/ nu_id update = Some nid)
        then (json (JNote (update_note update n)),
              with_notes (map (fun x => if String.eqb (n_id x) nid
                                        then update_note update x else x) (notes db))
                         (log (Write "notes") db))
        else (status_json 400
                (JError "Performing an update on the path '_id' would modify the immutable field '_id'"),
              log (Write "notes") db)
    end.
Proof.
  intros Hid Hupdate.
  unfold try_catch, put_note, Note_findByIdAndUpdate, bind, lift, cast.
  rewrite Hid, Hupdate. cbn [ret]. cbv zeta.
  destruct (List.find _ (notes db)); [| reflexivity].
  destruct (bool_decide _); reflexivity.
Qed.

(** X7: [PUT /notes/:id] never adds, removes or reorders notes and never
    changes an [_id]; it touches neither users nor messages.  Where the id,
    or an [_id] or a [userId] that the body gives, is the string form of no
    ObjectId, the answer is 400 and nothing is sent to the store.
    Otherwise the notes with another [_id] than the one the id is a form of
    stay as they are; the answer is 404 when no note has that [_id] and,
    unless the body names another [_id], 200 with the note after the paths
    given in the body were set.  [updatedAt] is only set when the body
    gives it: the update does not refresh it.  A body that names no path
    changes nothing. *)
Theorem put_note_spec `{Mongoose} (id : string) (body : NoteBody) (db : Db) :
  let run := try_catch (put_note id body) db in
  map n_id (notes (snd run)) = map n_id (notes db)
  /\ users (snd run) = users db
  /\ messages (snd run) = messages db
  /\ (castObjectId id = None \/ (exists e, cast_update body = inl e) ->
      res_status (fst run) = 400 /\ snd run = db)
  /\ (forall nid update,
        castObjectId id = Some nid -> cast_update body = inr update ->
        (forall i n, n_id n <> nid -> notes db !! i = Some n ->
                     notes (snd run) !! i = Some n)
        /\ (nb_updatedAt body = None ->
            map n_updatedAt (notes (snd run)) = map n_updatedAt (notes db))
        /\ ((forall n, In n (notes db) -> n_id n <> nid) ->
            fst run = status_json 404 (JError "Note not found"))
        /\ (forall n, List.find (fun n => String.eqb (n_id n) nid) (notes db) = Some n ->
            nu_id update = None \/ nu_id update = Some nid ->
            fst run = json (JNote (update_note update n))
            /\ In (update_note update n) (notes (snd run)))
        /\ (body = empty_note_body -> notes (snd run) = notes db)).
Proof.
  cbv zeta.
  destruct (castObjectId id) as [nid |] eqn:Hid; cycle 1.
  { destruct (put_note_refused id body db (or_introl Hid)) as [Hstatus Hdb].
    rewrite Hdb. split; [reflexivity |]. split; [reflexivity |]. split; [reflexivity |].
    split; [intros _; split; [exact Hstatus | reflexivity] | discriminate]. }
  destruct (cast_update body) as [e | update] eqn:Hupdate.
  { destruct (put_note_refused id body db (or_intror (ex_intro _ e Hupdate)))
      as [Hstatus Hdb].
    rewrite Hdb. split; [reflexivity |]. split; [reflexivity |]. split; [reflexivity |].
    split; [intros _; split; [exact Hstatus | reflexivity] | discriminate]. }
  rewrite (put_note_run id body db nid update Hid Hupdate).
  set (f := fun x => if String.eqb (n_id x) nid then update_note update x else x).
  assert (Hids : map n_id (map f (notes db)) = map n_id (notes db)).
  { rewrite map_map. apply map_ext. intros x. unfold f.
    destruct (n_id x =? nid)%string; reflexivity. }
  assert (Hother : forall i n, n_id n <> nid -> notes db !! i = Some n ->
                               map f (notes db) !! i = Some n).
  { intros i n Hne Hi. rewrite list_lookup_fmap, Hi. cbn. unfold f.
    destruct (String.eqb_spec (n_id n) nid); [contradiction | reflexivity]. }
  assert (Hupdated : nb_updatedAt body = None ->
                     map n_updatedAt (map f (notes db)) = map n_updatedAt (notes db)).
  { intros Hnone. rewrite map_map. apply map_ext. intros x. unfold f.
    destruct (n_id x =? nid)%string; [| reflexivity].
    unfold update_note. cbn [n_updatedAt].
    rewrite (cast_update_updatedAt body update Hupdate), Hnone. reflexivity. }
  assert (Hempty : body = empty_note_body -> map f (notes db) = notes db).
  { intros ->. rewrite cast_update_empty in Hupdate. injection Hupdate as <-.
    rewrite <- (map_id (notes db)) at 2. apply map_ext. intros x. unfold f.
    destruct (n_id x =? nid)%string; [apply update_note_empty | reflexivity]. }
  assert (Hrefused : Some nid = None \/ (exists e, inr update = @inl Error NoteUpdate e) ->
                     False).
  { intros [Hcontra | [e He]]; discriminate. }
  destruct (List.find (fun n => String.eqb (n_id n) nid) (notes db)) as [n0 |] eqn:Hfind.
  - destruct (bool_decide (nu_id update = None \/ nu_id update = Some nid)) eqn:Hbody;
      cbn [fst snd notes users messages with_notes log].
    + split; [exact Hids |]. split; [reflexivity |]. split; [reflexivity |].
      split; [intros Hr; destruct (Hrefused Hr) |].
      intros nid' update' [= <-] [= <-].
      split; [exact Hother |]. split; [exact Hupdated |]. split.
      * intros Hnone. rewrite (find_note_None nid (notes db) Hnone) in Hfind. discriminate.
      * split; [| exact Hempty].
        intros n Hn _. rewrite Hfind in Hn. injection Hn as <-. split; [reflexivity |].
        apply find_some in Hfind as [Hin Heq]. apply in_map_iff. exists n0.
        split; [| exact Hin]. unfold f. rewrite Heq. reflexivity.
    + split; [reflexivity |]. split; [reflexivity |]. split; [reflexivity |].
      split; [intros Hr; destruct (Hrefused Hr) |].
      intros nid' update' [= <-] [= <-].
      split; [auto |]. split; [reflexivity |]. split.
      * intros Hnone. rewrite (find_note_None nid (notes db) Hnone) in Hfind. discriminate.
      * split; [| reflexivity].
        intros n _ Hb. apply bool_decide_eq_false in Hbody. contradiction.
  - cbn [fst snd notes users messages log].
    split; [reflexivity |]. split; [reflexivity |]. split; [reflexivity |].
    split; [intros Hr; destruct (Hrefused Hr) |].
    intros nid' update' [= <-] [= <-].
    split; [auto |]. split; [reflexivity |]. split; [reflexivity |].
    split; [| reflexivity]. intros n Hn. rewrite Hfind in Hn. discriminate Hn.
Qed.

Lemma put_note_spec_witness :
  fst (try_catch (@put_note newer_mongoose "6764C0000000000000000001"
                    (mkNoteBody None (Some TestUser1) None (Some "Moved") None None))
                 sample_notes)
  = json (JNote (mkNote "6764c0000000000000000001" TestUser1 (Some "Stash") (Some "Moved")
                        3000 3000))
  /\ map n_updatedAt
       (notes (snd (try_catch (@put_note newer_mongoose "6764C0000000000000000001"
                                (mkNoteBody None (Some TestUser1) None (Some "Moved") None None))
                              sample_notes)))
     = [3000; 3100; 3200]
  /\ fst (try_catch (@put_note newer_mongoose "6764c00000000000000000ff" empty_note_body)
                    sample_notes)
     = status_json 404 (JError "Note not found")
  /\ notes (snd (try_catch (@put_note newer_mongoose "6764c0000000000000000001"
                              empty_note_body) sample_notes))
     = notes sample_notes
  /\ res_status (fst (try_catch (@put_note newer_mongoose "6764c0000000000000000001"
                                   (mkNoteBody None (Some "bob") None None None None))
                                sample_notes)) = 400.
Proof.
  pose proof (@put_note_spec newer_mongoose "6764C0000000000000000001"
                (mkNoteBody None (Some TestUser1) None (Some "Moved") None None) sample_notes)
    as Hmoved.
  pose proof (@put_note_spec newer_mongoose "6764c00000000000000000ff" empty_note_body
                sample_notes) as Hmissing.
  pose proof (@put_note_spec newer_mongoose "6764c0000000000000000001" empty_note_body
                sample_notes) as Hempty.
  pose proof (@put_note_spec newer_mongoose "6764c0000000000000000001"
                (mkNoteBody None (Some "bob") None None None None) sample_notes) as Hbob.
  cbv zeta in Hmoved, Hmissing, Hempty, Hbob.
  destruct Hmoved as (_ & _ & _ & _ & Hmoved).
  destruct (Hmoved "6764c0000000000000000001"
              (mkNoteUpdate None (Some TestUser1) None (Some "Moved") None None)
              eq_refl eq_refl) as (_ & Hupdated & _ & Hfound & _).
  destruct Hmissing as (_ & _ & _ & _ & Hmissing).
  destruct (Hmissing "6764c00000000000000000ff"
              (mkNoteUpdate None None None None None None) eq_refl eq_refl)
    as (_ & _ & Hnone & _).
  destruct Hempty as (_ & _ & _ & _ & Hempty).
  destruct (Hempty "6764c0000000000000000001"
              (mkNoteUpdate None None None None None None) eq_refl eq_refl)
    as (_ & _ & _ & _ & Hsame).
  destruct Hbob as (_ & _ & _ & Hbob & _).
  split; [| split; [| split; [| split]]].
  - apply (Hfound (mkNote "6764c0000000000000000001" Skif (Some "Stash")
                          (Some "Under the bridge") 3000 3000)).
    + reflexivity.
    + left. reflexivity.
  - rewrite (Hupdated eq_refl). reflexivity.
  - apply Hnone. intros n Hin. cbn in Hin.
    destruct Hin as [<- | [<- | [<- | []]]]; discriminate.
  - exact (Hsame eq_refl).
  - apply Hbob. right. eexists. reflexivity.
Defined.

(** ** Listings *)

Lemma is_direct_sym (a b : ObjectId) (m : Message) : is_direct a b m = is_direct b a m.
Proof. unfold is_direct. apply orb_comm. Qed.

Lemma is_direct_not_global (a b : ObjectId) (m : Message) :
  is_direct a b m = true -> is_global m = false.
Proof.
  unfold is_direct, is_global. intros Hd.
  apply orb_true_iff in Hd as [Hd | Hd]; apply andb_true_iff in Hd as [_ Hd];
    apply bool_decide_eq_true in Hd; rewrite Hd; reflexivity.
Qed.

Lemma In_apply_limit (n : Z) (l : list Message) (m : Message) :
  In m (apply_limit n l) -> In m l.
Proof.
  unfold apply_limit. destruct (n =? 0); [auto |].
  intros Hin. rewrite <- (firstn_skipn (Z.to_nat (Z.abs n)) l).
  apply in_or_app. left. exact Hin.
Qed.

Lemma In_skipn (n : nat) (l : list Message) (m : Message) :
  In m (skipn n l) -> In m l.
Proof.
  intros Hin. rewrite <- (firstn_skipn n l). apply in_or_app. right. exact Hin.
Qed.

Lemma In_listed (f : Message -> bool) (skip : nat) (limit : Z) (l : list Message)
    (m : Message) :
  In m (apply_limit limit (skipn skip (sort_newest_first (List.filter f l)))) ->
  In m l /\ f m = true.
Proof.
  intros Hin. apply In_apply_limit, In_skipn in Hin.
  apply (Permutation_in _ (sort_newest_first_perm _)) in Hin.
  apply filter_In in Hin. exact Hin.
Qed.

Lemma messages_direct_run (v : Variant) (claims : Claims) (c : ascii) (rest : string)
    (page limit : option Z) (db : Db) :
  let recipientId := String c rest in
  let p := default 1 page in
  let l := default 10 limit in
  try_catch (messages_direct v claims (mkDirectQuery (Some recipientId) page limit)) db
  = if (p - 1) * l <? 0
    then (status_json 400 (JError "Skip value must be non-negative"),
          log (Read "messages") db)
    else
      let conversation := List.filter (is_direct (c_id claims) recipientId) (messages db) in
      let total := Z.of_nat (length conversation) in
      (json (JDirectPage p l total
               (if l =? 0 then None else Some (Math_ceil_div total l))
               (map (fun m => mkPopulatedMessage m
                                (author_of v (m_userId m) <$> users db !! m_userId m)
                                (m_recipientId m ≫= fun uid =>
                                   author_of v uid <$> users db !! uid))
                    (apply_limit l (skipn (Z.to_nat ((p - 1) * l))
                                          (sort_newest_first conversation))))),
       log (Read "messages") (log (Read "users") (log (Read "messages") db))).
Proof.
  intros recipientId p l.
  unfold try_catch, messages_direct. cbn [dq_recipientId dq_page dq_limit]. fold p l.
  unfold bind, ret, Message_countDocuments, Message_find, populate_messages.
  destruct ((p - 1) * l <? 0); reflexivity.
Qed.

(** X8: [GET /messages/direct] shows both parties the same conversation:
    the caller asking for the recipient and the recipient asking for the
    caller get the same page numbers, totals and messages.  Every message
    it lists is a stored message between the two, so no global message and
    no message of a third user is listed.  Without a [recipientId] the
    answer is 400 and the store is not consulted. *)
Theorem messages_direct_symmetric (v : Variant) (db : Db) (claimsA claimsB : Claims)
    (page limit : option Z) :
  c_id claimsA <> "" -> c_id claimsB <> "" ->
  fst (try_catch (messages_direct v claimsA
                    (mkDirectQuery (Some (c_id claimsB)) page limit)) db)
  = fst (try_catch (messages_direct v claimsB
                      (mkDirectQuery (Some (c_id claimsA)) page limit)) db)
  /\ (forall p l total totalPages msgs pm,
        fst (try_catch (messages_direct v claimsA
                          (mkDirectQuery (Some (c_id claimsB)) page limit)) db)
        = json (JDirectPage p l total totalPages msgs) ->
        In pm msgs ->
        In (pm_message pm) (messages db)
        /\ is_global (pm_message pm) = false
        /\ ((m_userId (pm_message pm) = c_id claimsA
             /\ m_recipientId (pm_message pm) = Some (c_id claimsB))
            \/ (m_userId (pm_message pm) = c_id claimsB
                /\ m_recipientId (pm_message pm) = Some (c_id claimsA))))
  /\ try_catch (messages_direct v claimsA (mkDirectQuery None page limit)) db
     = (status_json 400 (JError "Recipient ID is required"), db).
Proof.
  intros HA HB.
  destruct (c_id claimsA) as [| cA restA] eqn:EA; [contradiction |].
  destruct (c_id claimsB) as [| cB restB] eqn:EB; [contradiction |].
  rewrite !messages_direct_run. cbv zeta. rewrite EA, EB.
  assert (Hfilter : List.filter (is_direct (String cB restB) (String cA restA)) (messages db)
                    = List.filter (is_direct (String cA restA) (String cB restB)) (messages db)).
  { apply filter_ext. intros m. apply is_direct_sym. }
  rewrite Hfilter.
  split; [reflexivity |]. split; [| reflexivity].
  intros p l total totalPages msgs pm Hrun Hin.
  destruct ((default 1 page - 1) * default 10 limit <? 0); [discriminate Hrun |].
  cbn [fst] in Hrun. injection Hrun as _ _ _ _ <-.
  apply in_map_iff in Hin as (m & <- & Hin). cbn [pm_message].
  apply In_listed in Hin as [Hin Hd].
  split; [exact Hin |]. split; [exact (is_direct_not_global _ _ m Hd) |].
  unfold is_direct in Hd. apply orb_true_iff in Hd as [Hd | Hd];
    apply andb_true_iff in Hd as [Hu Hr];
    apply String.eqb_eq in Hu; apply bool_decide_eq_true in Hr; auto.
Qed.

Lemma messages_direct_symmetric_witness :
  fst (try_catch (messages_direct server_js (claims_of Skif "Skif" 4000)
                    (mkDirectQuery (Some TestUser1) None None)) sample_board)
  = fst (try_catch (messages_direct server_js (claims_of TestUser1 "TestUser1" 4000)
                      (mkDirectQuery (Some Skif) None None)) sample_board)
  /\ (exists msgs,
        fst (try_catch (messages_direct server_js (claims_of Skif "Skif" 4000)
                          (mkDirectQuery (Some TestUser1) None None)) sample_board)
        = json (JDirectPage 1 10 2 (Some 1) msgs)
        /\ map (fun pm => m_id (pm_message pm)) msgs
           = ["6765a0000000000000000b02"; "6765a0000000000000000b01"]).
Proof.
  split.
  - apply (messages_direct_symmetric server_js sample_board (claims_of Skif "Skif" 4000)
             (claims_of TestUser1 "TestUser1" 4000) None None); discriminate.
  - eexists. split; vm_compute; reflexivity.
Defined.

Lemma or_default_nonzero (n : option Z) (d : Z) : d <> 0 -> or_default n d <> 0.
Proof. intros Hd. destruct n as [[| p | p] |]; cbn; [exact Hd | lia | lia | exact Hd]. Qed.

Lemma StronglySorted_skipn (n : nat) (l : list Message) :
  StronglySorted newer_or_equal l -> StronglySorted newer_or_equal (skipn n l).
Proof.
  revert l. induction n as [| n IH]; intros l Hl; [exact Hl |].
  destruct l as [| x l]; [exact Hl |]. cbn [skipn]. apply IH.
  inversion Hl; assumption.
Qed.

Lemma StronglySorted_firstn (n : nat) (l : list Message) :
  StronglySorted newer_or_equal l -> StronglySorted newer_or_equal (firstn n l).
Proof.
  revert l. induction n as [| n IH]; intros l Hl; [constructor |].
  destruct l as [| x l]; [constructor |]. cbn [firstn].
  inversion Hl as [| ? ? Hsorted Hall]; subst. constructor; [exact (IH l Hsorted) |].
  rewrite Forall_forall in *. intros y Hy. apply Hall.
  rewrite <- (firstn_skipn n l). apply list_elem_of_In, in_or_app. left.
  apply list_elem_of_In. exact Hy.
Qed.

Lemma StronglySorted_apply_limit (n : Z) (l : list Message) :
  StronglySorted newer_or_equal l -> StronglySorted newer_or_equal (apply_limit n l).
Proof.
  intros Hl. unfold apply_limit. destruct (n =? 0); [exact Hl |].
  apply StronglySorted_firstn. exact Hl.
Qed.

(** X9: whenever [GET /messages/global] answers with a page, the limit and
    the page number in it are not zero (a missing, malformed or zero
    parameter falls back to page 1 and limit 10, so [totalPages] is never a
    division by zero), [totalMessages] counts the stored global messages,
    and the listed messages are stored global messages, newest first, at
    most [limit] of them. *)
Theorem messages_global_listing (v : Variant) (q : GlobalQuery) (db db' : Db)
    (md : Metadata) (msgs : list PopulatedMessage) :
  try_catch (messages_global v q) db = (json (JGlobalPage md msgs), db') ->
  md_limit md <> 0 /\ md_currentPage md <> 0
  /\ (parseInt (gq_limit q) = None \/ parseInt (gq_limit q) = Some 0 -> md_limit md = 10)
  /\ (parseInt (gq_page q) = None \/ parseInt (gq_page q) = Some 0 -> md_currentPage md = 1)
  /\ md_totalMessages md = Z.of_nat (length (List.filter is_global (messages db)))
  /\ (forall pm, In pm msgs ->
        In (pm_message pm) (messages db) /\ m_recipientId (pm_message pm) = None)
  /\ StronglySorted newer_or_equal (map pm_message msgs)
  /\ (0 < md_limit md -> Z.of_nat (length msgs) <= md_limit md).
Proof.
  unfold try_catch, messages_global, bind, ret, Message_countDocuments, Message_find,
    populate_messages.
  set (page := or_default (parseInt (gq_page q)) 1).
  set (limit := or_default (parseInt (gq_limit q)) 10).
  cbn [log messages users].
  destruct ((page - 1) * limit <? 0); [discriminate |].
  intros [= <- <- _]. cbn [md_limit md_currentPage md_totalMessages].
  split; [apply or_default_nonzero; discriminate |].
  split; [apply or_default_nonzero; discriminate |].
  split; [intros [Hl | Hl]; unfold limit; rewrite Hl; reflexivity |].
  split; [intros [Hp | Hp]; unfold page; rewrite Hp; reflexivity |].
  split; [reflexivity |].
  split.
  - intros pm Hin. apply in_map_iff in Hin as (m & <- & Hin). cbn [pm_message].
    apply In_listed in Hin as [Hin Hg]. split; [exact Hin |].
    unfold is_global in Hg. apply negb_true_iff, bool_decide_eq_false in Hg.
    destruct (m_recipientId m); [exfalso; apply Hg; eauto | reflexivity].
  - split.
    + rewrite map_map. cbn [pm_message]. rewrite map_id.
      apply StronglySorted_apply_limit, StronglySorted_skipn, sort_newest_first_sorted.
    + intros Hpos. rewrite length_map. unfold apply_limit.
      destruct (Z.eqb_spec limit 0); [lia |].
      rewrite length_firstn. lia.
Qed.

Lemma messages_global_listing_witness :
  exists md msgs,
    fst (try_catch (messages_global part_000 (mkGlobalQuery (Some " 2nd") (Some "0")))
                   sample_board)
    = json (JGlobalPage md msgs)
    /\ md_currentPage md = 2 /\ md_limit md = 10 /\ md_totalMessages md = 25
    /\ length msgs = 10%nat.
Proof.
  destruct (try_catch (messages_global part_000 (mkGlobalQuery (Some " 2nd") (Some "0")))
                      sample_board) as [r db'] eqn:Hrun.
  assert (Hr : exists md msgs, r = json (JGlobalPage md msgs) /\ md_currentPage md = 2
                               /\ length msgs = 10%nat).
  { assert (Hfst : fst (try_catch (messages_global part_000
                                     (mkGlobalQuery (Some " 2nd") (Some "0"))) sample_board)
                   = r) by (rewrite Hrun; reflexivity).
    rewrite <- Hfst. eexists _, _. split; [vm_compute; reflexivity |].
    split; reflexivity. }
  destruct Hr as (md & msgs & -> & Hpage & Hlen).
  destruct (messages_global_listing part_000 _ sample_board db' md msgs Hrun)
    as (_ & _ & Hlimit & _ & Htotal & _).
  exists md, msgs. cbn [fst]. split; [reflexivity |]. split; [exact Hpage |].
  split; [apply Hlimit; right; reflexivity |].
  split; [rewrite Htotal; reflexivity | exact Hlen].
Defined.

(** ** Answers are final in [server.js] *)

Lemma find_set_request_status (rid st : string) (rs : list FriendRequest)
    (r : FriendRequest) :
  List.find (fun r => String.eqb (fr_id r) rid) rs = Some r ->
  List.find (fun r => String.eqb (fr_id r) rid) (set_request_status rid st rs)
  = Some (mkFriendRequest (fr_id r) (fr_from r) (fr_to r) st).
Proof.
  induction rs as [| x rs IH]; [discriminate |].
  cbn [List.find set_request_status].
  destruct (fr_id x =? rid)%string eqn:E.
  - intros [= <-]. cbn [List.find fr_id]. rewrite E. reflexivity.
  - intros Hfind. cbn [List.find]. rewrite E. exact (IH Hfind).
Qed.

Lemma set_request_status_unique (rid st : string) (rs : list FriendRequest)
    (r : FriendRequest) :
  List.NoDup (map fr_id rs) ->
  In r (set_request_status rid st rs) -> fr_id r = rid ->
  (exists r0, In r0 rs /\ fr_id r0 = rid) /\ fr_status r = st.
Proof.
  induction rs as [| x rs IH]; [intros _ [] |].
  cbn [map set_request_status]. intros Hnodup Hin Hid.
  apply NoDup_cons_iff in Hnodup as [Hx Hnodup].
  destruct (String.eqb_spec (fr_id x) rid) as [Heq | Hne].
  - destruct Hin as [<- | Hin].
    + split; [exists x; split; [left; reflexivity | exact Heq] | reflexivity].
    + exfalso. apply Hx. rewrite Heq, <- Hid. apply in_map. exact Hin.
  - destruct Hin as [<- | Hin]; [contradiction |].
    destruct (IH Hnodup Hin Hid) as [(r0 & Hin0 & Hid0) Hst].
    split; [exists r0; split; [right; exact Hin0 | exact Hid0] | exact Hst].
Qed.

Lemma set_request_status_others (rid st : string) (rs : list FriendRequest)
    (r : FriendRequest) :
  fr_id r <> rid -> (In r (set_request_status rid st rs) <-> In r rs).
Proof.
  intros Hne. induction rs as [| x rs IH]; [reflexivity |].
  cbn [set_request_status].
  destruct (String.eqb_spec (fr_id x) rid) as [Heq | Hnx]; cbn [In].
  - split; intros [Hx | Hin]; auto; exfalso; subst r; cbn in Hne; auto.
  - rewrite IH. reflexivity.
Qed.

Lemma list_pending_members (v : Variant) (claims : Claims) (db db' : Db)
    (u : User) (rs : list PopulatedRequest) (r : PopulatedRequest) :
  users db !! c_id claims = Some u ->
  try_catch (list_pending v claims) db = (json (JRequests rs), db') ->
  (In r rs <->
   exists r0, In r0 (friendRequests u) /\ fr_status r0 = "pending"
              /\ r = populate_request v (users db) r0).
Proof.
  intros Hu Hrun. rewrite (list_pending_run v claims db u Hu) in Hrun.
  injection Hrun as <- _. rewrite filter_In, in_map_iff. unfold is_pending. split.
  - intros [(r0 & <- & Hin) Hp]. cbn [populate_request pr_status] in Hp.
    apply String.eqb_eq in Hp. eauto.
  - intros (r0 & Hin & Hp & ->). split; [eauto |].
    cbn [populate_request pr_status]. rewrite Hp. reflexivity.
Qed.

Section ServerJsFinal.

Variable db : Db.
Variable claims : Claims.
Variable rid : string.
Variable uB : User.
Variable request : FriendRequest.

Hypothesis HB : users db !! c_id claims = Some uB.
Hypothesis HvalidB : validate_user server_js uB = None.
Hypothesis Hrequest :
  List.find (fun r => String.eqb (fr_id r) rid) (friendRequests uB) = Some request.

(** Once the record carries another status than ['pending'], [accept] and
    [decline] answer 404 and write nothing. *)
Lemma answered_is_final (db1 : Db) (u1 : User) (st : string) :
  users db1 !! c_id claims = Some u1 ->
  friendRequests u1 = marked rid uB st ->
  st <> "pending" ->
  try_catch (accept server_js claims rid) db1
  = (status_json 404 (JError "Friend request not found or already processed."),
     log (Read "users") (log (Read "users") db1))
  /\ try_catch (decline server_js claims rid) db1
     = (status_json 404 (JError "Friend request not found or already processed."),
        log (Read "users") db1).
Proof.
  intros Hu1 Hrs Hst.
  pose proof (find_set_request_status rid st _ request Hrequest) as Hfind.
  fold (marked rid uB st) in Hfind. rewrite <- Hrs in Hfind.
  apply String.eqb_neq in Hst.
  split.
  - unfold try_catch, accept.
    unfold bind at 1. unfold User_findById at 1. rewrite Hu1.
    unfold bind at 1. unfold populate_requests at 1. cbn [users log].
    rewrite find_populated, Hfind. cbn [fmap option_fmap option_map].
    cbn [populate_request pr_status fr_status]. rewrite Hst. reflexivity.
  - unfold try_catch, decline, bind, User_findById. rewrite Hu1, Hfind.
    cbn [fr_status]. rewrite Hst. reflexivity.
Qed.

End ServerJsFinal.

(** X10: in [server.js], accepting a pending request from an existing
    other user answers 200, appends each party to the other's friend list
    and keeps the record, now ['accepted']; from then on the record is in
    no answer of [GET /friend-requests] (the [_id]s of the list being
    distinct), and accepting or declining it again is answered 404 and
    writes nothing: no one is made a friend twice. *)
Theorem accept_server_js_once (db : Db) (claims : Claims) (rid : string) (uB uA : User)
    (request : FriendRequest) :
  users db !! c_id claims = Some uB ->
  validate_user server_js uB = None ->
  List.find (fun r => String.eqb (fr_id r) rid) (friendRequests uB) = Some request ->
  fr_status request = "pending" ->
  users db !! fr_from request = Some uA ->
  validate_user server_js uA = None ->
  fr_from request <> c_id claims ->
  List.NoDup (map fr_id (friendRequests uB)) ->
  exists db1 uB1 uA1,
    try_catch (accept server_js claims rid) db = (json (JMessage "Friend request accepted."), db1)
    /\ users db1 !! c_id claims = Some uB1
    /\ users db1 !! fr_from request = Some uA1
    /\ friends uB1 = (friends uB ++ [fr_from request])%list
    /\ friends uA1 = (friends uA ++ [c_id claims])%list
    /\ length (friendRequests uB1) = length (friendRequests uB)
    /\ (forall rs db2 r,
          try_catch (list_pending server_js claims) db1 = (json (JRequests rs), db2) ->
          In r rs -> pr_id r <> rid)
    /\ (exists db2,
          try_catch (accept server_js claims rid) db1
          = (status_json 404 (JError "Friend request not found or already processed."), db2)
          /\ users db2 = users db1)
    /\ (exists db2,
          try_catch (decline server_js claims rid) db1
          = (status_json 404 (JError "Friend request not found or already processed."), db2)
          /\ users db2 = users db1).
Proof.
  intros HB HvalidB Hrequest Hpending HA HvalidA Hdistinct Hnodup.
  pose proof (accept_server_js db claims rid uB request HB HvalidB Hrequest Hpending
                uA HA HvalidA) as Hrun.
  cbv zeta in Hrun.
  match type of Hrun with _ = (_, ?d) => set (db1 := d) in * end.
  assert (HB1 : users db1 !! c_id claims
                = Some (set_friendRequests (marked rid uB "accepted")
                          (push_friend (fr_from request) uB))).
  { unfold db1. cbn [users with_users].
    rewrite lookup_insert_ne by exact Hdistinct. apply lookup_insert_eq. }
  exists db1, (set_friendRequests (marked rid uB "accepted")
                 (push_friend (fr_from request) uB)),
    (push_friend (c_id claims) uA).
  split; [exact Hrun |]. split; [exact HB1 |].
  split; [unfold db1; cbn [users with_users]; apply lookup_insert_eq |].
  split; [reflexivity |]. split; [reflexivity |].
  split; [apply set_request_status_length |].
  split.
  - intros rs db2 r Hlist Hin Hid.
    apply (list_pending_members server_js claims db1 db2 _ rs r HB1 Hlist) in Hin
      as (r0 & Hin0 & Hp & ->).
    cbn [populate_request pr_id] in Hid.
    destruct (set_request_status_unique rid "accepted" _ r0 Hnodup Hin0 Hid) as [_ Hst].
    rewrite Hst in Hp. discriminate Hp.
  - destruct (answered_is_final claims rid uB request Hrequest db1 _ "accepted"
                HB1 eq_refl ltac:(discriminate)) as [Haccept Hdecline].
    split; eexists; (split; [eassumption | reflexivity]).
Qed.

Lemma accept_server_js_once_witness :
  exists db1,
    try_catch (accept server_js skif_claims (fr_id request_1_js)) sample_pending_js
    = (json (JMessage "Friend request accepted."), db1)
    /\ (friends <$> users db1 !! Skif) = Some [TestUser1]
    /\ (friends <$> users db1 !! TestUser1) = Some [Skif]
    /\ fst (try_catch (accept server_js skif_claims (fr_id request_1_js)) db1)
       = status_json 404 (JError "Friend request not found or already processed.").
Proof.
  destruct (accept_server_js_once sample_pending_js skif_claims (fr_id request_1_js)
              (set_friendRequests [request_0_js; request_1_js] (sample_user "Skif"))
              (sample_user "TestUser1") request_1_js)
    as (db1 & uB1 & uA1 & Hrun & HB & HA & HfB & HfA & _ & _ & (db2 & Hagain & _) & _).
  - vm_compute. reflexivity.
  - vm_compute. reflexivity.
  - reflexivity.
  - reflexivity.
  - vm_compute. reflexivity.
  - vm_compute. reflexivity.
  - vm_compute. discriminate.
  - cbn. constructor; [intros [H | []]; discriminate H |].
    constructor; [intros [] | constructor].
  - exists db1. split; [exact Hrun |].
    change (c_id skif_claims) with Skif in HB.
    change (fr_from request_1_js) with TestUser1 in HA.
    rewrite HB, HA. cbn [fmap option_fmap option_map]. rewrite HfB, HfA, Hagain.
    repeat split.
Defined.

(** X11: in [server.js], declining a pending request answers 200, marks
    the record ['declined'] and leaves every friend list and every other
    record as it was; from then on the record is in no answer of
    [GET /friend-requests] (the [_id]s of the list being distinct), and
    accepting or declining it is answered 404 and writes nothing. *)
Theorem decline_server_js_final (db : Db) (claims : Claims) (rid : string) (uB : User)
    (request : FriendRequest) :
  users db !! c_id claims = Some uB ->
  validate_user server_js uB = None ->
  List.find (fun r => String.eqb (fr_id r) rid) (friendRequests uB) = Some request ->
  fr_status request = "pending" ->
  List.NoDup (map fr_id (friendRequests uB)) ->
  exists db1 uB1,
    try_catch (decline server_js claims rid) db = (json (JMessage "Friend request declined."), db1)
    /\ users db1 !! c_id claims = Some uB1
    /\ (forall uid, (friends <$> users db1 !! uid) = (friends <$> users db !! uid))
    /\ (forall r, fr_id r <> rid ->
          (In r (friendRequests uB1) <-> In r (friendRequests uB)))
    /\ In (mkFriendRequest rid (fr_from request) (fr_to request) "declined")
          (friendRequests uB1)
    /\ (forall rs db2 r,
          try_catch (list_pending server_js claims) db1 = (json (JRequests rs), db2) ->
          In r rs -> pr_id r <> rid)
    /\ (exists db2,
          try_catch (accept server_js claims rid) db1
          = (status_json 404 (JError "Friend request not found or already processed."), db2)
          /\ users db2 = users db1)
    /\ (exists db2,
          try_catch (decline server_js claims rid) db1
          = (status_json 404 (JError "Friend request not found or already processed."), db2)
          /\ users db2 = users db1).
Proof.
  intros HB HvalidB Hrequest Hpending Hnodup.
  pose proof (decline_server_js db claims rid uB request HB HvalidB Hrequest Hpending)
    as Hrun.
  match type of Hrun with _ = (_, ?d) => set (db1 := d) in * end.
  assert (HB1 : users db1 !! c_id claims
                = Some (set_friendRequests (marked rid uB "declined") uB)).
  { unfold db1. cbn [users with_users]. apply lookup_insert_eq. }
  exists db1, (set_friendRequests (marked rid uB "declined") uB).
  split; [exact Hrun |]. split; [exact HB1 |].
  split.
  { intros uid. unfold db1. cbn [users with_users].
    destruct (decide (uid = c_id claims)) as [-> | Hne].
    - rewrite lookup_insert_eq, HB. reflexivity.
    - rewrite lookup_insert_ne by (intros E; apply Hne; symmetry; exact E). reflexivity. }
  split; [intros r Hne; exact (set_request_status_others rid "declined" _ r Hne) |].
  split.
  { destruct (find_some _ _ Hrequest) as [_ Hid]. apply String.eqb_eq in Hid.
    exact (set_request_status_In rid "declined" _ request Hrequest). }
  split.
  - intros rs db2 r Hlist Hin Hid.
    apply (list_pending_members server_js claims db1 db2 _ rs r HB1 Hlist) in Hin
      as (r0 & Hin0 & Hp & ->).
    cbn [populate_request pr_id] in Hid.
    destruct (set_request_status_unique rid "declined" _ r0 Hnodup Hin0 Hid) as [_ Hst].
    rewrite Hst in Hp. discriminate Hp.
  - destruct (answered_is_final claims rid uB request Hrequest db1 _ "declined"
                HB1 eq_refl ltac:(discriminate)) as [Haccept Hdecline].
    split; eexists; (split; [eassumption | reflexivity]).
Qed.

Lemma decline_server_js_final_witness :
  exists db1,
    try_catch (decline server_js skif_claims (fr_id request_1_js)) sample_pending_js
    = (json (JMessage "Friend request declined."), db1)
    /\ (friends <$> users db1 !! Skif) = Some []
    /\ (friends <$> users db1 !! TestUser1) = Some []
    /\ fst (try_catch (accept server_js skif_claims (fr_id request_1_js)) db1)
       = status_json 404 (JError "Friend request not found or already processed.").
Proof.
  destruct (decline_server_js_final sample_pending_js skif_claims (fr_id request_1_js)
              (set_friendRequests [request_0_js; request_1_js] (sample_user "Skif"))
              request_1_js)
    as (db1 & uB1 & Hrun & _ & Hfriends & _ & _ & _ & (db2 & Hagain & _) & _).
  - vm_compute. reflexivity.
  - vm_compute. reflexivity.
  - reflexivity.
  - reflexivity.
  - cbn. constructor; [intros [H | []]; discriminate H |].
    constructor; [intros [] | constructor].
  - exists db1. split; [exact Hrun |]. rewrite !Hfriends, Hagain.
    split; [vm_compute; reflexivity |]. split; [vm_compute; reflexivity | reflexivity].
Defined.

(** ** Accepting and declining, in both files *)




Lemma status_answered_not_pending (v : Variant) (accepting : bool) :
  status_answered v accepting <> status_default v.
Proof. destruct v, accepting; discriminate. Qed.

Lemma status_answered_ok (v : Variant) (accepting : bool) :
  includes (status_answered v accepting) (status_enum v) = true.
Proof. destruct v, accepting; reflexivity. Qed.

Section Answering.
Context `{Mongoose}.

Variable v : Variant.
Variable db : Db.
Variable claims : Claims.
Variable rid : ObjectId.
Variable uB : User.
Variable request : FriendRequest.

Hypothesis HB : users db !! c_id claims = Some uB.
Hypothesis HvalidB : validate_user v uB = None.
Hypothesis Hrid : is_ObjectId rid = true.
Hypothesis Hrequest :
  List.find (fun r => String.eqb (fr_id r) rid) (friendRequests uB) = Some request.
Hypothesis Hpending : fr_status request = status_default v.
Hypothesis Hnodup : List.NoDup (map fr_id (friendRequests uB)).



Variable uA : User.
Hypothesis HA : users db !! fr_from request = Some uA.
Hypothesis HvalidA : validate_user v uA = None.
Hypothesis Hdistinct : fr_from request <> c_id claims.


End Answering.




(** The process of [part_000] answers no request: evaluating the file
    throws at the Message schema. *)
Lemma part_000_not_served `{Bcrypt} `{Mongoose} (env : Env) (req : Request) (db : Db) :
  served part_000 env req db = None.
Proof. reflexivity. Qed.

Lemma server_js_served `{Bcrypt} `{Mongoose} (env : Env) (req : Request) (db : Db) :
  served server_js env req db = Some (app server_js env req db).
Proof. reflexivity. Qed.

(** ** Registering, then logging in ([server.js]) *)

Lemma find_by_username_insert (name : string) (us : gmap string User)
    (uid : ObjectId) (u : User) :
  (forall other u', us !! other = Some u' -> username u' <> Some name) ->
  username u = Some name ->
  find_by_username name (<[uid := u]> us) = Some (uid, u).
Proof.
  intros Hfree Hname.
  destruct (find_by_username name (<[uid := u]> us)) as [[uid' u'] |] eqn:Hfind.
  - apply find_by_username_Some in Hfind as [Hlookup Hname'].
    destruct (decide (uid = uid')) as [<- | Hne].
    + rewrite lookup_insert_eq in Hlookup. injection Hlookup as <-. reflexivity.
    + rewrite lookup_insert_ne in Hlookup by exact Hne.
      exfalso. exact (Hfree uid' u' Hlookup Hname').
  - exfalso.
    apply (proj1 (find_by_username_None name _) Hfind uid u); [apply lookup_insert_eq | exact Hname].
Qed.

Section RegisterLogin.
Context `{Bcrypt} `{Mongoose}.

Lemma validate_registered (env : Env) (name password steam : string) :
  name <> "" -> steam <> "" -> bcrypt_hash password 10%nat (salt env) <> "" ->
  validate_user server_js (registered env name password steam) = None.
Proof.
  intros Hname Hsteam Hhash. unfold validate_user, registered.
  cbn [username steamId passwordHash createdAtST requires_createdAtST andb faction
       friendRequests forallb].
  rewrite (required_Some name Hname), (required_Some steam Hsteam),
    (required_Some _ Hhash).
  reflexivity.
Qed.

Lemma register_server_js_run (env : Env) (db : Db) (name password steam : string) :
  users db !! fresh env = None ->
  (forall uid u, users db !! uid = Some u -> username u <> Some name) ->
  name <> "" -> steam <> "" -> bcrypt_hash password 10%nat (salt env) <> "" ->
  try_catch (register server_js env (mkRegisterBody (Some name) (Some password) (Some steam))) db
  = (status_json 201
       (JTokenUser (generateToken env (fresh env) (registered env name password steam))
                   (fresh env) (registered env name password steam)),
     with_users (<[fresh env := registered env name password steam]> (users db))
                (log (WriteUser (fresh env) (registered env name password steam)) db)).
Proof.
  intros Hfresh Hfree Hname Hsteam Hhash.
  unfold try_catch, register, bind, ret. cbn [rb_password rb_username rb_steamId].
  cbn [new_User ub_id default]. unfold User_insert, validate_user.
  cbn [username steamId passwordHash createdAtST requires_createdAtST ub_username
       ub_steamId ub_passwordHash ub_createdAtST andb faction friendRequests ub_faction
       ub_friendRequests forallb default].
  rewrite (required_Some name Hname), (required_Some steam Hsteam),
    (required_Some _ Hhash).
  cbn [negb]. change (negb (includes "LONER" (faction_enum server_js))) with false.
  cbv iota. rewrite Hfresh.
  rewrite bool_decide_eq_false_2 by (intros [x Hx]; discriminate).
  rewrite username_taken_false; [reflexivity |].
  intros other u Hu. exact (Hfree other u Hu).
Qed.

(** X13: in [server.js], after a registration that succeeded, a login with
    the same name and password (one that [bcrypt.compare] accepts against
    the stored hash) answers 200 with a token for the registered user, who
    is stored online with the time of the login; a login with a password
    that [bcrypt.compare] rejects answers 401 and changes no user. *)
Theorem register_then_login (env1 env2 : Env) (db : Db) (name password steam : string) :
  users db !! fresh env1 = None ->
  (forall uid u, users db !! uid = Some u -> username u <> Some name) ->
  name <> "" -> steam <> "" ->
  bcrypt_hash password 10%nat (salt env1) <> "" ->
  bcrypt_compare password (bcrypt_hash password 10%nat (salt env1)) = true ->
  let db1 := snd (try_catch (register server_js env1
                               (mkRegisterBody (Some name) (Some password) (Some steam))) db) in
  let online := set_isOnline true
                  (assign_lastLogin server_js (now env2)
                                    (registered env1 name password steam)) in
  fst (try_catch (login server_js env2 (mkLoginBody name password)) db1)
  = json (JTokenUser (generateToken env2 (fresh env1) online) (fresh env1) online)
  /\ users (snd (try_catch (login server_js env2 (mkLoginBody name password)) db1))
       !! fresh env1 = Some online
  /\ isOnline online = true /\ lastLogin online = Some (now env2)
  /\ passwordHash online = Some (bcrypt_hash password 10%nat (salt env1))
  /\ (forall wrong,
        bcrypt_compare wrong (bcrypt_hash password 10%nat (salt env1)) = false ->
        fst (try_catch (login server_js env2 (mkLoginBody name wrong)) db1)
        = status_json 401 (JError "Invalid credentials")
        /\ users (snd (try_catch (login server_js env2 (mkLoginBody name wrong)) db1))
           = users db1).
Proof.
  intros Hfresh Hfree Hname Hsteam Hhash Hcompare db1 online.
  assert (Hdb1 : db1 = with_users (<[fresh env1 := registered env1 name password steam]> (users db))
                         (log (WriteUser (fresh env1) (registered env1 name password steam)) db)).
  { unfold db1.
    rewrite (register_server_js_run env1 db name password steam Hfresh Hfree Hname Hsteam
               Hhash).
    reflexivity. }
  assert (Hfind : find_by_username name (users db1)
                  = Some (fresh env1, registered env1 name password steam)).
  { rewrite Hdb1. cbn [users with_users].
    apply find_by_username_insert; [exact Hfree | reflexivity]. }
  pose proof (validate_registered env1 name password steam Hname Hsteam Hhash) as Hvalid.
  split; [| split; [| split; [| split; [| split]]]]; try reflexivity.
  - rewrite (login_success env2 server_js db1 (mkLoginBody name password) _ _ _
               Hfind eq_refl Hcompare Hvalid).
    reflexivity.
  - rewrite (login_success env2 server_js db1 (mkLoginBody name password) _ _ _
               Hfind eq_refl Hcompare Hvalid).
    cbn [snd users with_users]. apply lookup_insert_eq.
  - intros wrong Hwrong.
    rewrite (login_unauthorized env2 server_js db1 (mkLoginBody name wrong) _ _ _
               Hfind eq_refl Hwrong).
    split; reflexivity.
Qed.

End RegisterLogin.

Lemma register_then_login_witness :
  res_status (fst (try_catch (@login toy_bcrypt server_js later_env
                                (mkLoginBody "Strelok" "hunter2hunter2")) sample_registered))
  = 200
  /\ (lastLogin <$> users (snd (try_catch (@login toy_bcrypt server_js later_env
                                            (mkLoginBody "Strelok" "hunter2hunter2"))
                                         sample_registered)) !! fresh sample_env)
     = Some (Some 5100)
  /\ fst (try_catch (@login toy_bcrypt server_js later_env
                       (mkLoginBody "Strelok" "letmein")) sample_registered)
     = status_json 401 (JError "Invalid credentials").
Proof.
  destruct (@register_then_login toy_bcrypt sample_env later_env
              sample_db "Strelok" "hunter2hunter2" "7656")
    as (Hlogin & Hstored & _ & _ & _ & Hwrong).
  - vm_compute. reflexivity.
  - intros uid u Hu. apply (proj1 (find_by_username_None "Strelok" (users sample_db))
                              ltac:(vm_compute; reflexivity) uid u Hu).
  - discriminate.
  - discriminate.
  - vm_compute. discriminate.
  - vm_compute. reflexivity.
  - split; [| split].
    + unfold sample_registered. rewrite Hlogin. reflexivity.
    + unfold sample_registered. rewrite Hstored. reflexivity.
    + unfold sample_registered. apply Hwrong. vm_compute. reflexivity.
Defined.

(** ** A posted message is listed *)

(** X14: a message created by [POST /messages] is appended to the
    collection, users and notes staying as they are; its recipient is the
    cast of the one the body gives.  Posted without a recipient it is one
    more global message, which the global listing now counts; posted with
    a recipient it is in the conversation of the author and the recipient,
    whichever of the two asks, and the global messages are what they
    were. *)
Theorem post_message_listed `{Mongoose} (v : Variant) (env : Env) (claims : Claims)
    (body : MessageBody) (db db' : Db) (m : Message) (content : string) :
  try_catch (post_message v env claims body) db = (status_json 201 (JCreatedMessage m), db') ->
  mb_content body = Some content -> content <> "" ->
  (requires_createdAtST v = true -> exists st, mb_createdAtST body = Some st /\ st <> "") ->
  messages db' = (messages db ++ [m])%list
  /\ users db' = users db /\ notes db' = notes db
  /\ m_userId m = c_id claims
  /\ cast_given "recipientId" (mb_recipientId body) = inr (m_recipientId m)
  /\ (mb_recipientId body = None ->
      Permutation (global_messages db') (m :: global_messages db)
      /\ length (global_messages db') = S (length (global_messages db)))
  /\ (forall r, m_recipientId m = Some r ->
      global_messages db' = global_messages db
      /\ In m (List.filter (is_direct (c_id claims) r) (messages db'))
      /\ In m (List.filter (is_direct r (c_id claims)) (messages db'))).
Proof.
  intros Hrun _ _ _.
  unfold try_catch, post_message, bind, ret, Message_save in Hrun.
  cbn [new_Message spread_with_userId mb_userId mb_id mb_recipientId] in Hrun.
  destruct (new_id env (mb_id body)) as [e | mid]; [discriminate Hrun |].
  destruct (cast_given "recipientId" (mb_recipientId body)) as [e | recipient] eqn:Hcast;
    [discriminate Hrun |].
  match type of Hrun with
  | context [required (m_content ?d)] => set (doc := d) in *
  end.
  destruct (negb (required (m_content doc))); [discriminate Hrun |].
  destruct (requires_createdAtST v && negb (required (m_createdAtST doc)));
    [discriminate Hrun |].
  destruct (existsb _ (messages db)); [discriminate Hrun |].
  injection Hrun as <- <-. cbn [messages users notes with_messages log].
  split; [reflexivity |]. split; [reflexivity |]. split; [reflexivity |].
  split; [reflexivity |]. split; [reflexivity |].
  assert (Hrecipient : m_recipientId doc = recipient) by reflexivity.
  assert (Hauthor : m_userId doc = c_id claims) by reflexivity.
  split.
  - intros Hnone. rewrite Hnone in Hcast. injection Hcast as <-.
    assert (Hg : is_global doc = true).
    { unfold is_global. rewrite Hrecipient. reflexivity. }
    assert (Hperm : Permutation (global_messages (with_messages (messages db ++ [doc])
                                                    (log (Write "messages") db)))
                                (doc :: global_messages db)).
    { unfold global_messages. cbn [messages with_messages].
      rewrite List.filter_app. cbn [List.filter]. rewrite Hg.
      rewrite !sort_newest_first_perm.
      rewrite Permutation_app_comm. reflexivity. }
    split; [exact Hperm |]. exact (Permutation_length Hperm).
  - intros r Hsome.
    assert (Hg : is_global doc = false).
    { unfold is_global. rewrite Hsome. reflexivity. }
    assert (Hd : is_direct (c_id claims) r doc = true).
    { unfold is_direct. rewrite Hauthor, Hsome, String.eqb_refl.
      rewrite bool_decide_eq_true_2 by reflexivity. reflexivity. }
    split; [| split].
    + unfold global_messages. cbn [messages with_messages].
      rewrite List.filter_app. cbn [List.filter]. rewrite Hg. rewrite app_nil_r. reflexivity.
    + apply filter_In. split; [apply in_or_app; right; left; reflexivity | exact Hd].
    + apply filter_In. split; [apply in_or_app; right; left; reflexivity |].
      rewrite is_direct_sym. exact Hd.
Qed.

Lemma post_message_listed_witness :
  exists m db',
    try_catch (@post_message newer_mongoose part_000 sample_env skif_claims
                 (mkMessageBody None None (Some "676449D6DD307BEF7516D90C")
                                (Some "Meet at the bar") None None
                                (Some "2012-05-01 07:00"))) sample_board
    = (status_json 201 (JCreatedMessage m), db')
    /\ m_recipientId m = Some TestUser1
    /\ global_messages db' = global_messages sample_board
    /\ length (List.filter (is_direct TestUser1 Skif) (messages db')) = 3%nat.
Proof.
  destruct (try_catch (@post_message newer_mongoose part_000 sample_env skif_claims
                         (mkMessageBody None None (Some "676449D6DD307BEF7516D90C")
                                        (Some "Meet at the bar") None None
                                        (Some "2012-05-01 07:00"))) sample_board)
    as [r db'] eqn:Hrun.
  assert (Hfst : fst (try_catch (@post_message newer_mongoose part_000 sample_env skif_claims
                          (mkMessageBody None None (Some "676449D6DD307BEF7516D90C")
                                         (Some "Meet at the bar") None None
                                         (Some "2012-05-01 07:00"))) sample_board)
                 = r) by (rewrite Hrun; reflexivity).
  assert (Hr : exists m, r = status_json 201 (JCreatedMessage m)
                         /\ m_recipientId m = Some TestUser1 /\ m_userId m = Skif).
  { rewrite <- Hfst. eexists. split; [| split]; vm_compute; reflexivity. }
  destruct Hr as (m & -> & Hrecipient & Hauthor).
  destruct (@post_message_listed newer_mongoose part_000 sample_env skif_claims _
              sample_board db' m "Meet at the bar" Hrun eq_refl)
    as (Hmessages & _ & _ & _ & _ & _ & Hdirect).
  - discriminate.
  - intros _. eexists. split; [reflexivity | discriminate].
  - exists m, db'. split; [reflexivity |]. split; [exact Hrecipient |].
    destruct (Hdirect TestUser1 Hrecipient) as (Hglobal & _ & _).
    split; [exact Hglobal |].
    rewrite Hmessages, List.filter_app, length_app.
    cbn [List.filter]. unfold is_direct at 2. rewrite Hauthor, Hrecipient.
    vm_compute. reflexivity.
Defined.

(** ** What no request does to the accounts and to the messages *)

Ltac exec_unfold :=
  unfold try_catch, bind, ret, send, throw, lift, null_user,
    User_findById, User_findOne, User_save, User_insert,
    populate_requests, populate_friends, populate_messages,
    Message_countDocuments, Message_find, Message_save,
    Note_save, Note_find, Note_findByIdAndUpdate, Note_findByIdAndDelete.

Ltac exec_reduce :=
  cbn [fst snd users messages notes oplog with_users with_messages with_notes log].

(** One case split, on a scrutinee that holds no other [match]. *)
Ltac exec_case :=
  match goal with
  | |- context [match ?x with _ => _ end] =>
      lazymatch x with
      | context [match _ with _ => _ end] => fail
      | _ => destruct x eqn:?
      end
  end.

(** Runs a handler along each of its paths. *)
Ltac exec := repeat (repeat (progress exec_unfold); exec_reduce; try exec_case).

Ltac unfold_handlers :=
  unfold register, login, logout, post_users, get_user, messages_global, messages_direct,
    post_message, get_notes, post_note, put_note, delete_note, send_request, respond,
    accept, decline, list_pending, new_User.

Ltac goal_decide :=
  match goal with |- context [@decide ?P ?dec] => destruct (@decide P dec) end.

Ltac hyp_decide H :=
  match type of H with context [@decide ?P ?dec] => destruct (@decide P dec) end.

Ltac tidy :=
  repeat match goal with
    | H : find_by_username _ _ = Some (_, _) |- _ =>
        apply find_by_username_Some in H as [? ?]
    | H : bool_decide (is_Some _) = false |- _ => apply bool_decide_eq_false in H
    | H : _ <$> _ !! _ = Some _ |- _ => apply fmap_Some in H as (? & ? & ?)
    | H : <[_ := _]> _ !! _ = _ |- _ => rewrite lookup_insert in H; hyp_decide H
    end.

Ltac same_doc :=
  repeat match goal with
    | H1 : users ?d !! ?a = Some ?x, H2 : users ?d !! ?b = Some ?y |- _ =>
        tryif constr_eq x y then fail
        else (assert (x = y) by congruence; subst)
    end.

Ltac grown :=
  first [ exists []; rewrite app_nil_r; reflexivity
        | eexists; reflexivity
        | eexists; rewrite <- app_assoc; reflexivity ].

(** The account read at the end of a path is the account at its start, up
    to what [keeps_accounts] allows. *)
Ltac account :=
  tidy;
  repeat (rewrite lookup_insert; goal_decide);
  simplify_eq; same_doc;
  try (exfalso; eauto; fail);
  eexists; (split; [first [eassumption | reflexivity] |]);
  unfold assign_lastLogin, push_request, push_friend; try destruct (has_path_lastLogin _);
  cbn [username steamId passwordHash createdAt createdAtST faction friends
       set_friends set_friendRequests set_isOnline];
  repeat (split; [reflexivity |]); grown.

Ltac appended :=
  first [ exists []; rewrite app_nil_r; reflexivity | eexists; reflexivity ].

Lemma keeps_accounts_refl (db : Db) : keeps_accounts db db.
Proof.
  intros uid u Hu. exists u. split; [exact Hu |]. repeat (split; [reflexivity |]).
  exists []. symmetry. apply app_nil_r.
Qed.

Lemma keeps_accounts_trans (db0 db1 db2 : Db) :
  keeps_accounts db0 db1 -> keeps_accounts db1 db2 -> keeps_accounts db0 db2.
Proof.
  intros H01 H12 uid u Hu.
  destruct (H01 uid u Hu) as (u1 & Hu1 & Hn1 & Hs1 & Hp1 & Hc1 & Hst1 & Hfa1 & l1 & Hf1).
  destruct (H12 uid u1 Hu1) as (u2 & Hu2 & Hn2 & Hs2 & Hp2 & Hc2 & Hst2 & Hfa2 & l2 & Hf2).
  exists u2. split; [exact Hu2 |].
  repeat (split; [congruence |]).
  exists (l1 ++ l2)%list. rewrite Hf2, Hf1. symmetry. apply app_assoc.
Qed.

Lemma keeps_accounts_authenticate (env : Env) (h : option Token)
    (handler : Claims -> Async Response) (db : Db) :
  (forall req_user, keeps_accounts db (snd (try_catch (handler req_user) db))) ->
  keeps_accounts db
    (snd (authenticate env h (fun req_user => try_catch (handler req_user)) db)).
Proof.
  intros Hh. unfold authenticate.
  destruct (no_header h); [apply keeps_accounts_refl |].
  destruct h as [t |]; [| apply keeps_accounts_refl].
  destruct (jwt_verify t (JWT_SECRET env) (now env)) as [e | decoded];
    [apply keeps_accounts_refl | apply Hh].
Qed.

(** One request, whatever it is and whoever sends it, keeps the accounts. *)
Lemma app_keeps_accounts `{Bcrypt} `{Mongoose} (v : Variant) (env : Env) (req : Request) (db : Db) :
  keeps_accounts db (snd (app v env req db)).
Proof.
  unfold app.
  destruct (route req); cbv zeta; try destruct v;
    try apply keeps_accounts_refl;
    try (apply keeps_accounts_authenticate; intros req_user).
  all: intros uid0 u0 Hu0; unfold_handlers; exec; account.
Qed.

(** X15: whatever requests are served, one after the other, by either file:
    no account is deleted, and no account's username, Steam id, password
    hash, creation dates or faction is changed; a friend list only grows at
    its end.  No route removes a user or a friend, and no route changes a
    password. *)
Theorem serve_keeps_accounts `{Bcrypt} `{Mongoose} (v : Variant) (trace : list (Env * Request)) (db : Db) :
  keeps_accounts db (serve v trace db).
Proof.
  revert db. induction trace as [| [env req] rest IH]; intros db.
  - apply keeps_accounts_refl.
  - cbn [serve].
    exact (keeps_accounts_trans _ _ _ (app_keeps_accounts v env req db) (IH _)).
Qed.

Lemma serve_keeps_accounts_witness :
  exists u',
    users (@serve toy_bcrypt newer_mongoose part_000 sample_trace sample_db) !! Skif = Some u'
    /\ username u' = Some "Skif"
    /\ passwordHash u' = Some "$2a$NaCl$zone"
    /\ exists l, friends u' = l.
Proof.
  destruct (@serve_keeps_accounts toy_bcrypt newer_mongoose part_000 sample_trace sample_db
              Skif (sample_user "Skif") ltac:(vm_compute; reflexivity))
    as (u' & Hu' & Hname & _ & Hhash & _ & _ & _ & l & Hl).
  exists u'. split; [exact Hu' |]. split; [exact Hname |]. split; [exact Hhash |].
  exists l. exact Hl.
Defined.

Lemma appends_messages_refl (db : Db) : appends_messages db db.
Proof. exists []. symmetry. apply app_nil_r. Qed.

Lemma appends_messages_trans (db0 db1 db2 : Db) :
  appends_messages db0 db1 -> appends_messages db1 db2 -> appends_messages db0 db2.
Proof.
  intros [l1 H1] [l2 H2]. exists (l1 ++ l2)%list. rewrite H2, H1. symmetry. apply app_assoc.
Qed.

Lemma appends_messages_authenticate (env : Env) (h : option Token)
    (handler : Claims -> Async Response) (db : Db) :
  (forall req_user, appends_messages db (snd (try_catch (handler req_user) db))) ->
  appends_messages db
    (snd (authenticate env h (fun req_user => try_catch (handler req_user)) db)).
Proof.
  intros Hh. unfold authenticate.
  destruct (no_header h); [apply appends_messages_refl |].
  destruct h as [t |]; [| apply appends_messages_refl].
  destruct (jwt_verify t (JWT_SECRET env) (now env)) as [e | decoded];
    [apply appends_messages_refl | apply Hh].
Qed.

Lemma app_appends_messages `{Bcrypt} `{Mongoose} (v : Variant) (env : Env) (req : Request) (db : Db) :
  appends_messages db (snd (app v env req db)).
Proof.
  unfold app.
  destruct (route req); cbv zeta; try destruct v;
    try apply appends_messages_refl;
    try (apply appends_messages_authenticate; intros req_user).
  all: unfold appends_messages; unfold_handlers; exec; appended.
Qed.

(** X16: whatever requests are served, the messages that were stored are
    still stored, unchanged and in their order, before the ones created
    since: no route edits or deletes a message, and none sets [isRead]. *)
Theorem serve_appends_messages `{Bcrypt} `{Mongoose} (v : Variant) (trace : list (Env * Request))
    (db : Db) :
  appends_messages db (serve v trace db).
Proof.
  revert db. induction trace as [| [env req] rest IH]; intros db.
  - apply appends_messages_refl.
  - cbn [serve].
    exact (appends_messages_trans _ _ _ (app_appends_messages v env req db) (IH _)).
Qed.

Lemma serve_appends_messages_witness :
  exists l,
    messages (@serve toy_bcrypt newer_mongoose part_000 sample_post sample_board)
    = (messages sample_board ++ l)%list
    /\ length l = 1%nat.
Proof.
  destruct (@serve_appends_messages toy_bcrypt newer_mongoose part_000 sample_post sample_board) as [l Hl].
  exists l. split; [exact Hl |].
  apply (f_equal (@length Message)) in Hl. rewrite length_app in Hl.
  assert (Hn : length (messages (@serve toy_bcrypt newer_mongoose part_000 sample_post sample_board))
               = 28%nat) by (vm_compute; reflexivity).
  assert (Hb : length (messages sample_board) = 27%nat) by (vm_compute; reflexivity).
  lia.
Defined.

(** ** What sending a friend request writes *)

(** X17: [POST /friend-requests] answers 201 only when the [toUserId] of
    the body is a string other than the id of the caller, the string is
    cast to the id of a stored user, that user has not the sender among
    the friends, and the request list of that user is empty; it then
    stores that user with one record, from the sender to the id that was
    cast, with the default status of the file.  With any other answer no
    user is written.  So a user who holds a record, answered or not,
    receives no further request.  The check against oneself is on the
    strings, before the cast: it does not make the recipient another
    user. *)
Theorem send_request_sent `{Mongoose} (v : Variant) (env : Env) (claims : Claims)
    (toUserId : option string) (db : Db) :
  let run := try_catch (send_request v env claims toUserId) db in
  (res_status (fst run) = 201 ->
   exists given to recipient,
     toUserId = Some given /\ given <> c_id claims
     /\ castObjectId given = Some to
     /\ users db !! to = Some recipient
     /\ friendRequests recipient = []
     /\ includes (c_id claims) (friends recipient) = false
     /\ users (snd run)
        = <[to := set_friendRequests
                    [mkFriendRequest (fresh env) (c_id claims) to (status_default v)]
                    recipient]> (users db))
  /\ (res_status (fst run) <> 201 -> users (snd run) = users db).
Proof.
  cbv zeta. unfold send_request. exec.
  all: split; [intros Hsent | intros Hnot]; try discriminate Hsent;
    try reflexivity; try (exfalso; apply Hnot; reflexivity).
  all: match goal with
       | Hself : bool_decide _ = false,
         Hcast : cast _ _ = inr _,
         Hfound : _ <$> _ !! _ = Some _,
         Hfind : array_find existing_request_callback (friendRequests ?u) = _ |- _ =>
           apply bool_decide_eq_false in Hself;
           apply cast_inr_inv in Hcast;
           apply fmap_Some in Hfound as (? & ? & ?);
           rewrite array_find_existing_request in Hfind;
           destruct (friendRequests u) as [| r rs] eqn:Hrs; [| discriminate Hfind]
       end.
  simplify_eq.
  eexists _, _, _. split; [reflexivity |].
  split; [congruence |]. split; [eassumption |]. split; [eassumption |].
  split; [exact Hrs |]. split; [assumption |].
  unfold push_request. rewrite Hrs. reflexivity.
Qed.

Lemma send_request_sent_witness :
  (friendRequests <$>
     users (snd (try_catch (@send_request newer_mongoose part_000 sample_env
                              (claims_of TestUser1 "TestUser1" 4000)
                              (Some "6762CC5B39D00D9A50084F47"))
                           sample_db)) !! Skif)
  = Some [mkFriendRequest "6764a0000000000000000001" TestUser1 Skif "PENDING"]
  /\ users (snd (try_catch (@send_request newer_mongoose part_000 later_env
                              (claims_of NikolaiVoronov "NikolaiVoronov" 4000) (Some Skif))
                           sample_pending))
     = users sample_pending.
Proof.
  split.
  - pose proof (@send_request_sent newer_mongoose part_000 sample_env
                  (claims_of TestUser1 "TestUser1" 4000)
                  (Some "6762CC5B39D00D9A50084F47") sample_db) as Hsent.
    cbv zeta in Hsent. destruct Hsent as [Hsent _].
    destruct Hsent as (given & to & recipient & Hgiven & _ & Hcast & Hrec & _ & _ & Husers);
      [vm_compute; reflexivity |].
    injection Hgiven as <-.
    assert (Hto : to = Skif) by (vm_compute in Hcast; injection Hcast as <-; reflexivity).
    subst to. rewrite Husers, lookup_insert_eq.
    assert (Hskif : users sample_db !! Skif = Some (sample_user "Skif"))
      by (vm_compute; reflexivity).
    rewrite Hskif in Hrec. injection Hrec as <-. reflexivity.
  - apply (@send_request_sent newer_mongoose part_000 later_env
             (claims_of NikolaiVoronov "NikolaiVoronov" 4000) (Some Skif) sample_pending).
    vm_compute. discriminate.
Defined.

(** X12: the check of [POST /friend-requests] against a request to oneself
    compares the string of the body with the id of the token, and
    [findById] and [push] then cast the string.  So a caller who spells
    their own id otherwise (in upper case, say), who has no request yet
    and is not their own friend, is answered 201 and is stored with a
    pending request from and to themselves.  This is so in both files. *)
Theorem send_request_to_oneself `{Mongoose} (v : Variant) (env : Env) (claims : Claims)
    (given : string) (db : Db) (u : User) :
  given <> c_id claims ->
  castObjectId given = Some (c_id claims) ->
  users db !! c_id claims = Some u ->
  includes (c_id claims) (friends u) = false ->
  friendRequests u = [] ->
  validate_user v u = None ->
  let run := try_catch (send_request v env claims (Some given)) db in
  fst run = status_json 201 (JMessage "Friend request sent successfully.")
  /\ users (snd run) !! c_id claims
     = Some (set_friendRequests
               [mkFriendRequest (fresh env) (c_id claims) (c_id claims) (status_default v)] u).
Proof.
  intros Hne Hcast Hu Hfriend Hrs Hvalid. cbv zeta.
  assert (Hne' : c_id claims <> given) by congruence.
  pose proof (send_request_first v env claims db given (c_id claims) u Hne' Hcast Hu Hfriend
                Hrs Hvalid) as Hrun.
  cbv zeta in Hrun. rewrite Hrun. split; [reflexivity |].
  cbn [snd users with_users log]. apply lookup_insert_eq.
Qed.

Lemma send_request_to_oneself_witness :
  fst (try_catch (@send_request newer_mongoose server_js sample_env
                    (claims_of TestUser1 "TestUser1" 4000)
                    (Some "676449D6DD307BEF7516D90C")) sample_db)
  = status_json 201 (JMessage "Friend request sent successfully.")
  /\ (friendRequests <$>
        users (snd (try_catch (@send_request newer_mongoose server_js sample_env
                                 (claims_of TestUser1 "TestUser1" 4000)
                                 (Some "676449D6DD307BEF7516D90C")) sample_db))
          !! TestUser1)
     = Some [mkFriendRequest "6764a0000000000000000001" TestUser1 TestUser1 "pending"].
Proof.
  destruct (@send_request_to_oneself newer_mongoose server_js sample_env
              (claims_of TestUser1 "TestUser1" 4000) "676449D6DD307BEF7516D90C"
              sample_db (sample_user "TestUser1")) as [Hanswer Hstored].
  - discriminate.
  - vm_compute. reflexivity.
  - vm_compute. reflexivity.
  - reflexivity.
  - reflexivity.
  - vm_compute. reflexivity.
  - split; [exact Hanswer |].
    exact (f_equal (fmap friendRequests) Hstored).
Defined.

(** ** Logging in *)

(** X18: [POST /auth/login] answers 200 only when a stored user has the
    name of the body and [bcrypt.compare] accepts the password of the body
    for the hash stored with that user; the answer then carries a token
    made for that user and the user, marked online, which is what is
    stored.  With any other answer (404, 401 or 400) no user is
    written. *)
Theorem login_sound `{Bcrypt} (v : Variant) (env : Env) (body : LoginBody) (db : Db) :
  let run := try_catch (login v env body) db in
  (res_status (fst run) = 200 ->
   exists uid u h,
     users db !! uid = Some u
     /\ username u = Some (lb_username body)
     /\ passwordHash u = Some h
     /\ bcrypt_compare (lb_password body) h = true
     /\ let u' := set_isOnline true (assign_lastLogin v (now env) u) in
        fst run = json (JTokenUser (generateToken env uid u') uid u')
        /\ users (snd run) = <[uid := u']> (users db))
  /\ (res_status (fst run) <> 200 -> users (snd run) = users db).
Proof.
  cbv zeta. unfold login. exec.
  all: split; [intros Hok | intros Hnot]; try discriminate Hok;
    try reflexivity; try (exfalso; apply Hnot; reflexivity).
  match goal with
  | Hfind : find_by_username _ _ = Some _ |- _ =>
      apply find_by_username_Some in Hfind as [Hu Hname]
  end.
  match goal with
  | Hcmp : negb _ = false |- _ => apply negb_false_iff in Hcmp
  end.
  eexists _, _, _. split; [exact Hu |]. split; [exact Hname |].
  split; [eassumption |]. split; [eassumption |]. split; reflexivity.
Qed.

Lemma login_sound_witness :
  (exists uid u h,
      users sample_db !! uid = Some u
      /\ username u = Some "Skif"
      /\ passwordHash u = Some h
      /\ @bcrypt_compare toy_bcrypt "zone" h = true)
  /\ users (snd (try_catch (@login toy_bcrypt part_000 sample_env
                              (mkLoginBody "Skif" "swamp")) sample_db))
     = users sample_db.
Proof.
  split.
  - pose proof (@login_sound toy_bcrypt part_000 sample_env (mkLoginBody "Skif" "zone")
                  sample_db) as Hsound.
    cbv zeta in Hsound. destruct Hsound as [Hok _].
    destruct Hok as (uid & u & h & Hu & Hname & Hhash & Hcmp & _);
      [vm_compute; reflexivity |].
    exists uid, u, h. repeat split; assumption.
  - apply (@login_sound toy_bcrypt part_000 sample_env (mkLoginBody "Skif" "swamp") sample_db).
    vm_compute. discriminate.
Defined.

(** ** Logging out *)

Lemma validate_user_set_isOnline (v : Variant) (u : User) (b : bool) :
  validate_user v (set_isOnline b u) = validate_user v u.
Proof. reflexivity. Qed.

(** X19: [POST /auth/logout] stores the caller offline and answers 200,
    and that is all it does: the token is not revoked.  The same token,
    sent again while its signature and expiry hold, is accepted again, and
    the second logout answers and stores what the first did. *)
Theorem logout_keeps_token `{Bcrypt} `{Mongoose} (v : Variant) (env1 env2 : Env) (key : string)
    (claims : Claims) (u : User) (db : Db) :
  accepted env1 (Some (Signed key claims)) = true ->
  accepted env2 (Some (Signed key claims)) = true ->
  users db !! c_id claims = Some u ->
  validate_user v u = None ->
  let req := mkRequest (Some (Signed key claims)) POST_auth_logout in
  let first := app v env1 req db in
  let second := app v env2 req (snd first) in
  fst first = json (JMessage "Logged out successfully")
  /\ users (snd first) = <[c_id claims := set_isOnline false u]> (users db)
  /\ fst second = json (JMessage "Logged out successfully")
  /\ users (snd second) = users (snd first).
Proof.
  intros Hacc1 Hacc2 Hu Hvalid. cbv zeta.
  assert (Hrun : forall env d w,
             accepted env (Some (Signed key claims)) = true ->
             users d !! c_id claims = Some w -> validate_user v w = None ->
             app v env (mkRequest (Some (Signed key claims)) POST_auth_logout) d
             = (json (JMessage "Logged out successfully"),
                with_users (<[c_id claims := set_isOnline false w]> (users d))
                  (log (WriteUser (c_id claims) (set_isOnline false w))
                       (log (Read "users") d)))).
  { intros env d w Hacc Hw Hv. unfold app. cbn [route authorization].
    rewrite (authenticate_accepted env key claims _ d Hacc).
    unfold try_catch, logout, bind, User_findById, User_save, ret.
    rewrite Hw, validate_user_set_isOnline, Hv. reflexivity. }
  rewrite (Hrun env1 db u Hacc1 Hu Hvalid). cbn [fst snd].
  rewrite (Hrun env2 _ (set_isOnline false u) Hacc2);
    [| cbn [users with_users]; apply lookup_insert_eq | exact Hvalid].
  cbn [fst snd users with_users].
  repeat split. apply insert_insert_eq.
Qed.

Lemma logout_keeps_token_witness :
  fst (@app toy_bcrypt newer_mongoose part_000 later_env (mkRequest skif_token POST_auth_logout)
         (snd (@app toy_bcrypt newer_mongoose part_000 sample_env (mkRequest skif_token POST_auth_logout)
                 sample_db)))
  = json (JMessage "Logged out successfully")
  /\ (isOnline <$>
        users (snd (@app toy_bcrypt newer_mongoose part_000 sample_env
                      (mkRequest skif_token POST_auth_logout) sample_db)) !! Skif)
     = Some false.
Proof.
  destruct (@logout_keeps_token toy_bcrypt newer_mongoose part_000 sample_env later_env "s3cr3t"
              skif_claims (sample_user "Skif") sample_db)
    as (_ & Hstored & Hsecond & _).
  - reflexivity.
  - reflexivity.
  - vm_compute. reflexivity.
  - reflexivity.
  - split; [exact Hsecond |].
    unfold skif_token. fold skif_claims. rewrite Hstored.
    change (c_id skif_claims) with Skif. rewrite lookup_insert_eq. reflexivity.
Defined.

(** ** Reading a user *)

(** X20: [GET /users/:id], for an [id] that is cast to the id of a stored
    user, answers any caller whose token is accepted with the stored
    document of the user, as it is, password hash included, and with the
    stored documents of the friends that exist, in the order of the friend
    list; a friend that is no user is left out. *)
Theorem get_user_exposes `{Bcrypt} `{Mongoose} (v : Variant) (env : Env) (key : string)
    (claims : Claims) (id : string) (uid : ObjectId) (u : User) (db : Db) :
  accepted env (Some (Signed key claims)) = true ->
  castObjectId id = Some uid ->
  users db !! uid = Some u ->
  exists populated,
    fst (app v env (mkRequest (Some (Signed key claims)) (GET_users id)) db)
    = json (JUserWithFriends uid u populated)
    /\ map fst populated
       = List.filter (fun f => bool_decide (is_Some (users db !! f))) (friends u)
    /\ forall f w, In (f, w) populated -> users db !! f = Some w.
Proof.
  intros Hacc Hcast Hu. unfold app. cbn [route authorization].
  rewrite (authenticate_accepted env key claims _ db Hacc).
  unfold try_catch, get_user, bind, lift, User_findById, populate_friends, ret.
  rewrite (cast_inr "_id" id uid Hcast), Hu. cbn [fst snd users log].
  eexists. split; [reflexivity |]. split.
  - induction (friends u) as [| f fs IH]; [reflexivity |].
    cbn [omap list_omap List.filter].
    destruct (users db !! f) as [w |] eqn:Hf; cbn [fmap option_fmap option_map].
    + rewrite bool_decide_eq_true_2 by eauto. cbn [map fst]. f_equal. exact IH.
    + rewrite bool_decide_eq_false_2 by (intros [? ?]; discriminate). exact IH.
  - intros f w Hin. apply list_elem_of_In, list_elem_of_omap in Hin as (f' & _ & Hf').
    destruct (users db !! f') as [w' |] eqn:Hw; [| discriminate Hf'].
    injection Hf' as <- <-. exact Hw.
Qed.

Lemma get_user_exposes_witness :
  exists populated,
    fst (@app toy_bcrypt newer_mongoose server_js sample_env
           (mkRequest testuser1_token (GET_users "6762CC5B39D00D9A50084F47")) sample_friends)
    = json (JUserWithFriends Skif
              (set_friends [TestUser1; "6762000000000000000000aa"] (sample_user "Skif"))
              populated)
    /\ map fst populated = [TestUser1]
    /\ passwordHash (set_friends [TestUser1; "6762000000000000000000aa"] (sample_user "Skif"))
       = Some "$2a$NaCl$zone".
Proof.
  destruct (@get_user_exposes toy_bcrypt newer_mongoose server_js sample_env "s3cr3t"
              (claims_of TestUser1 "TestUser1" 4000) "6762CC5B39D00D9A50084F47" Skif
              (set_friends [TestUser1; "6762000000000000000000aa"] (sample_user "Skif"))
              sample_friends)
    as (populated & Hanswer & Hfriends & _).
  - reflexivity.
  - vm_compute. reflexivity.
  - vm_compute. reflexivity.
  - exists populated. split; [exact Hanswer |]. split; [| reflexivity].
    rewrite Hfriends. vm_compute. reflexivity.
Defined.

(** ** Sending a request, then listing *)

(** X21: A, a user, sends a request with a [toUserId] that is cast to the
    id of B, another user, whose document satisfies the schema, whose
    request list is empty and who has not A among the friends.  The answer
    is 201.  When B then lists the pending requests, [server.js] answers
    with that one record, with A's id and username as the sender and the
    status ['pending']; [part_000] answers with the empty list, the record
    being stored as ['PENDING']. *)
Theorem send_then_list `{Mongoose} (v : Variant) (env : Env) (claimsA claimsB : Claims)
    (to : string) (uA uB : User) (db : Db) :
  c_id claimsA <> c_id claimsB ->
  c_id claimsA <> to ->
  castObjectId to = Some (c_id claimsB) ->
  users db !! c_id claimsA = Some uA ->
  users db !! c_id claimsB = Some uB ->
  validate_user v uB = None ->
  friendRequests uB = [] ->
  includes (c_id claimsA) (friends uB) = false ->
  let sent := try_catch (send_request v env claimsA (Some to)) db in
  let listed := try_catch (list_pending v claimsB) (snd sent) in
  fst sent = status_json 201 (JMessage "Friend request sent successfully.")
  /\ fst listed
     = json (JRequests
               match v with
               | server_js =>
                   [mkPopulatedRequest (fresh env)
                      (Some (mkSender (c_id claimsA) (username uA) None))
                      (c_id claimsB) "pending"]
               | part_000 => []
               end).
Proof.
  intros Hne Hto Hcast HA HB Hvalid Hrs Hfriend. cbv zeta.
  rewrite (send_request_first v env claimsA db to (c_id claimsB) uB Hto Hcast HB Hfriend Hrs
             Hvalid).
  cbn [fst snd]. split; [reflexivity |].
  erewrite list_pending_run by (cbn [users with_users log]; apply lookup_insert_eq).
  cbn [fst users with_users log friendRequests set_friendRequests map].
  unfold populate_request. cbn [fr_from fr_id fr_to fr_status].
  rewrite lookup_insert_ne by congruence. rewrite HA.
  destruct v; reflexivity.
Qed.

Lemma send_then_list_witness :
  fst (try_catch (list_pending server_js skif_claims)
         (snd (try_catch (@send_request newer_mongoose server_js sample_env
                            (claims_of TestUser1 "TestUser1" 4000)
                            (Some "6762CC5B39D00D9A50084F47"))
                         sample_db)))
  = json (JRequests [mkPopulatedRequest "6764a0000000000000000001"
                       (Some (mkSender TestUser1 (Some "TestUser1") None)) Skif "pending"])
  /\ fst (try_catch (list_pending part_000 skif_claims)
            (snd (try_catch (@send_request older_mongoose part_000 sample_env
                               (claims_of TestUser1 "TestUser1" 4000) (Some Skif))
                            sample_db)))
     = json (JRequests []).
Proof.
  split.
  - apply (@send_then_list newer_mongoose server_js sample_env
             (claims_of TestUser1 "TestUser1" 4000) skif_claims "6762CC5B39D00D9A50084F47"
             (sample_user "TestUser1") (sample_user "Skif") sample_db);
      first [discriminate | vm_compute; reflexivity].
  - apply (@send_then_list older_mongoose part_000 sample_env
             (claims_of TestUser1 "TestUser1" 4000) skif_claims Skif
             (sample_user "TestUser1") (sample_user "Skif") sample_db);
      first [discriminate | vm_compute; reflexivity].
Defined.
